(** * bluesky_tool: a shallow embedding of the engagement engine

    The development follows the layout of the package:
    - [Py]: the Python values and library functions the package relies on
      (JSON values as decoded by [json]/[requests], exceptions, truthiness,
      [str.format_map]);
    - [Storage]: [storage.py] ([TargetState], [AccountState], [StateStore]);
    - [Client]: [client.py] ([BlueskyClient] over an abstract remote service);
    - [Automator]: [automator.py] ([BlueskyAutomator]).

    Strings are sequences of 8-bit characters; sets and dictionaries keyed by
    strings are stdpp's [gset] and [gmap]. *)

From Stdlib Require Import ZArith QArith String Ascii List Bool Lia.
From stdpp Require Import base option list sets gmap strings sorting.

Set Warnings "-register-all".
Local Open Scope string_scope.
Local Open Scope Z_scope.

(* ===================================================================== *)
(** * Python values and library functions *)
(* ===================================================================== *)

Module Py.

(** A value decoded from JSON ([response.json()], [json.load]).  Python's
    [None] is [JNull].  A [JDict] lists the items of a Python [dict]: every key
    occurs once. *)
Inductive json : Type :=
| JNull
| JBool (b : bool)
| JInt (n : Z)
| JFloat (q : Q)
| JStr (s : string)
| JList (items : list json)
| JDict (items : list (string * json)).

(** The exceptions that occur in the package.  [DirectMessageNotSupported] is a
    subclass of [BlueskyError]; [TransportError] stands for what
    [requests.Session.request] raises itself (connection errors, timeouts). *)
Inductive exn : Type :=
| BlueskyError
| DirectMessageNotSupported
| AttributeError
| TypeError
| ValueError
| OverflowError
| TransportError.

(** [isinstance(e, BlueskyError)]: what [except BlueskyError] catches. *)
Definition is_BlueskyError (e : exn) : bool :=
  match e with
  | BlueskyError | DirectMessageNotSupported => true
  | _ => false
  end.

(** Why an evaluation of the model stops without a Python outcome. *)
Inductive halt : Type :=
| OutOfFuel     (* a [while True] loop was cut by the fuel of the model *)
| BeyondModel.  (* the input leaves the fragment of Python that is modelled *)

Inductive result (A : Type) : Type :=
| Ok (a : A)
| Raise (e : exn)
| Halt (h : halt).
Arguments Ok {A} a.
Arguments Raise {A} e.
Arguments Halt {A} h.

Definition rbind {A B} (r : result A) (k : A -> result B) : result B :=
  match r with
  | Ok a => k a
  | Raise e => Raise e
  | Halt h => Halt h
  end.

(** The library functions that are taken as given: [str()] of a number or a
    container, ISO-8601 parsing and printing of [datetime], and
    [timedelta(hours=h)].  A [datetime] is its wall-clock reading in
    microseconds with its UTC offset ([None] when naive); an aware instant and
    a [timedelta] are microseconds. *)
Record datetime : Type := { wall : Z; utcoffset : option Z }.

Class PyLib : Type := {
  py_repr : json -> string;
  fromisoformat : string -> option datetime;   (* [None]: ValueError *)
  isoformat : Z -> string;
  timedelta_hours : Q -> option Z              (* [None]: OverflowError *)
}.

(** [d.get(k)] on the items of a dict. *)
Fixpoint dict_get (items : list (string * json)) (k : string) : option json :=
  match items with
  | [] => None
  | (k', v) :: rest => if bool_decide (k' = k) then Some v else dict_get rest k
  end.

(** [x.get(k, dflt)]: an [AttributeError] unless [x] is a dict. *)
Definition py_get (x : json) (k : string) (dflt : json) : result json :=
  match x with
  | JDict items => Ok (default dflt (dict_get items k))
  | _ => Raise AttributeError
  end.

(** Truth value testing ([if x], [not x], [x or y]). *)
Definition py_truthy (x : json) : bool :=
  match x with
  | JNull => false
  | JBool b => b
  | JInt n => negb (n =? 0)
  | JFloat q => negb (Qeq_bool q 0)
  | JStr s => negb (bool_decide (s = ""))
  | JList items => match items with [] => false | _ => true end
  | JDict items => match items with [] => false | _ => true end
  end.

Fixpoint chars (s : string) : list string :=
  match s with
  | EmptyString => []
  | String c r => String c EmptyString :: chars r
  end.

(** [for x in v]: a list yields its items, a string its characters, a dict its
    keys; anything else is not iterable. *)
Definition py_iter (v : json) : result (list json) :=
  match v with
  | JList items => Ok items
  | JStr s => Ok (JStr <$> chars s)
  | JDict items => Ok ((fun kv => JStr kv.1) <$> items)
  | _ => Raise TypeError
  end.

(** [str(v)]. *)
Definition py_str `{PyLib} (v : json) : string :=
  match v with
  | JStr s => s
  | JNull => "None"
  | JBool true => "True"
  | JBool false => "False"
  | _ => py_repr v
  end.

(** [sorted(xs)] on strings: ascending code-point order. *)
Definition sorted (xs : gset string) : list string :=
  merge_sort String.le (elements xs).

(** [str.isspace] on one character (code points below 256). *)
Definition is_space (c : ascii) : bool :=
  let n := Z.of_N (N_of_ascii c) in
  ((9 <=? n) && (n <=? 13)) || ((28 <=? n) && (n <=? 32))
  || (n =? 133) || (n =? 160).

(** Truth value of [s.strip()]: some character is not white space. *)
Fixpoint strip_truthy (s : string) : bool :=
  match s with
  | EmptyString => false
  | String c r => negb (is_space c) || strip_truthy r
  end.

(** ** [str.format_map]

    The scanner of CPython's [unicode_format.h], for replacement fields made
    of a plain key: literal text, the escapes [{{] and [}}], and [{key}].  A
    field that uses attribute or index access, a conversion or a format
    specification ([.], [[], [!], [:]) is outside the model.  [lookup] is the
    mapping's [__getitem__] followed by [format(value, "")]. *)

Definition is_digit (c : ascii) : bool :=
  let n := Z.of_N (N_of_ascii c) in (48 <=? n) && (n <=? 57).

Fixpoint all_digits (s : string) : bool :=
  match s with
  | EmptyString => true
  | String c r => is_digit c && all_digits r
  end.

Definition emit (c : ascii) (r : result string) : result string :=
  rbind r (fun s => Ok (String c s)).

Definition append_ok (s : string) (r : result string) : result string :=
  rbind r (fun s' => Ok (s ++ s')).

(** A completed field name: the empty name and a number are positional
    fields, which [format_map] refuses. *)
Definition field_value (lookup : string -> string) (name : string) : result string :=
  if all_digits name then Raise ValueError else Ok (lookup name).

Definition opens_beyond (c : ascii) : bool :=
  Ascii.eqb c "." || Ascii.eqb c "[" || Ascii.eqb c "!" || Ascii.eqb c ":".

(** [field = None]: scanning literal text; [field = Some name]: inside a
    replacement field whose name so far is [name]. *)
Fixpoint format_scan (lookup : string -> string) (field : option string)
    (t : string) {struct t} : result string :=
  match t with
  | EmptyString =>
      match field with
      | None => Ok ""
      | Some _ => Raise ValueError   (* expected '}' before end of string *)
      end
  | String c r =>
      match field with
      | None =>
          if Ascii.eqb c "{" || Ascii.eqb c "}" then
            match r with
            | EmptyString => Raise ValueError   (* single brace at the end *)
            | String c' r' =>
                if Ascii.eqb c c' then emit c (format_scan lookup None r')
                else if Ascii.eqb c "{" then format_scan lookup (Some "") r
                else Raise ValueError           (* single '}' *)
            end
          else emit c (format_scan lookup None r)
      | Some name =>
          if Ascii.eqb c "}" then
            rbind (field_value lookup name)
                  (fun v => append_ok v (format_scan lookup None r))
          else if Ascii.eqb c "{" then Raise ValueError
          else if opens_beyond c then Halt BeyondModel
          else format_scan lookup (Some (name ++ String c "")) r
      end
  end.

Definition format_map (template : string) (lookup : string -> string) : result string :=
  format_scan lookup None template.

End Py.
Export Py.

(* ===================================================================== *)
(** * storage.py *)
(* ===================================================================== *)

Module Storage.

Record TargetState : Type := {
  followed : gset string;
  liked_posts : gset string
}.

Record AccountState : Type := {
  known_followers : gset string;
  dm_history : gmap string string;
  targets : gmap string TargetState
}.

(** [TargetState()] and [AccountState()]: the dataclass defaults. *)
Definition TargetState_new : TargetState :=
  {| followed := ∅; liked_posts := ∅ |}.
Definition AccountState_new : AccountState :=
  {| known_followers := ∅; dm_history := ∅; targets := ∅ |}.

(** [set(v)] at the declared type [Set[str]]: the members of a list of
    strings.  A container among the members is unhashable; a member of
    another scalar type would give a set outside the declared type. *)
Fixpoint strs_of (items : list json) : result (gset string) :=
  match items with
  | [] => Ok ∅
  | JStr s :: rest => rbind (strs_of rest) (fun X => Ok ({[ s ]} ∪ X))
  | JList _ :: _ | JDict _ :: _ => Raise TypeError
  | _ :: _ => Halt BeyondModel
  end.

Definition py_set (v : json) : result (gset string) :=
  rbind (py_iter v) strs_of.

(** [dict(v)] at the declared type [Dict[str, str]], later items winning. *)
Fixpoint str_items (items : list (string * json)) (acc : gmap string string)
  : result (gmap string string) :=
  match items with
  | [] => Ok acc
  | (k, JStr s) :: rest => str_items rest (<[ k := s ]> acc)
  | _ :: _ => Halt BeyondModel
  end.

Definition py_dict (v : json) : result (gmap string string) :=
  match v with
  | JDict items => str_items items ∅
  | _ => Halt BeyondModel
  end.

Definition strs_json (X : gset string) : json := JList (JStr <$> sorted X).

Module TargetState.

Definition from_dict (data : json) : result TargetState :=
  rbind (py_get data "followed" (JList [])) (fun f =>
  rbind (py_set f) (fun followed_ =>
  rbind (py_get data "liked_posts" (JList [])) (fun l =>
  rbind (py_set l) (fun liked =>
  Ok {| followed := followed_; liked_posts := liked |})))).

Definition to_dict (self : TargetState) : json :=
  JDict [ ("followed", strs_json (followed self));
          ("liked_posts", strs_json (liked_posts self)) ].

End TargetState.

Module AccountState.

(** The dict comprehension over [targets_raw.items()]. *)
Fixpoint targets_of (items : list (string * json)) (acc : gmap string TargetState)
  : result (gmap string TargetState) :=
  match items with
  | [] => Ok acc
  | (name, value) :: rest =>
      rbind (TargetState.from_dict value) (fun ts =>
      targets_of rest (<[ name := ts ]> acc))
  end.

Definition from_dict (data : json) : result AccountState :=
  rbind (py_get data "targets" (JDict [])) (fun targets_raw =>
  rbind (match targets_raw with
         | JDict items => targets_of items ∅
         | _ => Raise AttributeError
         end) (fun targets_ =>
  rbind (py_get data "known_followers" (JList [])) (fun kf =>
  rbind (py_set kf) (fun known =>
  rbind (py_get data "dm_history" (JDict [])) (fun dh =>
  rbind (py_dict dh) (fun history =>
  Ok {| known_followers := known; dm_history := history;
        targets := targets_ |})))))).

Definition to_dict (self : AccountState) : json :=
  JDict [ ("known_followers", strs_json (known_followers self));
          ("dm_history",
           JDict (prod_map id JStr <$> map_to_list (dm_history self)));
          ("targets",
           JDict (prod_map id TargetState.to_dict <$> map_to_list (targets self))) ].

(** [self.target(handle)]: the entry is created when missing; the returned
    object is the one stored under [handle]. *)
Definition ensure_target (handle : string) (self : AccountState) : AccountState :=
  match targets self !! handle with
  | Some _ => self
  | None =>
      {| known_followers := known_followers self;
         dm_history := dm_history self;
         targets := <[ handle := TargetState_new ]> (targets self) |}
  end.

Definition target (handle : string) (self : AccountState) : TargetState :=
  default TargetState_new (targets self !! handle).

End AccountState.

(** A path is the sequence of its parts; a file holds a JSON document, or
    text that [json.load] rejects. *)
Definition Path : Type := list string.

Inductive file : Type :=
| Document (j : json)
| Garbled.

Abbreviation files := (gmap Path file).

Module StateStore.

(** The character class [[a-zA-Z0-9_.-]]. *)
Definition safe_char (c : ascii) : bool :=
  let n := Z.of_N (N_of_ascii c) in
  ((97 <=? n) && (n <=? 122)) || ((65 <=? n) && (n <=? 90))
  || ((48 <=? n) && (n <=? 57))
  || Ascii.eqb c "_" || Ascii.eqb c "." || Ascii.eqb c "-".

(** [re.sub(r"[^a-zA-Z0-9_.-]", "_", handle)]. *)
Fixpoint sanitize (handle : string) : string :=
  match handle with
  | EmptyString => EmptyString
  | String c r => String (if safe_char c then c else "_"%char) (sanitize r)
  end.

Definition _path_for (root : Path) (handle : string) : Path :=
  (root ++ [ sanitize handle +:+ ".json" ])%list.

Definition load (root : Path) (handle : string) (fs : files) : result AccountState :=
  match fs !! _path_for root handle with
  | None => Ok AccountState_new
  | Some Garbled => Raise ValueError
  | Some (Document raw) => AccountState.from_dict raw
  end.

(** [json.dump] writes the document; reading it back with [json.load] gives
    the same value.  This is a write that completes: with [ensure_ascii=False]
    and UTF-8 every string of the model is encodable, so [json.dump] does not
    raise on the states represented here.  The source opens the file with
    mode ["w"] before it serialises; a failure in between (a string that UTF-8
    cannot encode, a full disk) would leave a truncated file, and is not
    modelled. *)
Definition save (root : Path) (handle : string) (state : AccountState) (fs : files)
  : files :=
  <[ _path_for root handle := Document (AccountState.to_dict state) ]> fs.

End StateStore.

End Storage.
Export Storage.

(* ===================================================================== *)
(** * client.py *)
(* ===================================================================== *)

Module Client.

(** The requests [BlueskyClient] sends, by endpoint, with the data their
    parameters and payload are built from. *)
Inductive request : Type :=
| CreateSession (identifier password : string)
    (* POST com.atproto.server.createSession *)
| GetProfile (actor : string)
    (* GET app.bsky.actor.getProfile *)
| GetFollowers (actor : json) (limit : Z) (cursor : option json)
    (* GET app.bsky.graph.getFollowers *)
| CreateFollow (repo : json) (subject : string) (createdAt : Z)
    (* POST com.atproto.repo.createRecord, collection app.bsky.graph.follow *)
| GetAuthorFeed (actor : string) (limit : Z)
    (* GET app.bsky.feed.getAuthorFeed *)
| CreateLike (repo : json) (uri cid : string) (createdAt : Z)
    (* POST com.atproto.repo.createRecord, collection app.bsky.feed.like *)
| Conversation (endpoint : string) (member : string)
    (* POST chat.bsky.convo.createOrGet / getConvoForMembers / create *)
| SendMessage (convoId text : string).
    (* POST chat.bsky.convo.sendMessage *)

Inductive content : Type :=
| NoContent             (* [response.content] is empty *)
| NotJson               (* [response.json()] raises ValueError *)
| Json (j : json).

Inductive response : Type :=
| TransportFailure      (* [session.request] raises *)
| Http (status_code : Z) (body : content).

(** What the process did to the outside world; the latest event comes first. *)
Inductive event : Type :=
| Call (rq : request) (rs : response)
| Sleep (seconds : Q).

(** The remote service and the system clock (microseconds, UTC), each a
    function of what happened so far. *)
Class Remote : Type := {
  respond : list event -> request -> response;
  clock : list event -> Z
}.

(** The mutable fields of [BlueskyClient]. *)
Record Client : Type := {
  identifier : string;
  app_password : string;
  _access_jwt : json;
  _refresh_jwt : json;
  _did : json
}.

Record Profile : Type := {
  did : string;
  handle : string;
  display_name : json
}.

(** The objects a run works on: the files of the store, the client, the
    events so far, and the [AccountState] that is mutated in place. *)
Record World : Type := {
  disk : files;
  client : Client;
  trace : list event;
  state : AccountState
}.

Definition set_trace (t : list event) (w : World) : World :=
  {| disk := disk w; client := client w; trace := t; state := state w |}.
Definition set_client (c : Client) (w : World) : World :=
  {| disk := disk w; client := c; trace := trace w; state := state w |}.
Definition set_state (s : AccountState) (w : World) : World :=
  {| disk := disk w; client := client w; trace := trace w; state := s |}.
Definition set_disk (d : files) (w : World) : World :=
  {| disk := d; client := client w; trace := trace w; state := state w |}.

(** Computations that read and write the world and may raise. *)
Definition M (A : Type) : Type := World -> result A * World.

Definition ret {A} (a : A) : M A := fun w => (Ok a, w).
Definition raise {A} (e : exn) : M A := fun w => (Raise e, w).
Definition lift {A} (r : result A) : M A := fun w => (r, w).
Definition bind {A B} (m : M A) (k : A -> M B) : M B :=
  fun w =>
    match m w with
    | (Ok a, w') => k a w'
    | (Raise e, w') => (Raise e, w')
    | (Halt h, w') => (Halt h, w')
    end.

(** [try: m except E: handler], where [catches] tells the members of [E]. *)
Definition try_except {A} (m : M A) (catches : exn -> bool) (handler : exn -> M A)
  : M A :=
  fun w =>
    match m w with
    | (Raise e, w') => if catches e then handler e w' else (Raise e, w')
    | r => r
    end.

Definition get_world : M World := fun w => (Ok w, w).
Definition modify (f : World -> World) : M unit := fun w => (Ok tt, f w).

(** stdpp's monad notations: [x ← m; k] and [m;; k]. *)
#[export] Instance M_ret : MRet M := @ret.
#[export] Instance M_bind : MBind M := fun A B k m => bind m k.

(** Loop control: what the body of a [for] loop ends with. *)
Inductive ctl : Type := Next | Break.

Section WithRemote.
Context `{PyLib} `{Remote}.

(** [datetime.now(timezone.utc)]. *)
Definition now : M Z := fun w => (Ok (clock (trace w)), w).

(** [time.sleep(seconds)]. *)
Definition sleep (seconds : Q) : M unit :=
  fun w => (Ok tt, set_trace (Sleep seconds :: trace w) w).

Definition _auth_headers : M unit :=
  fun w =>
    if py_truthy (_access_jwt (client w)) then (Ok tt, w)
    else (Raise BlueskyError, w).

Definition _request (rq : request) (requires_auth : bool) : M json :=
  (if requires_auth then _auth_headers else ret tt);;
  (fun w =>
    let rs := respond (trace w) rq in
    let w' := set_trace (Call rq rs :: trace w) w in
    match rs with
    | TransportFailure => (Raise TransportError, w')
    | Http status_code body =>
        if 400 <=? status_code then (Raise BlueskyError, w')
        else match body with
             | NoContent => (Ok (JDict []), w')
             | NotJson => (Raise BlueskyError, w')
             | Json j => (Ok j, w')
             end
    end) : M json.

(** The [did] property. *)
Definition client_did : M json :=
  fun w =>
    if py_truthy (_did (client w)) then (Ok (_did (client w)), w)
    else (Raise BlueskyError, w).

Definition get_profile (actor : string) : M Profile :=
  data ← _request (GetProfile actor) false;
  d ← lift (py_get data "did" JNull);
  h ← lift (py_get data "handle" (JStr actor));
  n ← lift (py_get data "displayName" JNull);
  ret {| did := py_str d; handle := py_str h; display_name := n |}.

Definition login : M Profile :=
  w ← get_world;
  data ← _request (CreateSession (identifier (client w)) (app_password (client w))) false;
  a ← lift (py_get data "accessJwt" JNull);
  modify (fun w => set_client
    {| identifier := identifier (client w); app_password := app_password (client w);
       _access_jwt := a; _refresh_jwt := _refresh_jwt (client w);
       _did := _did (client w) |} w);;
  r ← lift (py_get data "refreshJwt" JNull);
  modify (fun w => set_client
    {| identifier := identifier (client w); app_password := app_password (client w);
       _access_jwt := _access_jwt (client w); _refresh_jwt := r;
       _did := _did (client w) |} w);;
  d ← lift (py_get data "did" JNull);
  modify (fun w => set_client
    {| identifier := identifier (client w); app_password := app_password (client w);
       _access_jwt := _access_jwt (client w); _refresh_jwt := _refresh_jwt (client w);
       _did := d |} w);;
  if negb (py_truthy a) || negb (py_truthy d) then raise BlueskyError
  else get_profile (identifier (client w)).

Definition get_followers (actor : json) (limit : Z) (cursor : json) : M json :=
  _request (GetFollowers actor limit (if py_truthy cursor then Some cursor else None))
           false.

(** The [for] loop over a list of items, with [break]. *)
Fixpoint for_each {A S} (body : A -> S -> M (ctl * S)) (items : list A) (s : S)
  : M (ctl * S) :=
  match items with
  | [] => ret (Next, s)
  | x :: rest =>
      r ← body x s;
      match r with
      | (Break, s') => ret (Break, s')
      | (Next, s') => for_each body rest s'
      end
  end.

(** [for follower in self.iterate_followers(actor): body].  The generator
    fetches a page when the loop asks for the next follower and the previous
    page is used up; a [break] in the body abandons it.  [fuel] bounds the
    number of pages. *)
Fixpoint iterate_followers {S} (fuel : nat) (actor : json) (page_size : Z)
    (cursor : json) (body : json -> S -> M (ctl * S)) (s : S) : M S :=
  match fuel with
  | O => lift (Halt OutOfFuel)
  | S fuel' =>
      data ← get_followers actor page_size cursor;
      fl ← lift (py_get data "followers" (JList []));
      followers ← lift (py_iter fl);
      r ← for_each body followers s;
      match r with
      | (Break, s') => ret s'
      | (Next, s') =>
          cursor' ← lift (py_get data "cursor" JNull);
          if py_truthy cursor'
          then iterate_followers fuel' actor page_size cursor' body s'
          else ret s'
      end
  end.

Definition follow (target_did : string) : M json :=
  t ← now;
  repo ← client_did;
  _request (CreateFollow repo target_did t) true.

Definition get_author_feed (actor : string) (limit : Z) : M json :=
  _request (GetAuthorFeed actor limit) false.

Definition like (subject_uri subject_cid : string) : M json :=
  t ← now;
  repo ← client_did;
  _request (CreateLike repo subject_uri subject_cid t) true.

Definition list_own_followers (limit : Z) (cursor : json) : M json :=
  actor ← client_did;
  get_followers actor limit cursor.

Definition convo_endpoints : list string :=
  [ "chat.bsky.convo.createOrGet";
    "chat.bsky.convo.getConvoForMembers";
    "chat.bsky.convo.create" ].

(** What one answer of a conversation endpoint gives: [Some id] when an
    identifier is found in it. *)
Definition convo_id_of (data : json) : result (option string) :=
  rbind (py_get data "convo" JNull) (fun c1 =>
  rbind (if py_truthy c1 then Ok c1
         else rbind (py_get data "conversation" JNull) (fun c2 =>
              Ok (if py_truthy c2 then c2 else data))) (fun convo =>
  let in_convo :=
    match convo with
    | JDict items =>
        match dict_get items "id" with
        | Some v => Some (py_str v)
        | None => py_str <$> dict_get items "convoId"
        end
    | _ => None
    end in
  match in_convo with
  | Some i => Ok (Some i)
  | None =>
      match data with
      | JDict items => Ok (py_str <$> dict_get items "convoId")
      | _ => Raise TypeError
      end
  end)).

Fixpoint try_endpoints (endpoints : list string) (member_did : string) : M string :=
  match endpoints with
  | [] => raise DirectMessageNotSupported
  | endpoint :: rest =>
      r ← try_except
             (data ← _request (Conversation endpoint member_did) true; ret (Some data))
             is_BlueskyError (fun _ => ret None);
      match r with
      | None => try_endpoints rest member_did
      | Some data =>
          found ← lift (convo_id_of data);
          match found with
          | Some i => ret i
          | None => try_endpoints rest member_did
          end
      end
  end.

Definition create_or_get_conversation (member_did : string) : M string :=
  try_endpoints convo_endpoints member_did.

Definition send_direct_message (convo_id text : string) : M json :=
  try_except (_request (SendMessage convo_id text) true)
             is_BlueskyError (fun _ => raise DirectMessageNotSupported).

End WithRemote.

End Client.
Export Client.

(* ===================================================================== *)
(** * config.py: the configuration records *)
(* ===================================================================== *)

Module TargetConfig.
Record t : Type := {
  handle : string;
  follow_limit : option Z;
  like_latest_post : bool;
  like_limit : option Z
}.
End TargetConfig.

Module DMConfig.
Record t : Type := {
  enabled : bool;
  message : string;
  limit_per_run : option Z;
  cooldown_hours : Q
}.
End DMConfig.

Module AccountConfig.
Record t : Type := {
  handle : string;
  app_password : string;
  follow_targets : list TargetConfig.t;
  dm : DMConfig.t;
  follow_delay_seconds : option Q;
  like_delay_seconds : option Q;
  new_followers_page_size : Z
}.
End AccountConfig.

Module Config.
Record t : Type := {
  accounts : list AccountConfig.t;
  storage_dir : Path;
  default_follow_delay_seconds : Q;
  default_like_delay_seconds : Q
}.
End Config.

(* ===================================================================== *)
(** * automator.py *)
(* ===================================================================== *)

Module Automator.

Record AutomationContext : Type := {
  config : Config.t;
  dry_run : bool
}.

(** [SafeDict]: [__getitem__] with [__missing__] returning the empty string. *)
Definition SafeDict_getitem (items : list (string * json)) (key : string) : json :=
  default (JStr "") (dict_get items key).

Definition _effective_delay (value : option Q) (fallback : Q) : Q :=
  match value with
  | None => fallback
  | Some v => v
  end.

(** [x == y] for a string [x]. *)
Definition py_eq_str (x : string) (y : json) : bool :=
  match y with
  | JStr s => bool_decide (x = s)
  | _ => false
  end.

(** The mutations through the alias [target_state = state.target(handle)]. *)
Definition followed_add (target_handle d : string) (s : AccountState) : AccountState :=
  {| known_followers := known_followers s;
     dm_history := dm_history s;
     targets := alter (fun ts => {| followed := {[ d ]} ∪ followed ts;
                                    liked_posts := liked_posts ts |})
                      target_handle (targets s) |}.

Definition liked_posts_add (target_handle uri : string) (s : AccountState) : AccountState :=
  {| known_followers := known_followers s;
     dm_history := dm_history s;
     targets := alter (fun ts => {| followed := followed ts;
                                    liked_posts := {[ uri ]} ∪ liked_posts ts |})
                      target_handle (targets s) |}.

Definition known_followers_add (d : string) (s : AccountState) : AccountState :=
  {| known_followers := {[ d ]} ∪ known_followers s;
     dm_history := dm_history s;
     targets := targets s |}.

Definition dm_history_set (d stamp : string) (s : AccountState) : AccountState :=
  {| known_followers := known_followers s;
     dm_history := <[ d := stamp ]> (dm_history s);
     targets := targets s |}.

Definition update_state (f : AccountState -> AccountState) : M unit :=
  modify (fun w => set_state (f (state w)) w).

Section WithRemote.
Context `{PyLib} `{Remote}.

(** [if delay > 0: time.sleep(delay)]. *)
Definition pause (delay : Q) : M unit :=
  if negb (Qle_bool delay 0) then sleep delay else ret tt.

(** [template.format_map(SafeDict(handle=..., displayName=..., did=...))]. *)
Definition _render_message (template : string) (follower : json) : result string :=
  rbind (py_get follower "handle" (JStr "")) (fun h =>
  rbind (py_get follower "displayName" (JStr "")) (fun n =>
  rbind (py_get follower "did" (JStr "")) (fun d =>
  format_map template
    (fun key => py_str (SafeDict_getitem
                          [ ("handle", h); ("displayName", n); ("did", d) ] key))))).

(** [_should_send_dm]; [now_utc] is the reading of [datetime.now(timezone.utc)]
    and [cooldown] the optional [timedelta]. *)
Definition _should_send_dm (did_ : string) (state_ : AccountState)
    (cooldown : option Z) (now_utc : Z) : bool :=
  match dm_history state_ !! did_ with
  | None => true
  | Some last_sent_str =>
      match cooldown with
      | None => false
      | Some cd =>
          if cd =? 0 then false
          else if bool_decide (last_sent_str = "") then true
          else match fromisoformat last_sent_str with
               | None => true
               | Some last_sent =>
                   cd <=? now_utc - (wall last_sent - default 0 (utcoffset last_sent))
               end
      end
  end.

(** The loop over [posts] in [_like_latest_post]. *)
Fixpoint like_first (posts : list json) (target_handle : string) : M bool :=
  match posts with
  | [] => ret false
  | item :: rest =>
      match (match item with
             | JDict items => default JNull (dict_get items "post")
             | _ => JNull
             end) with
      | JDict post =>
          match dict_get post "uri", dict_get post "cid" with
          | Some (JStr uri), Some (JStr cid) =>
              w ← get_world;
              if bool_decide (uri ∈ liked_posts (AccountState.target target_handle (state w)))
              then ret false
              else
                ok ← try_except (like uri cid;; ret true)
                                is_BlueskyError (fun _ => ret false);
                if ok : bool
                then update_state (liked_posts_add target_handle uri);; ret true
                else ret false
          | _, _ => like_first rest target_handle
          end
      | _ => like_first rest target_handle
      end
  end.

Definition _like_latest_post (follower : json) (target_handle : string) : M bool :=
  follower_did ← lift (py_get follower "did" JNull);
  match follower_did with
  | JStr d =>
      feed ← try_except (f ← get_author_feed d 1; ret (Some f))
                        is_BlueskyError (fun _ => ret None);
      match feed with
      | None => ret false
      | Some feed =>
          match (match feed with
                 | JDict items => default (JList []) (dict_get items "feed")
                 | _ => JList []
                 end) with
          | JList posts => like_first posts target_handle
          | _ => ret false
          end
      end
  | _ => ret false
  end.

(** The body of the loop of [_engage_target]; the loop state is
    [(followed_count, liked_count)]. *)
Definition engage_body (ctx : AutomationContext) (account : AccountConfig.t)
    (target : TargetConfig.t) (follower : json) (counts : Z * Z) : M (ctl * (Z * Z)) :=
  let '(followed_count, liked_count) := counts in
  let th := TargetConfig.handle target in
  follower_did ← lift (py_get follower "did" JNull);
  match follower_did with
  | JStr d =>
      own ← client_did;
      if py_eq_str d own then ret (Next, counts)
      else
        w ← get_world;
        if bool_decide (d ∈ followed (AccountState.target th (state w)))
        then ret (Next, counts)
        else
          ok ← try_except (follow d;; ret true) is_BlueskyError (fun _ => ret false);
          if ok : bool then
            update_state (followed_add th d);;
            let followed_count := followed_count + 1 in
            pause (_effective_delay (AccountConfig.follow_delay_seconds account)
                     (Config.default_follow_delay_seconds (config ctx)));;
            liked_count ←
              (if TargetConfig.like_latest_post target
                  && match TargetConfig.like_limit target with
                     | None => true
                     | Some l => liked_count <? l
                     end
               then
                 liked ← _like_latest_post follower th;
                 if liked : bool then
                   pause (_effective_delay (AccountConfig.like_delay_seconds account)
                            (Config.default_like_delay_seconds (config ctx)));;
                   ret (liked_count + 1)
                 else ret liked_count
               else ret liked_count);
            match TargetConfig.follow_limit target with
            | Some l =>
                if l <=? followed_count
                then ret (Break, (followed_count, liked_count))
                else ret (Next, (followed_count, liked_count))
            | None => ret (Next, (followed_count, liked_count))
            end
          else
            update_state (followed_add th d);;
            ret (Next, counts)
  | _ => ret (Next, counts)
  end.

(** [_engage_target] returns its counters [(followed_count, liked_count)]
    (the function logs them); [None] when the target is not resolved. *)
Definition _engage_target (fuel : nat) (ctx : AutomationContext)
    (account : AccountConfig.t) (target : TargetConfig.t) : M (option (Z * Z)) :=
  p ← try_except (p ← get_profile (TargetConfig.handle target); ret (Some p))
                 is_BlueskyError (fun _ => ret None);
  match p with
  | None => ret None
  | Some target_profile =>
      update_state (AccountState.ensure_target (TargetConfig.handle target));;
      counts ← iterate_followers fuel (JStr (did target_profile)) 50 JNull
                 (engage_body ctx account target) (0, 0);
      ret (Some counts)
  end.

(** What one attempt to message a follower ends with. *)
Inductive dm_outcome : Type := Delivered | Unsupported | Failed.

(** The body of the [for] loop of [_message_new_followers]; the loop state is
    [sent], and [Break] stands for the [return] statements. *)
Definition message_body (ctx : AutomationContext) (account : AccountConfig.t)
    (cooldown : option Z) (follower : json) (sent : Z) : M (ctl * Z) :=
  let dm_config := AccountConfig.dm account in
  match (match follower with
         | JDict items => default JNull (dict_get items "did")
         | _ => JNull
         end) with
  | JStr d =>
      update_state (known_followers_add d);;
      w ← get_world;
      t ← now;
      if negb (_should_send_dm d (state w) cooldown t) then ret (Next, sent)
      else if match DMConfig.limit_per_run dm_config with
              | Some l => l <=? sent
              | None => false
              end
      then ret (Break, sent)
      else
        message ← lift (_render_message (DMConfig.message dm_config) follower);
        r ← try_except
              (try_except
                 (convo_id ← create_or_get_conversation d;
                  send_direct_message convo_id message;;
                  ret Delivered)
                 (fun e => match e with DirectMessageNotSupported => true | _ => false end)
                 (fun _ => ret Unsupported))
              is_BlueskyError (fun _ => ret Failed);
        match r with
        | Unsupported => ret (Break, sent)
        | Failed => ret (Next, sent)
        | Delivered =>
            t ← now;
            update_state (dm_history_set d (isoformat t));;
            pause (_effective_delay (AccountConfig.follow_delay_seconds account)
                     (Config.default_follow_delay_seconds (config ctx)));;
            ret (Next, sent + 1)
        end
  | _ => ret (Next, sent)
  end.

(** The [while True] loop of [_message_new_followers]; [fuel] bounds the
    number of pages. *)
Fixpoint message_pages (fuel : nat) (ctx : AutomationContext)
    (account : AccountConfig.t) (cooldown : option Z) (cursor : json) (sent : Z)
  : M Z :=
  match fuel with
  | O => lift (Halt OutOfFuel)
  | S fuel' =>
      response ← try_except
                   (r ← list_own_followers
                          (AccountConfig.new_followers_page_size account) cursor;
                    ret (Some r))
                   is_BlueskyError (fun _ => ret None);
      match response with
      | None => ret sent
      | Some response =>
          let followers :=
            match (match response with
                   | JDict items => default (JList []) (dict_get items "followers")
                   | _ => JList []
                   end) with
            | JList l => l
            | _ => []
            end in
          r ← for_each (message_body ctx account cooldown) followers sent;
          match r with
          | (Break, sent') => ret sent'
          | (Next, sent') =>
              let cursor' :=
                match response with
                | JDict items => default JNull (dict_get items "cursor")
                | _ => JNull
                end in
              if py_truthy cursor'
              then message_pages fuel' ctx account cooldown cursor' sent'
              else ret sent'
          end
      end
  end.

(** [_message_new_followers] returns its counter [sent]. *)
Definition _message_new_followers (fuel : nat) (ctx : AutomationContext)
    (account : AccountConfig.t) : M Z :=
  let h := DMConfig.cooldown_hours (AccountConfig.dm account) in
  cooldown ←
    (if negb (Qeq_bool h 0)
     then match timedelta_hours h with
          | Some cd => ret (Some cd)
          | None => raise OverflowError
          end
     else ret None);
  message_pages fuel ctx account cooldown JNull 0.

(** [BlueskyClient(handle, app_password, ...)]. *)
Definition new_client (account : AccountConfig.t) : Client :=
  {| identifier := AccountConfig.handle account;
     app_password := AccountConfig.app_password account;
     _access_jwt := JNull; _refresh_jwt := JNull; _did := JNull |}.

(** What follows a successful [login] in [_run_for_account]. *)
Definition engage_and_message (fuel : nat) (ctx : AutomationContext)
    (account : AccountConfig.t) : M unit :=
  for_each (fun target (_ : unit) =>
              _engage_target fuel ctx account target;; ret (Next, tt))
           (AccountConfig.follow_targets account) tt;;
  (if DMConfig.enabled (AccountConfig.dm account)
      && strip_truthy (DMConfig.message (AccountConfig.dm account))
   then _message_new_followers fuel ctx account;; ret tt
   else ret tt).

Definition _run_for_account (fuel : nat) (ctx : AutomationContext)
    (account : AccountConfig.t) : M unit :=
  let root := Config.storage_dir (config ctx) in
  w ← get_world;
  loaded ← lift (StateStore.load root (AccountConfig.handle account) (disk w));
  modify (set_state loaded);;
  if dry_run ctx then ret tt
  else
    modify (set_client (new_client account));;
    p ← try_except (p ← login; ret (Some p)) is_BlueskyError (fun _ => ret None);
    match p with
    | None => ret tt
    | Some _ =>
        engage_and_message fuel ctx account;;
        modify (fun w => set_disk (StateStore.save root (AccountConfig.handle account)
                                     (state w) (disk w)) w)
    end.

(** [run]: every account, an exception of one being logged and dropped. *)
Definition run (fuel : nat) (ctx : AutomationContext) : M unit :=
  for_each (fun account (_ : unit) =>
              try_except (_run_for_account fuel ctx account)
                         (fun _ => true) (fun _ => ret tt);;
              ret (Next, tt))
           (Config.accounts (config ctx)) tt;;
  ret tt.

End WithRemote.

End Automator.
Export Automator.

(* ===================================================================== *)
(** * Notions the statements below are phrased with *)
(* ===================================================================== *)

Module Props.

(** ** Handles *)

(** Every character of the handle is in the safe class. *)
Fixpoint all_safe (handle : string) : bool :=
  match handle with
  | EmptyString => true
  | String c r => StateStore.safe_char c && all_safe r
  end.

(** ** Templates

    A template seen as its parts: literal text and placeholders.
    [template_of] writes the parts as a format string, doubling the braces of
    literal text. *)
Inductive piece : Type :=
| Text (s : string)
| Placeholder (key : string).

Definition is_brace (c : ascii) : bool := Ascii.eqb c "{" || Ascii.eqb c "}".

Fixpoint escape (s : string) : string :=
  match s with
  | EmptyString => EmptyString
  | String c r =>
      if is_brace c then String c (String c (escape r)) else String c (escape r)
  end.

Definition piece_source (p : piece) : string :=
  match p with
  | Text s => escape s
  | Placeholder key => "{" +:+ key +:+ "}"
  end.

Fixpoint template_of (ps : list piece) : string :=
  match ps with
  | [] => EmptyString
  | p :: rest => piece_source p +:+ template_of rest
  end.

Fixpoint plain_chars (key : string) : bool :=
  match key with
  | EmptyString => true
  | String c r => negb (is_brace c) && negb (opens_beyond c) && plain_chars r
  end.

(** A placeholder names a key: not empty, not a number, and free of the
    characters of the field syntax. *)
Definition plain_key (key : string) : bool :=
  negb (all_digits key) && plain_chars key.

Definition well_formed (ps : list piece) : bool :=
  forallb (fun p => match p with Text _ => true | Placeholder key => plain_key key end) ps.

(** What a placeholder stands for: the follower's field for the three
    recognized names when the record has it, the empty string otherwise. *)
Definition placeholder_text `{PyLib} (follower : list (string * json)) (key : string)
  : string :=
  if bool_decide (key ∈ [ "handle"; "displayName"; "did" ])
  then match dict_get follower key with
       | Some v => py_str v
       | None => ""
       end
  else "".

Fixpoint rendering `{PyLib} (follower : list (string * json)) (ps : list piece) : string :=
  match ps with
  | [] => EmptyString
  | Text s :: rest => s +:+ rendering follower rest
  | Placeholder key :: rest => placeholder_text follower key +:+ rendering follower rest
  end.

(** ** The cooldown policy, as the specification words it *)

(** The instant a stored timestamp denotes, a timestamp without offset being
    read as UTC; [None] for an empty or unparseable one. *)
Definition stored_instant `{PyLib} (stamp : string) : option Z :=
  if bool_decide (stamp = "") then None
  else match fromisoformat stamp with
       | None => None
       | Some t => Some (match utcoffset t with
                         | None => wall t
                         | Some off => wall t - off
                         end)
       end.

Definition no_cooldown (cooldown : option Z) : bool :=
  match cooldown with
  | None => true
  | Some cd => cd =? 0
  end.

Definition eligible `{PyLib} (identifier : string) (history : gmap string string)
    (cooldown : option Z) (now_utc : Z) : bool :=
  match history !! identifier with
  | None => true
  | Some stamp =>
      if no_cooldown cooldown then false
      else match stored_instant stamp with
           | None => true
           | Some sent_at => default 0 cooldown <=? now_utc - sent_at
           end
  end.

(** ** Growth of the recorded sets *)

Definition target_grows (a b : TargetState) : Prop :=
  followed a ⊆ followed b ∧ liked_posts a ⊆ liked_posts b.

(** [s'] has every member [s] has: of [known_followers], and of [followed]
    and [liked_posts] of every target of [s]. *)
Definition grows (s s' : AccountState) : Prop :=
  known_followers s ⊆ known_followers s'
  ∧ ∀ t ts, targets s !! t = Some ts →
            ∃ ts', targets s' !! t = Some ts' ∧ target_grows ts ts'.

(** ** Successful follows *)

(** The event is a follow request that [_request] returned from normally. *)
Definition follow_succeeded (ev : event) : bool :=
  match ev with
  | Call (CreateFollow _ _ _) (Http status_code body) =>
      (status_code <? 400) && match body with NotJson => false | _ => true end
  | _ => false
  end.

(** The number of successful follow requests in a trace. *)
Fixpoint follows_sent (tr : list event) : Z :=
  match tr with
  | [] => 0
  | ev :: rest => (if follow_succeeded ev then 1 else 0) + follows_sent rest
  end.

End Props.
Export Props.

(* ===================================================================== *)
(** * Specifications of computations *)
(* ===================================================================== *)

Module Logic.

(** ** Relations between the world before and after

    A [relation_kept] is a preorder on worlds that is kept when an event it
    calls [harmless] is added to the trace.  [keeps P m]: running [m] relates
    the world it starts in to the world it ends in, also when it raises or is
    cut short. *)
Record relation_kept : Type := {
  related :> World → World → Prop;
  harmless : event → Prop;
  related_refl : ∀ w, related w w;
  related_trans : ∀ w1 w2 w3, related w1 w2 → related w2 w3 → related w1 w3;
  related_event : ∀ w ev, harmless ev → related w (set_trace (ev :: trace w) w)
}.

Definition keeps (P : relation_kept) {A} (m : M A) : Prop :=
  ∀ w, P w (m w).2.

(** [hoare Pre m Post Exc]: started where [Pre] holds, [m] ends where
    [Post a] holds when it returns [a], and where [Exc] holds when it
    raises. *)
Definition hoare {A} (Pre : World → Prop) (m : M A) (Post : A → World → Prop)
    (Exc : World → Prop) : Prop :=
  ∀ w, Pre w →
       match m w with
       | (Ok a, w') => Post a w'
       | (Raise _, w') => Exc w'
       | (Halt _, _) => True
       end.

End Logic.
Export Logic.

(* ===================================================================== *)
(** * Concrete configurations and remote services *)
(* ===================================================================== *)

Module Scenario.

(** A library instance for the examples: timestamps are printed as a fixed
    text and never parsed. *)
Definition lib : PyLib :=
  {| py_repr := fun _ => "<repr>";
     fromisoformat := fun _ => None;
     isoformat := fun _ => "<now>";
     timedelta_hours := fun _ => None |}.

(** A remote service that answers by the kind of request alone; its clock
    ticks once per event. *)
Definition scripted (answer : request -> response) : Remote :=
  {| respond := fun _ rq => answer rq;
     clock := fun tr => Z.of_nat (length tr) |}.

Definition ok (j : json) : response := Http 200 (Json j).

Definition follower_record (d h : string) : json :=
  JDict [ ("did", JStr d); ("handle", JStr h) ].

(** The session every scenario logs in with. *)
Definition session : json :=
  JDict [ ("accessJwt", JStr "jwt"); ("refreshJwt", JStr "refresh");
          ("did", JStr "did:me") ].

Definition me : Client :=
  {| identifier := "me.example"; app_password := "secret";
     _access_jwt := JStr "jwt"; _refresh_jwt := JStr "refresh";
     _did := JStr "did:me" |}.

(** A world after login, nothing recorded yet. *)
Definition logged_in : World :=
  {| disk := ∅; client := me; trace := []; state := AccountState_new |}.

Definition fresh : World :=
  {| disk := ∅;
     client := {| identifier := ""; app_password := "";
                  _access_jwt := JNull; _refresh_jwt := JNull; _did := JNull |};
     trace := []; state := AccountState_new |}.

Definition target (limit : option Z) : TargetConfig.t :=
  {| TargetConfig.handle := "star.example";
     TargetConfig.follow_limit := limit;
     TargetConfig.like_latest_post := false;
     TargetConfig.like_limit := None |}.

Definition account (targets_ : list TargetConfig.t) (dm_ : DMConfig.t) : AccountConfig.t :=
  {| AccountConfig.handle := "me.example";
     AccountConfig.app_password := "secret";
     AccountConfig.follow_targets := targets_;
     AccountConfig.dm := dm_;
     AccountConfig.follow_delay_seconds := Some (5 # 2);
     AccountConfig.like_delay_seconds := Some (5 # 2);
     AccountConfig.new_followers_page_size := 50 |}.

Definition no_dm : DMConfig.t :=
  {| DMConfig.enabled := false; DMConfig.message := "";
     DMConfig.limit_per_run := None; DMConfig.cooldown_hours := 0 |}.

Definition greeting : DMConfig.t :=
  {| DMConfig.enabled := true; DMConfig.message := "Thanks for following!";
     DMConfig.limit_per_run := None; DMConfig.cooldown_hours := 0 |}.

Definition context (acct : AccountConfig.t) : AutomationContext :=
  {| config := {| Config.accounts := [ acct ];
                  Config.storage_dir := [ "state" ];
                  Config.default_follow_delay_seconds := 5 # 2;
                  Config.default_like_delay_seconds := 5 # 2 |};
     dry_run := false |}.

(** The service rejects the credentials. *)
Definition rejecting : Remote :=
  scripted (fun _ => Http 401 NoContent).

(** The target has the followers [did:f1] and [did:f2] on one page; every
    record creation succeeds. *)
Definition welcoming : Remote :=
  scripted (fun rq =>
    match rq with
    | CreateSession _ _ => ok session
    | GetProfile actor => ok (JDict [ ("did", JStr ("did:" +:+ actor)); ("handle", JStr actor) ])
    | GetFollowers _ _ _ =>
        ok (JDict [ ("followers", JList [ follower_record "did:f1" "f1.example";
                                          follower_record "did:f2" "f2.example" ]) ])
    | _ => ok (JDict [])
    end).

(** As [welcoming], but creating a follow record fails with status 500. *)
Definition follow_failing : Remote :=
  scripted (fun rq =>
    match rq with
    | CreateFollow _ _ _ => Http 500 NoContent
    | GetFollowers _ _ _ =>
        ok (JDict [ ("followers", JList [ follower_record "did:f1" "f1.example";
                                          follower_record "did:f2" "f2.example" ]) ])
    | _ => ok (JDict [])
    end).

(** The account has the followers [did:f1] and [did:f2]; conversations are
    resolved, and the service answers the sending of a message with status
    500. *)
Definition send_failing : Remote :=
  scripted (fun rq =>
    match rq with
    | GetFollowers _ _ _ =>
        ok (JDict [ ("followers", JList [ follower_record "did:f1" "f1.example";
                                          follower_record "did:f2" "f2.example" ]) ])
    | Conversation _ member =>
        ok (JDict [ ("convo", JDict [ ("id", JStr ("convo:" +:+ member)) ]) ])
    | SendMessage _ _ => Http 500 NoContent
    | _ => ok (JDict [])
    end).

(** The target has the follower [did:f1] on a first page that announces a
    second one; creating a follow record fails with status 500, and so does
    the request for the second page. *)
Definition second_page_failing : Remote :=
  scripted (fun rq =>
    match rq with
    | CreateSession _ _ => ok session
    | GetProfile actor => ok (JDict [ ("did", JStr ("did:" +:+ actor)); ("handle", JStr actor) ])
    | GetFollowers _ _ None =>
        ok (JDict [ ("followers", JList [ follower_record "did:f1" "f1.example" ]);
                    ("cursor", JStr "c1") ])
    | GetFollowers _ _ (Some _) => Http 500 NoContent
    | CreateFollow _ _ _ => Http 500 NoContent
    | _ => ok (JDict [])
    end).

(** Two runs of the program against [second_page_failing], the second in the
    world the first left. *)
Definition first_run : World :=
  (@run lib second_page_failing 5 (context (account [ target None ] no_dm))
     fresh).2.

Definition second_run : World :=
  (@run lib second_page_failing 5 (context (account [ target None ] no_dm))
     first_run).2.

(** As [second_page_failing], but the first page is the only one: the run
    gets to its end. *)
Definition follow_rejecting : Remote :=
  scripted (fun rq =>
    match rq with
    | CreateSession _ _ => ok session
    | GetProfile actor => ok (JDict [ ("did", JStr ("did:" +:+ actor)); ("handle", JStr actor) ])
    | GetFollowers _ _ _ =>
        ok (JDict [ ("followers", JList [ follower_record "did:f1" "f1.example" ]) ])
    | CreateFollow _ _ _ => Http 500 NoContent
    | _ => ok (JDict [])
    end).

Definition saved_run : World :=
  (@run lib follow_rejecting 5 (context (account [ target None ] no_dm)) fresh).2.

Definition run_after_saved : World :=
  (@run lib follow_rejecting 5 (context (account [ target None ] no_dm)) saved_run).2.

(** As [welcoming], but the connection breaks when a follow record is
    created. *)
Definition unreachable_follow : Remote :=
  scripted (fun rq =>
    match rq with
    | CreateFollow _ _ _ => TransportFailure
    | GetFollowers _ _ _ =>
        ok (JDict [ ("followers", JList [ follower_record "did:f1" "f1.example";
                                          follower_record "did:f2" "f2.example" ]) ])
    | _ => ok (JDict [])
    end).

End Scenario.

(* ===================================================================== *)
(** * Further notions and configurations *)
(* ===================================================================== *)

Module Coverage.

(** ** Successful likes and messages *)

(** The event is a like request that [_request] returned from normally. *)
Definition like_succeeded (ev : event) : bool :=
  match ev with
  | Call (CreateLike _ _ _ _) (Http status_code body) =>
      (status_code <? 400) && match body with NotJson => false | _ => true end
  | _ => false
  end.

Fixpoint likes_sent (tr : list event) : Z :=
  match tr with
  | [] => 0
  | ev :: rest => (if like_succeeded ev then 1 else 0) + likes_sent rest
  end.

(** The event is a [sendMessage] request that [_request] returned from
    normally. *)
Definition message_succeeded (ev : event) : bool :=
  match ev with
  | Call (SendMessage _ _) (Http status_code body) =>
      (status_code <? 400) && match body with NotJson => false | _ => true end
  | _ => false
  end.

Fixpoint messages_sent (tr : list event) : Z :=
  match tr with
  | [] => 0
  | ev :: rest => (if message_succeeded ev then 1 else 0) + messages_sent rest
  end.

(** The event is a follow request, whatever its answer. *)
Definition is_follow_call (ev : event) : bool :=
  match ev with
  | Call (CreateFollow _ _ _) _ => true
  | _ => false
  end.

(** The identifier a follow request is for, and the post a like request is
    for. *)
Definition follow_of (ev : event) : option string :=
  match ev with
  | Call (CreateFollow _ d _) _ => Some d
  | _ => None
  end.

Definition like_of (ev : event) : option string :=
  match ev with
  | Call (CreateLike _ uri _ _) _ => Some uri
  | _ => None
  end.

(** ** Acting on new identifiers and posts only

    From [w] to [w']: the client is the same, the [followed] and
    [liked_posts] sets of the target have kept their members, and every
    follow or like request sent in between is for an identifier or post that
    was not in the set of [w]; no follow request is for the account itself. *)
Definition acts_on_new_only (th : string) (w w' : World) : Prop :=
  client w' = client w
  ∧ followed (AccountState.target th (state w))
    ⊆ followed (AccountState.target th (state w'))
  ∧ liked_posts (AccountState.target th (state w))
    ⊆ liked_posts (AccountState.target th (state w'))
  ∧ ∃ evs : list event,
      trace w' = (evs ++ trace w)%list
      ∧ ∀ ev, ev ∈ evs →
          (∀ d, follow_of ev = Some d →
                (d ∉ followed (AccountState.target th (state w)))
                ∧ py_eq_str d (_did (client w)) = false)
          ∧ (∀ uri, like_of ev = Some uri →
                    uri ∉ liked_posts (AccountState.target th (state w))).

(** ** The counters of the loops *)

Definition counts_are (a b : Z) (w : World) : Prop :=
  follows_sent (trace w) = a ∧ likes_sent (trace w) = b.

(** What holds between two steps of the engagement loop: the counters are the
    numbers of successful follows and likes since the loop began, neither is
    negative, the like counter is within its limit. *)
Definition counters_ok (target : TargetConfig.t) (a b : Z) (counts : Z * Z)
    (w : World) : Prop :=
  counts_are (a + counts.1) (b + counts.2) w
  ∧ 0 ≤ counts.1 ∧ 0 ≤ counts.2
  ∧ ∀ l, TargetConfig.like_limit target = Some l → counts.2 ≤ Z.max 0 l.

(** The follow counter is below the point at which the loop is left. *)
Definition may_go_on (target : TargetConfig.t) (counts : Z * Z) : Prop :=
  ∀ l, TargetConfig.follow_limit target = Some l → counts.1 < Z.max 1 l.

Definition within_limit (target : TargetConfig.t) (counts : Z * Z) : Prop :=
  ∀ l, TargetConfig.follow_limit target = Some l → counts.1 ≤ Z.max 1 l.

Definition messages_are (n : Z) (w : World) : Prop := messages_sent (trace w) = n.

(** What holds between two steps of the messaging loop. *)
Definition sent_ok (account : AccountConfig.t) (n sent : Z) (w : World) : Prop :=
  messages_are (n + sent) w
  ∧ 0 ≤ sent
  ∧ ∀ l, DMConfig.limit_per_run (AccountConfig.dm account) = Some l →
         sent ≤ Z.max 0 l.

(** ** Accounts one after the other

    Every account is processed from the world the previous one left, whether
    that one returned or raised. *)
Fixpoint process_all `{PyLib} `{Remote} (fuel : nat) (ctx : AutomationContext)
    (accounts : list AccountConfig.t) (w : World) : result unit * World :=
  match accounts with
  | [] => (Ok tt, w)
  | account :: rest =>
      match _run_for_account fuel ctx account w with
      | (Halt h, w') => (Halt h, w')
      | (_, w') => process_all fuel ctx rest w'
      end
  end.

(** ** Configurations *)

(** [Scenario.context] in dry-run mode. *)
Definition dry_context (acct : AccountConfig.t) : AutomationContext :=
  {| config := config (Scenario.context acct); dry_run := true |}.

(** The account has the followers [did:f1] and [did:f2]; conversations are
    resolved and messages are accepted. *)
Definition chatty : Remote :=
  Scenario.scripted (fun rq =>
    match rq with
    | CreateSession _ _ => Scenario.ok Scenario.session
    | GetProfile actor =>
        Scenario.ok (JDict [ ("did", JStr ("did:" +:+ actor)); ("handle", JStr actor) ])
    | GetFollowers _ _ _ =>
        Scenario.ok
          (JDict [ ("followers",
                    JList [ Scenario.follower_record "did:f1" "f1.example";
                            Scenario.follower_record "did:f2" "f2.example" ]) ])
    | Conversation _ member =>
        Scenario.ok (JDict [ ("convo", JDict [ ("id", JStr ("convo:" +:+ member)) ]) ])
    | _ => Scenario.ok (JDict [])
    end).

(** As [chatty]; every follower has one post. *)
Definition posting : Remote :=
  Scenario.scripted (fun rq =>
    match rq with
    | CreateSession _ _ => Scenario.ok Scenario.session
    | GetProfile actor =>
        Scenario.ok (JDict [ ("did", JStr ("did:" +:+ actor)); ("handle", JStr actor) ])
    | GetFollowers _ _ _ =>
        Scenario.ok
          (JDict [ ("followers",
                    JList [ Scenario.follower_record "did:f1" "f1.example";
                            Scenario.follower_record "did:f2" "f2.example" ]) ])
    | GetAuthorFeed actor _ =>
        Scenario.ok
          (JDict [ ("feed",
                    JList [ JDict [ ("post",
                                     JDict [ ("uri", JStr ("at://" +:+ actor +:+ "/post/1"));
                                             ("cid", JStr "cid1") ]) ] ]) ])
    | Conversation _ member =>
        Scenario.ok (JDict [ ("convo", JDict [ ("id", JStr ("convo:" +:+ member)) ]) ])
    | _ => Scenario.ok (JDict [])
    end).

(** Login succeeds and profiles are resolved; the listing of followers fails
    with status 500. *)
Definition listing_failing : Remote :=
  Scenario.scripted (fun rq =>
    match rq with
    | CreateSession _ _ => Scenario.ok Scenario.session
    | GetProfile actor =>
        Scenario.ok (JDict [ ("did", JStr ("did:" +:+ actor)); ("handle", JStr actor) ])
    | GetFollowers _ _ _ => Http 500 NoContent
    | _ => Scenario.ok (JDict [])
    end).

(** A target whose followers' latest posts are liked, at most one per run. *)
Definition liking_target : TargetConfig.t :=
  {| TargetConfig.handle := "star.example";
     TargetConfig.follow_limit := None;
     TargetConfig.like_latest_post := true;
     TargetConfig.like_limit := Some 1 |}.

(** Direct messages with at most one message per run. *)
Definition one_greeting : DMConfig.t :=
  {| DMConfig.enabled := true; DMConfig.message := "Hello {handle}";
     DMConfig.limit_per_run := Some 1; DMConfig.cooldown_hours := 0 |}.

End Coverage.
Export Coverage.

(* ===================================================================== *)
(** * Strings *)
(* ===================================================================== *)

Section Strings.

Lemma append_nil (t : string) : "" +:+ t = t.
Proof. reflexivity. Qed.

Lemma append_cons (c : ascii) (s t : string) : String c s +:+ t = String c (s +:+ t).
Proof. reflexivity. Qed.

Lemma append_assoc (s1 s2 s3 : string) : (s1 +:+ s2) +:+ s3 = s1 +:+ (s2 +:+ s3).
Proof.
  induction s1 as [|c s1 IH]; [reflexivity|].
  rewrite !append_cons. now rewrite IH.
Qed.

Lemma append_nil_r (s : string) : s +:+ "" = s.
Proof.
  induction s as [|c s IH]; [reflexivity|]. rewrite append_cons. now rewrite IH.
Qed.

Lemma append_length (s t : string) :
  String.length (s +:+ t) = (String.length s + String.length t)%nat.
Proof. induction s as [|c s IH]; simpl; [reflexivity | now rewrite IH]. Qed.

Lemma append_inv_suffix (s1 s2 t : string) : s1 +:+ t = s2 +:+ t → s1 = s2.
Proof.
  revert s2. induction s1 as [|c s1 IH]; intros [|c' s2] Heq; simpl in Heq.
  - reflexivity.
  - apply (f_equal String.length) in Heq.
    change (String.length t = S (String.length (s2 +:+ t))) in Heq.
    rewrite append_length in Heq. lia.
  - apply (f_equal String.length) in Heq.
    change (S (String.length (s1 +:+ t)) = String.length t) in Heq.
    rewrite append_length in Heq. lia.
  - injection Heq as -> Heq. f_equal. now apply IH.
Qed.

End Strings.

(* ===================================================================== *)
(** * Storage keys *)
(* ===================================================================== *)

Section StorageKeys.

Lemma sanitize_safe (h : string) : all_safe h = true → StateStore.sanitize h = h.
Proof.
  induction h as [|c h IH]; simpl; [reflexivity|].
  intros [Hc Hh]%andb_prop. rewrite Hc. f_equal. now apply IH.
Qed.

(** Two handles share a path exactly when their sanitized forms coincide. *)
Lemma path_for_eq_iff (root : Path) (h1 h2 : string) :
  StateStore._path_for root h1 = StateStore._path_for root h2
  ↔ StateStore.sanitize h1 = StateStore.sanitize h2.
Proof.
  unfold StateStore._path_for. split.
  - intros Heq%app_inv_head. injection Heq as Heq.
    now apply append_inv_suffix in Heq.
  - now intros ->.
Qed.

(** C2, as stated, fails: the distinct handles [a@b] and [a_b] are given the
    same path, so the record of one is what [load] returns for the other. *)
Lemma path_for_collision :
  "a@b" ≠ "a_b"
  ∧ StateStore._path_for ["state"] "a@b" = StateStore._path_for ["state"] "a_b"
  ∧ ∀ st, StateStore.load ["state"] "a@b"
            (StateStore.save ["state"] "a_b" st ∅)
          = StateStore.load ["state"] "a_b"
            (StateStore.save ["state"] "a_b" st ∅).
Proof. split; [discriminate | split; [reflexivity | intros st; reflexivity]]. Qed.

(** C2 (amended): on handles made of safe characters only (letters, digits,
    [_], [.], [-]) the mapping from handles to storage paths is injective:
    two distinct such handles get distinct paths. *)
Theorem path_for_injective_on_safe (root : Path) (h1 h2 : string) :
  all_safe h1 = true → all_safe h2 = true → h1 ≠ h2 →
  StateStore._path_for root h1 ≠ StateStore._path_for root h2.
Proof.
  intros S1 S2 Hne Heq. apply path_for_eq_iff in Heq.
  rewrite !sanitize_safe in Heq by assumption. contradiction.
Qed.

Lemma path_for_injective_on_safe_witness :
  StateStore._path_for ["state"] "alice.bsky.social"
  ≠ StateStore._path_for ["state"] "bob-2.bsky.social".
Proof.
  apply (path_for_injective_on_safe ["state"] "alice.bsky.social" "bob-2.bsky.social");
    [reflexivity | reflexivity | discriminate].
Defined.

End StorageKeys.

(* ===================================================================== *)
(** * Message templates *)
(* ===================================================================== *)

Section Templates.
Context `{PyLib}.

Lemma append_ok_nil (r : result string) : append_ok "" r = r.
Proof. now destruct r. Qed.

Lemma emit_append_ok (c : ascii) (s : string) (r : result string) :
  emit c (append_ok s r) = append_ok (String c s) r.
Proof. now destruct r. Qed.


(** Literal text with doubled braces is copied, whatever follows it. *)
Lemma scan_escape (lookup : string → string) (s rest : string) :
  format_scan lookup None (escape s +:+ rest)
  = append_ok s (format_scan lookup None rest).
Proof.
  induction s as [|c s IH]; cbn [escape].
  - now rewrite append_nil, append_ok_nil.
  - unfold is_brace. destruct (Ascii.eqb c "{" || Ascii.eqb c "}") eqn:Hb;
      rewrite !append_cons; cbn [format_scan].
    + rewrite Hb, Ascii.eqb_refl, IH. apply emit_append_ok.
    + rewrite Hb, IH. apply emit_append_ok.
Qed.

(** Inside a field, the characters of a plain key are collected up to the
    closing brace. *)
Lemma scan_key (lookup : string → string) (key name rest : string) :
  plain_chars key = true →
  format_scan lookup (Some name) (key +:+ "}" +:+ rest)
  = rbind (field_value lookup (name +:+ key))
          (fun v => append_ok v (format_scan lookup None rest)).
Proof.
  revert name. induction key as [|c key IH]; intros name Hk.
  - rewrite append_nil, append_nil_r. reflexivity.
  - simpl in Hk. apply andb_prop in Hk as [[Hb Ho]%andb_prop Hk].
    unfold is_brace in Hb. apply negb_true_iff, orb_false_elim in Hb as [Hb1 Hb2].
    apply negb_true_iff in Ho.
    rewrite append_cons. cbn [format_scan]. rewrite Hb1, Hb2, Ho.
    rewrite IH by assumption. rewrite append_assoc. reflexivity.
Qed.

Lemma scan_open (lookup : string → string) (c : ascii) (r : string) :
  Ascii.eqb c "{" = false →
  format_scan lookup None (String "{" (String c r))
  = format_scan lookup (Some "") (String c r).
Proof.
  intros Hc. cbn [format_scan].
  change (Ascii.eqb "{" "{" || Ascii.eqb "{" "}") with true. cbv iota.
  rewrite (Ascii.eqb_sym "{" c), Hc. reflexivity.
Qed.

Lemma scan_placeholder (lookup : string → string) (key rest : string) :
  plain_key key = true →
  format_scan lookup None ("{" +:+ key +:+ "}" +:+ rest)
  = append_ok (lookup key) (format_scan lookup None rest).
Proof.
  intros [Hd Hk]%andb_prop. apply negb_true_iff in Hd.
  destruct key as [|c key]; [discriminate|].
  pose proof (scan_key lookup (String c key) "" rest Hk) as Hs.
  simpl in Hk. apply andb_prop in Hk as [[Hb _]%andb_prop _].
  unfold is_brace in Hb. apply negb_true_iff, orb_false_elim in Hb as [Hb1 _].
  rewrite append_nil in Hs.
  rewrite (append_cons "{" "" _), append_nil, (append_cons c key _).
  rewrite (append_cons c key _) in Hs.
  rewrite scan_open by exact Hb1.
  rewrite Hs. unfold field_value. now rewrite Hd.
Qed.

Lemma scan_template (lookup : string → string) (ps : list piece) :
  well_formed ps = true →
  format_scan lookup None (template_of ps)
  = Ok ((fix go ps := match ps with
                      | [] => EmptyString
                      | Text s :: rest => s +:+ go rest
                      | Placeholder key :: rest => lookup key +:+ go rest
                      end) ps).
Proof.
  induction ps as [|[s|key] ps IH]; intros Hwf; cbn [template_of piece_source].
  - reflexivity.
  - rewrite scan_escape, IH by exact Hwf. reflexivity.
  - simpl in Hwf. apply andb_prop in Hwf as [Hk Hwf].
    rewrite !append_assoc, scan_placeholder, IH by assumption. reflexivity.
Qed.

(** The three-key [SafeDict] of [_render_message] gives every key its
    placeholder text. *)
Lemma SafeDict_placeholder_text (follower : list (string * json)) (key : string) :
  py_str (SafeDict_getitem
            [ ("handle", default (JStr "") (dict_get follower "handle"));
              ("displayName", default (JStr "") (dict_get follower "displayName"));
              ("did", default (JStr "") (dict_get follower "did")) ] key)
  = placeholder_text follower key.
Proof.
  unfold SafeDict_getitem, placeholder_text. cbn [dict_get].
  destruct (decide (key = "handle")) as [->|N1];
    [destruct (dict_get follower "handle"); reflexivity|].
  destruct (decide (key = "displayName")) as [->|N2];
    [destruct (dict_get follower "displayName"); reflexivity|].
  destruct (decide (key = "did")) as [->|N3];
    [destruct (dict_get follower "did"); reflexivity|].
  rewrite !(bool_decide_eq_false_2 (_ = key)) by congruence.
  rewrite bool_decide_eq_false_2; [reflexivity|].
  rewrite !elem_of_cons, elem_of_nil. tauto.
Qed.

End Templates.

(** C3, as stated, fails: the template [{] makes [format_map] raise
    [ValueError] ("Single '{' encountered in format string"), so not every
    template is rendered. *)
Lemma render_message_single_brace :
  ¬ (∀ (L : PyLib) (template : string) (follower : list (string * json)),
       ∃ s, _render_message template (JDict follower) = Ok s).
Proof.
  intros Hall.
  destruct (Hall {| py_repr := fun _ => ""; fromisoformat := fun _ => None;
                   isoformat := fun _ => ""; timedelta_hours := fun _ => None |}
                 "{" []) as [s Hs].
  discriminate Hs.
Qed.

(** C3 (amended): for every follower record and every template made of literal
    text (braces doubled) and placeholders [{key}] whose key is a plain name,
    rendering returns a string: the template with each placeholder replaced by
    the follower's field when the key is [handle], [displayName] or [did] and
    the record has it, and by the empty string when the record lacks it or the
    key is unknown. *)
Theorem render_message_well_formed `{PyLib} (ps : list piece)
    (follower : list (string * json)) :
  well_formed ps = true →
  _render_message (template_of ps) (JDict follower) = Ok (rendering follower ps).
Proof.
  intros Hwf. unfold _render_message, format_map. simpl.
  rewrite scan_template by exact Hwf. f_equal.
  clear Hwf. induction ps as [|[s|key] ps IH]; simpl.
  - reflexivity.
  - now rewrite IH.
  - now rewrite IH, SafeDict_placeholder_text.
Qed.

Lemma render_message_well_formed_witness :
  @_render_message Scenario.lib
     (template_of [ Text "Hi "; Placeholder "handle"; Text " {"; Placeholder "nick";
                    Text "} "; Placeholder "displayName" ])
     (JDict [ ("did", JStr "did:f1"); ("handle", JStr "f1.example") ])
  = Ok "Hi f1.example {} ".
Proof.
  apply (@render_message_well_formed Scenario.lib
           [ Text "Hi "; Placeholder "handle"; Text " {"; Placeholder "nick";
             Text "} "; Placeholder "displayName" ]
           [ ("did", JStr "did:f1"); ("handle", JStr "f1.example") ]).
  reflexivity.
Defined.

(* ===================================================================== *)
(** * Cooldown policy *)
(* ===================================================================== *)

(** C4: the decision of [_should_send_dm] is the eligibility function of the
    specification: eligible without an entry in [dm_history]; ineligible with
    an entry and no (or a zero) cooldown; otherwise eligible exactly when the
    stored timestamp is empty or unparseable, or the time elapsed since it
    (a timestamp without offset being read as UTC) is at least the cooldown. *)
Theorem should_send_dm_is_eligible `{PyLib} (identifier : string)
    (st : AccountState) (cooldown : option Z) (now_utc : Z) :
  _should_send_dm identifier st cooldown now_utc
  = eligible identifier (dm_history st) cooldown now_utc.
Proof.
  unfold _should_send_dm, eligible, stored_instant, no_cooldown.
  destruct (dm_history st !! identifier) as [stamp|]; [|reflexivity].
  destruct cooldown as [cd|]; [|reflexivity].
  destruct (cd =? 0); [reflexivity|].
  case_bool_decide; [reflexivity|].
  destruct (fromisoformat stamp) as [[w [off|]]|]; simpl; try reflexivity.
  f_equal. lia.
Qed.

(* ===================================================================== *)
(** * Persistence *)
(* ===================================================================== *)

Section RoundTrip.

Lemma strs_of_strs (l : list string) :
  Storage.strs_of (JStr <$> l) = Ok (list_to_set l).
Proof.
  induction l as [|s l IH]; [reflexivity|].
  rewrite fmap_cons. cbn [Storage.strs_of]. rewrite IH. reflexivity.
Qed.

Lemma py_set_strs_json (X : gset string) :
  Storage.py_set (Storage.strs_json X) = Ok X.
Proof.
  unfold Storage.py_set, Storage.strs_json, sorted. simpl.
  rewrite strs_of_strs. f_equal.
  apply set_eq. intros x.
  rewrite elem_of_list_to_set, merge_sort_Permutation. apply elem_of_elements.
Qed.

Lemma TargetState_round_trip (ts : TargetState) :
  Storage.TargetState.from_dict (Storage.TargetState.to_dict ts) = Ok ts.
Proof.
  unfold Storage.TargetState.from_dict, Storage.TargetState.to_dict.
  cbn [py_get dict_get bool_decide decide_rel default rbind].
  simpl. rewrite !py_set_strs_json. simpl. now destruct ts.
Qed.

(** Inserting the items of a map one after the other gives the map back. *)
Lemma foldl_insert_items {V} (l : list (string * V)) (acc : gmap string V) :
  foldl (fun a kv => <[ kv.1 := kv.2 ]> a) acc l = list_to_map (reverse l) ∪ acc.
Proof.
  revert acc. induction l as [|[k v] l IH]; intros acc; simpl.
  - symmetry. apply (left_id_L ∅ (∪)).
  - rewrite IH, reverse_cons, list_to_map_app.
    rewrite <- (assoc_L (∪)). f_equal.
    simpl. rewrite insert_empty. apply insert_union_singleton_l.
Qed.

Lemma foldl_insert_map_to_list {V} (m : gmap string V) :
  foldl (fun a kv => <[ kv.1 := kv.2 ]> a) ∅ (map_to_list m) = m.
Proof.
  rewrite foldl_insert_items, (right_id_L ∅ (∪)).
  transitivity (list_to_map (map_to_list m) : gmap string V);
    [|apply list_to_map_to_list].
  symmetry. apply list_to_map_proper.
  - apply NoDup_fst_map_to_list.
  - symmetry. apply reverse_Permutation.
Qed.

Lemma str_items_strs (l : list (string * string)) (acc : gmap string string) :
  Storage.str_items (prod_map id JStr <$> l) acc
  = Ok (foldl (fun a kv => <[ kv.1 := kv.2 ]> a) acc l).
Proof.
  revert acc. induction l as [|[k v] l IH]; intros acc; [reflexivity|].
  rewrite fmap_cons. unfold prod_map at 1. cbn [fst snd id Storage.str_items].
  apply IH.
Qed.

Lemma targets_of_targets (l : list (string * TargetState)) (acc : gmap string TargetState) :
  Storage.AccountState.targets_of
    (prod_map id Storage.TargetState.to_dict <$> l) acc
  = Ok (foldl (fun a kv => <[ kv.1 := kv.2 ]> a) acc l).
Proof.
  revert acc. induction l as [|[k v] l IH]; intros acc; [reflexivity|].
  rewrite fmap_cons. unfold prod_map at 1. cbn [fst snd id].
  cbn [Storage.AccountState.targets_of]. rewrite TargetState_round_trip.
  cbn [rbind]. apply IH.
Qed.

Lemma AccountState_round_trip (st : AccountState) :
  Storage.AccountState.from_dict (Storage.AccountState.to_dict st) = Ok st.
Proof.
  unfold Storage.AccountState.from_dict, Storage.AccountState.to_dict.
  simpl. rewrite targets_of_targets, foldl_insert_map_to_list. simpl.
  rewrite py_set_strs_json. simpl.
  unfold Storage.py_dict. rewrite str_items_strs, foldl_insert_map_to_list.
  simpl. now destruct st.
Qed.

End RoundTrip.

(** C7: [save] followed by [load] for the same handle yields the state that
    was saved; sets and mappings being compared by their members
    ([gset]/[gmap] equality), the order of serialization plays no part. *)
Theorem save_load_round_trip (root : Path) (handle : string) (st : AccountState)
    (fs : files) :
  StateStore.load root handle (StateStore.save root handle st fs) = Ok st.
Proof.
  unfold StateStore.load, StateStore.save.
  rewrite lookup_insert_eq. apply AccountState_round_trip.
Qed.

(* ===================================================================== *)
(** * Reasoning about computations *)
(* ===================================================================== *)

Lemma run_bind {A B} (m : M A) (k : A → M B) (w : World) :
  (m ≫= k) w = match m w with
               | (Ok a, w') => k a w'
               | (Raise e, w') => (Raise e, w')
               | (Halt h, w') => (Halt h, w')
               end.
Proof. reflexivity. Qed.

Lemma run_bind_ok {A B} (m : M A) (k : A → M B) (w w' : World) (a : A) :
  m w = (Ok a, w') → (m ≫= k) w = k a w'.
Proof. intros Hm. now rewrite run_bind, Hm. Qed.

Lemma run_try_raise {A} (m : M A) (catches : exn → bool) (handler : exn → M A)
    (w w' : World) (e : exn) :
  m w = (Raise e, w') →
  try_except m catches handler w
  = if catches e then handler e w' else (Raise e, w').
Proof. intros Hm. unfold try_except. now rewrite Hm. Qed.

(** ** Relations that computations keep *)

Section Keeps.
Context (P : relation_kept).

Lemma keeps_ret {A} (a : A) : keeps P (ret a).
Proof. intros w. apply related_refl. Qed.

Lemma keeps_raise {A} (e : exn) : keeps P (@raise A e).
Proof. intros w. apply related_refl. Qed.

Lemma keeps_lift {A} (r : result A) : keeps P (lift r).
Proof. intros w. apply related_refl. Qed.

Lemma keeps_get_world : keeps P get_world.
Proof. intros w. apply related_refl. Qed.

Lemma keeps_bind {A B} (m : M A) (k : A → M B) :
  keeps P m → (∀ a, keeps P (k a)) → keeps P (m ≫= k).
Proof.
  intros Hm Hk w. rewrite run_bind. specialize (Hm w).
  destruct (m w) as [[a|e|h] w']; simpl in *; try assumption.
  eapply related_trans; [exact Hm | apply Hk].
Qed.

Lemma keeps_try {A} (m : M A) (catches : exn → bool) (handler : exn → M A) :
  keeps P m → (∀ e, keeps P (handler e)) → keeps P (try_except m catches handler).
Proof.
  intros Hm Hh w. unfold try_except. specialize (Hm w).
  destruct (m w) as [[a|e|h] w']; simpl in *; try assumption.
  destruct (catches e); simpl; [|assumption].
  eapply related_trans; [exact Hm | apply Hh].
Qed.

Lemma keeps_modify (f : World → World) : (∀ w, P w (f w)) → keeps P (modify f).
Proof. intros Hf w. apply Hf. Qed.

Lemma keeps_for_each {A S} (body : A → S → M (ctl * S)) (items : list A) (s : S) :
  (∀ x s, keeps P (body x s)) → keeps P (for_each body items s).
Proof.
  intros Hb. revert s. induction items as [|x items IH]; intros s.
  - apply keeps_ret.
  - cbn [for_each]. apply keeps_bind; [apply Hb|].
    intros [[|] s']; [apply IH | apply keeps_ret].
Qed.

Section Remote.
Context `{PyLib} `{Remote}.

Lemma keeps_now : keeps P now.
Proof. intros w. apply related_refl. Qed.

Lemma keeps_sleep (d : Q) : harmless P (Sleep d) → keeps P (sleep d).
Proof. intros Hd w. now apply related_event. Qed.

Lemma keeps_pause (d : Q) : harmless P (Sleep d) → keeps P (pause d).
Proof.
  intros Hd. unfold pause. destruct (negb _); [now apply keeps_sleep | apply keeps_ret].
Qed.

Lemma keeps_client_did : keeps P client_did.
Proof.
  intros w. unfold client_did. destruct (py_truthy _); apply related_refl.
Qed.

Lemma keeps_request (rq : request) (auth : bool) :
  (∀ rs, harmless P (Call rq rs)) → keeps P (_request rq auth).
Proof.
  intros Hrq. unfold _request. apply keeps_bind.
  - destruct auth; [|apply keeps_ret].
    intros w. unfold _auth_headers. destruct (py_truthy _); apply related_refl.
  - intros _ w. cbv beta zeta.
    destruct (respond (trace w) rq) as [|sc body] eqn:Hrs;
      [now apply related_event|].
    destruct (400 <=? sc); [now apply related_event|].
    destruct body; now apply related_event.
Qed.

Lemma keeps_get_profile (actor : string) :
  (∀ rs, harmless P (Call (GetProfile actor) rs)) → keeps P (get_profile actor).
Proof.
  intros Hrq. unfold get_profile.
  repeat first [now apply keeps_request | apply keeps_lift | apply keeps_ret
               | apply keeps_bind; [|intros ?]].
Qed.

Lemma keeps_follow (d : string) :
  (∀ repo t rs, harmless P (Call (CreateFollow repo d t) rs)) → keeps P (follow d).
Proof.
  intros Hrq. unfold follow.
  repeat first [now apply keeps_request | apply keeps_now | apply keeps_client_did
               | apply keeps_bind; [|intros ?]].
Qed.

Lemma keeps_like (uri cid : string) :
  (∀ repo t rs, harmless P (Call (CreateLike repo uri cid t) rs)) →
  keeps P (like uri cid).
Proof.
  intros Hrq. unfold like.
  repeat first [now apply keeps_request | apply keeps_now | apply keeps_client_did
               | apply keeps_bind; [|intros ?]].
Qed.

Lemma keeps_get_followers (actor : json) (limit : Z) (cursor : json) :
  (∀ c rs, harmless P (Call (GetFollowers actor limit c) rs)) →
  keeps P (get_followers actor limit cursor).
Proof. intros Hrq. now apply keeps_request. Qed.

Lemma keeps_list_own_followers (limit : Z) (cursor : json) :
  (∀ actor c rs, harmless P (Call (GetFollowers actor limit c) rs)) →
  keeps P (list_own_followers limit cursor).
Proof.
  intros Hrq. unfold list_own_followers.
  apply keeps_bind; [apply keeps_client_did | intros ?; now apply keeps_get_followers].
Qed.

Lemma keeps_try_endpoints (endpoints : list string) (member : string) :
  (∀ ep rs, harmless P (Call (Conversation ep member) rs)) →
  keeps P (try_endpoints endpoints member).
Proof.
  intros Hrq. induction endpoints as [|ep rest IH]; cbn [try_endpoints].
  - apply keeps_raise.
  - apply keeps_bind.
    + apply keeps_try; [|intros ?; apply keeps_ret].
      apply keeps_bind; [now apply keeps_request | intros ?; apply keeps_ret].
    + intros [data|]; [|exact IH].
      apply keeps_bind; [apply keeps_lift|].
      intros [i|]; [apply keeps_ret | exact IH].
Qed.

Lemma keeps_send_direct_message (convo text : string) :
  (∀ rs, harmless P (Call (SendMessage convo text) rs)) →
  keeps P (send_direct_message convo text).
Proof.
  intros Hrq. unfold send_direct_message.
  apply keeps_try; [now apply keeps_request | intros ?; apply keeps_raise].
Qed.

Lemma keeps_iterate_followers {S} (fuel : nat) (actor : json) (page_size : Z)
    (cursor : json) (body : json → S → M (ctl * S)) (s : S) :
  (∀ c rs, harmless P (Call (GetFollowers actor page_size c) rs)) →
  (∀ x s, keeps P (body x s)) →
  keeps P (iterate_followers fuel actor page_size cursor body s).
Proof.
  intros Hrq Hb. revert cursor s.
  induction fuel as [|fuel IH]; intros cursor s; cbn [iterate_followers].
  - apply keeps_lift.
  - apply keeps_bind; [now apply keeps_get_followers | intros data].
    apply keeps_bind; [apply keeps_lift | intros fl].
    apply keeps_bind; [apply keeps_lift | intros followers].
    apply keeps_bind; [now apply keeps_for_each | intros [[|] s']].
    + apply keeps_bind; [apply keeps_lift | intros c].
      destruct (py_truthy c); [apply IH | apply keeps_ret].
    + apply keeps_ret.
Qed.

End Remote.
End Keeps.

(* ===================================================================== *)
(** * The recorded sets only grow *)
(* ===================================================================== *)

#[export] Instance target_grows_refl : Reflexive target_grows.
Proof. intros ts. split; reflexivity. Qed.

#[export] Instance target_grows_trans : Transitive target_grows.
Proof. intros a b c [F1 L1] [F2 L2]. split; set_solver. Qed.

#[export] Instance grows_refl : Reflexive grows.
Proof.
  intros s. split; [reflexivity|]. intros t ts Ht. exists ts. split; [exact Ht | reflexivity].
Qed.

#[export] Instance grows_trans : Transitive grows.
Proof.
  intros a b c [K1 T1] [K2 T2]. split; [set_solver|].
  intros t ts Ht. destruct (T1 t ts Ht) as (ts1 & Ht1 & G1).
  destruct (T2 t ts1 Ht1) as (ts2 & Ht2 & G2).
  exists ts2. split; [exact Ht2 | etransitivity; eassumption].
Qed.

Definition state_grows : relation_kept :=
  {| related := fun w w' => grows (state w) (state w');
     harmless := fun _ => True;
     related_refl := fun w => grows_refl (state w);
     related_trans := fun w1 w2 w3 => grows_trans (state w1) (state w2) (state w3);
     related_event := fun w ev _ => grows_refl (state w) |}.

Section Mutations.

Lemma grows_alter (f : TargetState → TargetState) (th : string) (s : AccountState) :
  (∀ ts, target_grows ts (f ts)) →
  grows s {| known_followers := known_followers s; dm_history := dm_history s;
             targets := alter f th (targets s) |}.
Proof.
  intros Hf. split; [reflexivity|]. simpl. intros t ts Ht.
  destruct (decide (th = t)) as [->|Hne].
  - exists (f ts). split; [|apply Hf]. rewrite lookup_alter_eq, Ht. reflexivity.
  - exists ts. split; [|reflexivity]. now rewrite lookup_alter_ne.
Qed.

Lemma grows_followed_add (th d : string) (s : AccountState) :
  grows s (followed_add th d s).
Proof. apply grows_alter. intros ts. split; simpl; set_solver. Qed.

Lemma grows_liked_posts_add (th uri : string) (s : AccountState) :
  grows s (liked_posts_add th uri s).
Proof. apply grows_alter. intros ts. split; simpl; set_solver. Qed.

Lemma grows_known_followers_add (d : string) (s : AccountState) :
  grows s (known_followers_add d s).
Proof.
  split; simpl; [set_solver|]. intros t ts Ht. exists ts. split; [exact Ht | reflexivity].
Qed.

Lemma grows_dm_history_set (d stamp : string) (s : AccountState) :
  grows s (dm_history_set d stamp s).
Proof.
  split; simpl; [reflexivity|]. intros t ts Ht. exists ts. split; [exact Ht | reflexivity].
Qed.

Lemma grows_ensure_target (th : string) (s : AccountState) :
  grows s (Storage.AccountState.ensure_target th s).
Proof.
  unfold Storage.AccountState.ensure_target.
  destruct (targets s !! th) eqn:Hth; [reflexivity|].
  split; simpl; [reflexivity|]. intros t ts Ht. exists ts. split; [|reflexivity].
  rewrite lookup_insert_ne; [exact Ht | congruence].
Qed.

End Mutations.

Section Growth.
Context `{PyLib} `{Remote}.

Local Ltac grow_step :=
  first
    [ apply keeps_ret | apply keeps_raise | apply keeps_lift | apply keeps_get_world
    | apply keeps_now | apply keeps_client_did
    | apply keeps_pause; exact I
    | apply keeps_request; intros; exact I
    | apply keeps_follow; intros; exact I
    | apply keeps_like; intros; exact I
    | apply keeps_get_profile; intros; exact I
    | apply keeps_list_own_followers; intros; exact I
    | apply keeps_try_endpoints; intros; exact I
    | apply keeps_send_direct_message; intros; exact I
    | apply keeps_try; [|intros ?]
    | apply keeps_bind; [|intros ?] ].

Lemma grows_update_state (f : AccountState → AccountState) :
  (∀ s, grows s (f s)) → keeps state_grows (update_state f).
Proof. intros Hf w. apply Hf. Qed.

Lemma like_first_grows (posts : list json) (th : string) :
  keeps state_grows (like_first posts th).
Proof.
  induction posts as [|item posts IH]; cbn [like_first]; [apply keeps_ret|].
  destruct (match item with JDict items => _ | _ => _ end); try exact IH.
  destruct (dict_get items "uri") as [[]|]; try exact IH.
  destruct (dict_get items "cid") as [[]|]; try exact IH.
  apply keeps_bind; [apply keeps_get_world | intros w].
  case_bool_decide; [apply keeps_ret|].
  apply keeps_bind; [repeat grow_step | intros [|]]; [|apply keeps_ret].
  apply keeps_bind; [|intros ?; apply keeps_ret].
  apply grows_update_state, grows_liked_posts_add.
Qed.

Lemma like_latest_post_grows (follower : json) (th : string) :
  keeps state_grows (_like_latest_post follower th).
Proof.
  unfold _like_latest_post. apply keeps_bind; [apply keeps_lift | intros d].
  destruct d; try apply keeps_ret.
  apply keeps_bind.
  - apply keeps_try; [|intros ?; apply keeps_ret].
    apply keeps_bind; [|intros ?; apply keeps_ret].
    grow_step.
  - intros [feed|]; [|apply keeps_ret].
    destruct (match feed with JDict items => _ | _ => _ end); try apply keeps_ret.
    apply like_first_grows.
Qed.

Lemma engage_body_grows (ctx : AutomationContext) (account : AccountConfig.t)
    (target : TargetConfig.t) (follower : json) (counts : Z * Z) :
  keeps state_grows (engage_body ctx account target follower counts).
Proof.
  unfold engage_body. destruct counts as [fc lc].
  apply keeps_bind; [apply keeps_lift | intros d].
  destruct d; try apply keeps_ret.
  apply keeps_bind; [grow_step | intros own].
  destruct (py_eq_str s own); [apply keeps_ret|].
  apply keeps_bind; [apply keeps_get_world | intros w].
  case_bool_decide; [apply keeps_ret|].
  apply keeps_bind; [repeat grow_step | intros [|]].
  - apply keeps_bind; [apply grows_update_state, grows_followed_add | intros _].
    apply keeps_bind; [grow_step | intros _].
    apply keeps_bind.
    + destruct (_ && _); [|apply keeps_ret].
      apply keeps_bind; [apply like_latest_post_grows | intros [|]];
        [|apply keeps_ret].
      apply keeps_bind; [grow_step | intros _].
      apply keeps_ret.
    + intros lc'. destruct (TargetConfig.follow_limit target) as [l|];
        [destruct (l <=? fc + 1)|]; apply keeps_ret.
  - apply keeps_bind; [apply grows_update_state, grows_followed_add | intros _].
    apply keeps_ret.
Qed.

Lemma engage_target_grows (fuel : nat) (ctx : AutomationContext)
    (account : AccountConfig.t) (target : TargetConfig.t) :
  keeps state_grows (_engage_target fuel ctx account target).
Proof.
  unfold _engage_target. apply keeps_bind; [repeat grow_step | intros [p|]];
    [|apply keeps_ret].
  apply keeps_bind; [apply grows_update_state, grows_ensure_target | intros _].
  apply keeps_bind; [|intros ?; apply keeps_ret].
  apply keeps_iterate_followers; [intros; exact I|].
  intros x s. apply engage_body_grows.
Qed.

Lemma message_body_grows (ctx : AutomationContext) (account : AccountConfig.t)
    (cooldown : option Z) (follower : json) (sent : Z) :
  keeps state_grows (message_body ctx account cooldown follower sent).
Proof.
  unfold message_body.
  destruct (match follower with JDict items => _ | _ => _ end); try apply keeps_ret.
  apply keeps_bind; [apply grows_update_state, grows_known_followers_add | intros _].
  apply keeps_bind; [apply keeps_get_world | intros w].
  apply keeps_bind; [grow_step | intros t].
  destruct (negb _); [apply keeps_ret|].
  destruct (match DMConfig.limit_per_run _ with Some _ => _ | None => _ end);
    [apply keeps_ret|].
  apply keeps_bind; [apply keeps_lift | intros message].
  apply keeps_bind; [repeat grow_step | intros [| |]]; try apply keeps_ret.
  apply keeps_bind; [grow_step | intros t'].
  apply keeps_bind; [apply grows_update_state, grows_dm_history_set | intros _].
  apply keeps_bind; [grow_step | intros _].
  apply keeps_ret.
Qed.

Lemma message_pages_grows (fuel : nat) (ctx : AutomationContext)
    (account : AccountConfig.t) (cooldown : option Z) (cursor : json) (sent : Z) :
  keeps state_grows (message_pages fuel ctx account cooldown cursor sent).
Proof.
  revert cursor sent. induction fuel as [|fuel IH]; intros cursor sent;
    cbn [message_pages]; [apply keeps_lift|].
  apply keeps_bind; [repeat grow_step | intros [response|]]; [|apply keeps_ret].
  apply keeps_bind.
  - apply keeps_for_each. intros x s. apply message_body_grows.
  - intros [[|] sent']; [|apply keeps_ret].
    destruct (py_truthy _); [apply IH | apply keeps_ret].
Qed.

Lemma message_new_followers_grows (fuel : nat) (ctx : AutomationContext)
    (account : AccountConfig.t) :
  keeps state_grows (_message_new_followers fuel ctx account).
Proof.
  unfold _message_new_followers. apply keeps_bind.
  - destruct (negb _); [|apply keeps_ret].
    destruct (timedelta_hours _); [apply keeps_ret | apply keeps_raise].
  - intros cooldown. apply message_pages_grows.
Qed.

Lemma engage_and_message_grows (fuel : nat) (ctx : AutomationContext)
    (account : AccountConfig.t) :
  keeps state_grows (engage_and_message fuel ctx account).
Proof.
  unfold engage_and_message. apply keeps_bind.
  - apply keeps_for_each. intros target [].
    apply keeps_bind; [apply engage_target_grows | intros ?; apply keeps_ret].
  - intros _. destruct (_ && _); [|apply keeps_ret].
    apply keeps_bind; [apply message_new_followers_grows | intros ?; apply keeps_ret].
Qed.

End Growth.

(** C9: whatever the remote service answers and wherever the run stops,
    target engagement, the liking of a latest post, new-follower messaging, and
    the two procedures run one after the other as in [_run_for_account], leave
    [known_followers] and each target's [followed] and [liked_posts] with every
    member they had: no member is ever removed. *)
Theorem recorded_sets_only_grow `{PyLib} `{Remote} (fuel : nat)
    (ctx : AutomationContext) (account : AccountConfig.t) (target : TargetConfig.t)
    (follower : json) (w : World) :
  grows (state w) (state (_engage_target fuel ctx account target w).2)
  ∧ grows (state w) (state (_like_latest_post follower (TargetConfig.handle target) w).2)
  ∧ grows (state w) (state (_message_new_followers fuel ctx account w).2)
  ∧ grows (state w) (state (engage_and_message fuel ctx account w).2).
Proof.
  split; [|split; [|split]].
  - exact (engage_target_grows fuel ctx account target w).
  - exact (like_latest_post_grows follower (TargetConfig.handle target) w).
  - exact (message_new_followers_grows fuel ctx account w).
  - exact (engage_and_message_grows fuel ctx account w).
Qed.

(* ===================================================================== *)
(** * What a request leaves alone *)
(* ===================================================================== *)

(** Only the trace differs. *)
Definition only_trace : relation_kept.
Proof.
  refine {| related := fun w w' =>
              disk w' = disk w ∧ client w' = client w ∧ state w' = state w;
            harmless := fun _ => True |}.
  - intros w. repeat split.
  - intros w1 w2 w3 (D1 & C1 & S1) (D2 & C2 & S2). repeat split; congruence.
  - intros w ev _. repeat split.
Defined.

(** The files and the account state are the same. *)
Definition same_record : relation_kept.
Proof.
  refine {| related := fun w w' => disk w' = disk w ∧ state w' = state w;
            harmless := fun _ => True |}.
  - intros w. split; reflexivity.
  - intros w1 w2 w3 (D1 & S1) (D2 & S2). split; congruence.
  - intros w ev _. split; reflexivity.
Defined.

Section Frames.
Context `{PyLib} `{Remote}.

Lemma login_same_record : keeps same_record login.
Proof.
  unfold login.
  repeat first
    [ apply keeps_get_world | apply keeps_request; intros; exact I | apply keeps_lift
    | apply keeps_raise | apply keeps_get_profile; intros; exact I
    | apply keeps_modify; intros ?; split; reflexivity
    | match goal with |- keeps _ (if ?b then _ else _) => destruct b end
    | apply keeps_bind; [|intros ?] ].
Qed.

End Frames.

(* ===================================================================== *)
(** * Followers without identifier *)
(* ===================================================================== *)

(** C10: a follower record whose ["did"] is missing or is not a string is
    passed over by target engagement, by new-follower messaging and by the
    liking of the latest post: the step sends no request, leaves the account
    state (and so [known_followers]) as it was, changes no counter, and the
    loop goes on to the next record. *)
Theorem follower_without_did_is_skipped `{PyLib} `{Remote}
    (ctx : AutomationContext) (account : AccountConfig.t) (target : TargetConfig.t)
    (cooldown : option Z) (record : list (string * json))
    (counts : Z * Z) (sent : Z) (w : World) :
  (∀ d, dict_get record "did" ≠ Some (JStr d)) →
  engage_body ctx account target (JDict record) counts w = (Ok (Next, counts), w)
  ∧ message_body ctx account cooldown (JDict record) sent w = (Ok (Next, sent), w)
  ∧ _like_latest_post (JDict record) (TargetConfig.handle target) w = (Ok false, w).
Proof.
  intros Hdid. unfold engage_body, message_body, _like_latest_post.
  destruct counts as [fc lc]. unfold py_get.
  destruct (dict_get record "did") as [[]|] eqn:Hd;
    try (repeat split; reflexivity).
  now destruct (Hdid s).
Qed.

Lemma follower_without_did_is_skipped_witness :
  @engage_body Scenario.welcoming
     (Scenario.context (Scenario.account [Scenario.target None] Scenario.greeting))
     (Scenario.account [Scenario.target None] Scenario.greeting)
     (Scenario.target None)
     (JDict [ ("handle", JStr "ghost.example"); ("did", JInt 7) ]) (0, 0)
     Scenario.logged_in
  = (Ok (Next, (0, 0)), Scenario.logged_in)
  ∧ @message_body Scenario.lib Scenario.welcoming
      (Scenario.context (Scenario.account [Scenario.target None] Scenario.greeting))
      (Scenario.account [Scenario.target None] Scenario.greeting) None
      (JDict [ ("handle", JStr "ghost.example"); ("did", JInt 7) ]) 0
      Scenario.logged_in
    = (Ok (Next, 0), Scenario.logged_in)
  ∧ @_like_latest_post Scenario.welcoming
      (JDict [ ("handle", JStr "ghost.example"); ("did", JInt 7) ])
      "star.example" Scenario.logged_in
    = (Ok false, Scenario.logged_in).
Proof.
  apply (@follower_without_did_is_skipped Scenario.lib Scenario.welcoming
           (Scenario.context (Scenario.account [Scenario.target None] Scenario.greeting))
           (Scenario.account [Scenario.target None] Scenario.greeting)
           (Scenario.target None) None
           [ ("handle", JStr "ghost.example"); ("did", JInt 7) ] (0, 0) 0
           Scenario.logged_in).
  intros d. simpl. discriminate.
Defined.

(* ===================================================================== *)
(** * Failed follow attempts *)
(* ===================================================================== *)

Section FailedFollow.
Context `{Remote}.

(** A follower already in [followed] is passed over without a request. *)
Lemma engage_body_skips_followed (ctx : AutomationContext) (account : AccountConfig.t)
    (target : TargetConfig.t) (record : list (string * json)) (d : string)
    (counts : Z * Z) (w : World) :
  dict_get record "did" = Some (JStr d) →
  py_truthy (_did (client w)) = true →
  d ∈ followed (AccountState.target (TargetConfig.handle target) (state w)) →
  engage_body ctx account target (JDict record) counts w = (Ok (Next, counts), w).
Proof.
  intros Hd Hown Hin. unfold engage_body. destruct counts as [fc lc].
  unfold py_get. rewrite Hd. cbn [default].
  rewrite (run_bind_ok _ _ w w (JStr d)) by reflexivity. cbv beta iota.
  rewrite (run_bind_ok _ _ w w (_did (client w)))
    by (unfold client_did; now rewrite Hown).
  destruct (py_eq_str d (_did (client w))); [reflexivity|].
  rewrite (run_bind_ok _ _ w w w) by reflexivity.
  now rewrite bool_decide_eq_true_2 by exact Hin.
Qed.

(** The step of the engagement loop on a follower whose follow request
    fails. *)
Lemma engage_body_failed_follow (ctx : AutomationContext) (account : AccountConfig.t)
    (target : TargetConfig.t) (record : list (string * json)) (d : string)
    (counts : Z * Z) (w w1 : World) (e : exn) :
  dict_get record "did" = Some (JStr d) →
  py_truthy (_did (client w)) = true →
  py_eq_str d (_did (client w)) = false →
  d ∉ followed (AccountState.target (TargetConfig.handle target) (state w)) →
  follow d w = (Raise e, w1) →
  is_BlueskyError e = true →
  engage_body ctx account target (JDict record) counts w
  = (Ok (Next, counts),
     set_state (followed_add (TargetConfig.handle target) d (state w1)) w1).
Proof.
  intros Hd Hown Hne Hnot Hf He. unfold engage_body. destruct counts as [fc lc].
  unfold py_get. rewrite Hd. cbn [default].
  rewrite (run_bind_ok _ _ w w (JStr d)) by reflexivity. cbv beta iota.
  rewrite (run_bind_ok _ _ w w (_did (client w)))
    by (unfold client_did; now rewrite Hown).
  rewrite Hne.
  rewrite (run_bind_ok _ _ w w w) by reflexivity.
  rewrite bool_decide_eq_false_2 by exact Hnot.
  rewrite (run_bind_ok _ _ w w1 false).
  - reflexivity.
  - rewrite (run_try_raise _ _ _ w w1 e), He; [reflexivity|].
    now rewrite run_bind, Hf.
Qed.

End FailedFollow.

(* ===================================================================== *)
(** * Authentication failure *)
(* ===================================================================== *)

(** C8: when [login] fails for an account, [_run_for_account] ends in the
    world [login] left: no request of target engagement or messaging is
    sent, and the files of the store are what they were before the run. *)
Theorem failed_login_persists_nothing `{PyLib} `{Remote} (fuel : nat)
    (ctx : AutomationContext) (account : AccountConfig.t) (w w1 : World)
    (st : AccountState) (e : exn) :
  dry_run ctx = false →
  StateStore.load (Config.storage_dir (config ctx)) (AccountConfig.handle account)
                  (disk w) = Ok st →
  login (set_client (new_client account) (set_state st w)) = (Raise e, w1) →
  is_BlueskyError e = true →
  _run_for_account fuel ctx account w = (Ok tt, w1) ∧ disk w1 = disk w.
Proof.
  intros Hdry Hload Hlogin He. split.
  - unfold _run_for_account.
    rewrite (run_bind_ok _ _ w w w) by reflexivity.
    rewrite Hload.
    rewrite (run_bind_ok _ _ w w st) by reflexivity.
    rewrite (run_bind_ok _ _ w (set_state st w) tt) by reflexivity.
    rewrite Hdry.
    rewrite (run_bind_ok _ _ (set_state st w)
               (set_client (new_client account) (set_state st w)) tt)
      by reflexivity.
    rewrite (run_bind_ok _ _ _ w1 None); [reflexivity|].
    rewrite (run_try_raise _ _ _ _ w1 e), He; [reflexivity|].
    now rewrite run_bind, Hlogin.
  - pose proof (login_same_record (set_client (new_client account) (set_state st w)))
      as Hk.
    rewrite Hlogin in Hk. destruct Hk as [Hd _]. exact Hd.
Qed.

Lemma failed_login_persists_nothing_witness :
  @_run_for_account Scenario.lib Scenario.rejecting 5
     (Scenario.context (Scenario.account [Scenario.target (Some 1)] Scenario.greeting))
     (Scenario.account [Scenario.target (Some 1)] Scenario.greeting)
     Scenario.fresh
  = (Ok tt,
     set_trace [ Call (CreateSession "me.example" "secret") (Http 401 NoContent) ]
       (set_client
          (new_client (Scenario.account [Scenario.target (Some 1)] Scenario.greeting))
          Scenario.fresh))
  ∧ disk (set_trace [ Call (CreateSession "me.example" "secret") (Http 401 NoContent) ]
            (set_client
               (new_client (Scenario.account [Scenario.target (Some 1)] Scenario.greeting))
               Scenario.fresh))
    = disk Scenario.fresh.
Proof.
  apply (@failed_login_persists_nothing Scenario.lib Scenario.rejecting 5
           (Scenario.context (Scenario.account [Scenario.target (Some 1)] Scenario.greeting))
           (Scenario.account [Scenario.target (Some 1)] Scenario.greeting)
           Scenario.fresh _ AccountState_new BlueskyError);
    reflexivity.
Defined.

(* ===================================================================== *)
(** * Counting the follows of a run *)
(* ===================================================================== *)

Section Hoare.

Lemma hoare_ret {A} (a : A) (Post : A → World → Prop) (Exc : World → Prop) :
  hoare (Post a) (ret a) Post Exc.
Proof. intros w Hw. exact Hw. Qed.

Lemma hoare_bind {A B} (m : M A) (k : A → M B) (Pre : World → Prop)
    (Mid : A → World → Prop) (Post : B → World → Prop) (Exc : World → Prop) :
  hoare Pre m Mid Exc → (∀ a, hoare (Mid a) (k a) Post Exc) →
  hoare Pre (m ≫= k) Post Exc.
Proof.
  intros Hm Hk w Hw. rewrite run_bind. specialize (Hm w Hw).
  destruct (m w) as [[a|e|h] w']; try exact Hm. now apply Hk.
Qed.

(** The rules for a first step that cannot matter. *)
Lemma hoare_bind_lift {A B} (r : result A) (k : A → M B) (Pre : World → Prop)
    (Post : B → World → Prop) :
  (∀ a, hoare Pre (k a) Post (fun _ => True)) →
  hoare Pre (lift r ≫= k) Post (fun _ => True).
Proof.
  intros Hk. apply hoare_bind with (Mid := fun _ => Pre); [|exact Hk].
  intros w Hw. unfold lift. now destruct r.
Qed.

Lemma hoare_bind_keeps {A B} (P : relation_kept) (m : M A) (k : A → M B)
    (Q : World → Prop) (Post : B → World → Prop) :
  keeps P m → (∀ w w', Q w → P w w' → Q w') →
  (∀ a, hoare Q (k a) Post (fun _ => True)) →
  hoare Q (m ≫= k) Post (fun _ => True).
Proof.
  intros Hm Hq Hk. apply hoare_bind with (Mid := fun _ => Q); [|exact Hk].
  intros w Hw. specialize (Hm w).
  destruct (m w) as [[a|e|h] w']; simpl in Hm; eauto.
Qed.

(** The [for] loop: [Inv] holds whenever the body is entered, [Out] when the
    loop is left by [break]. *)
Lemma hoare_for_each {A S} (body : A → S → M (ctl * S)) (items : list A) (s : S)
    (Inv Out : S → World → Prop) :
  (∀ x s, hoare (Inv s) (body x s)
            (fun r w => match r.1 with Next => Inv r.2 w | Break => Out r.2 w end)
            (fun _ => True)) →
  hoare (Inv s) (for_each body items s)
        (fun r w => match r.1 with Next => Inv r.2 w | Break => Out r.2 w end)
        (fun _ => True).
Proof.
  intros Hb. revert s. induction items as [|x items IH]; intros s; cbn [for_each].
  - apply (hoare_ret (Next, s)
             (fun r w => match r.1 with Next => Inv r.2 w | Break => Out r.2 w end)).
  - eapply hoare_bind; [apply Hb|].
    intros [[|] s']; simpl.
    + apply IH.
    + apply (hoare_ret (Break, s')
               (fun r w => match r.1 with Next => Inv r.2 w | Break => Out r.2 w end)).
Qed.

Lemma hoare_iterate_followers `{Remote} {S} (fuel : nat) (actor : json) (page_size : Z)
    (cursor : json) (body : json → S → M (ctl * S)) (s : S)
    (P : relation_kept) (Inv Out : S → World → Prop) :
  (∀ c rs, harmless P (Call (GetFollowers actor page_size c) rs)) →
  (∀ s w w', Inv s w → P w w' → Inv s w') →
  (∀ x s, hoare (Inv s) (body x s)
            (fun r w => match r.1 with Next => Inv r.2 w | Break => Out r.2 w end)
            (fun _ => True)) →
  hoare (Inv s) (iterate_followers fuel actor page_size cursor body s)
        (fun s' w => Inv s' w ∨ Out s' w) (fun _ => True).
Proof.
  intros Hpage Hstable Hb. revert cursor s.
  induction fuel as [|fuel IH]; intros cursor s; cbn [iterate_followers].
  - intros w _. exact I.
  - apply (hoare_bind_keeps P); [now apply keeps_get_followers | apply Hstable|].
    intros data. apply hoare_bind_lift. intros fl.
    apply hoare_bind_lift. intros followers.
    eapply hoare_bind; [now apply hoare_for_each|].
    intros [[|] s']; simpl.
    + apply hoare_bind_lift. intros c.
      destruct (py_truthy c); [apply IH|].
      intros w Hw. now left.
    + intros w Hw. now right.
Qed.

End Hoare.

(** The number of successful follows is the same. *)
Definition same_follows : relation_kept.
Proof.
  refine {| related := fun w w' => follows_sent (trace w') = follows_sent (trace w);
            harmless := fun ev => follow_succeeded ev = false |}.
  - reflexivity.
  - intros w1 w2 w3 H12 H23. congruence.
  - intros w ev Hev. simpl. now rewrite Hev.
Defined.

Section FollowCount.
Context `{Remote}.

(** A follow request that returns adds one successful follow to the trace;
    one that raises adds none. *)
Lemma follow_counts (d : string) (n : Z) :
  hoare (fun w => follows_sent (trace w) = n) (follow d)
        (fun _ w => follows_sent (trace w) = n + 1)
        (fun w => follows_sent (trace w) = n).
Proof.
  intros w Hw.
  cbv [follow now client_did _request _auth_headers mbind M_bind bind ret].
  destruct (py_truthy (_did (client w))); [|exact Hw].
  destruct (py_truthy (_access_jwt (client w))); [|exact Hw].
  destruct (respond (trace w) _) as [|sc body]; simpl.
  - exact Hw.
  - destruct (Z.leb_spec 400 sc) as [Hsc|Hsc]; simpl.
    + assert (Hlt : (sc <? 400) = false) by (apply Z.ltb_ge; lia).
      rewrite Hlt. simpl. exact Hw.
    + assert (Hlt : (sc <? 400) = true) by (apply Z.ltb_lt; lia).
      destruct body; simpl; rewrite Hlt; simpl; lia.
Qed.

Lemma like_latest_post_same_follows (follower : json) (th : string) :
  keeps same_follows (_like_latest_post follower th).
Proof.
  unfold _like_latest_post. apply keeps_bind; [apply keeps_lift | intros d].
  destruct d; try apply keeps_ret.
  apply keeps_bind.
  - apply keeps_try; [|intros ?; apply keeps_ret].
    apply keeps_bind; [|intros ?; apply keeps_ret].
    apply keeps_request. reflexivity.
  - intros [feed|]; [|apply keeps_ret].
    destruct (match feed with JDict items => _ | _ => _ end); try apply keeps_ret.
    induction items as [|item posts IH]; cbn [like_first]; [apply keeps_ret|].
    destruct (match item with JDict items => _ | _ => _ end); try exact IH.
    destruct (dict_get items "uri") as [[]|]; try exact IH.
    destruct (dict_get items "cid") as [[]|]; try exact IH.
    apply keeps_bind; [apply keeps_get_world | intros w].
    case_bool_decide; [apply keeps_ret|].
    apply keeps_bind.
    + apply keeps_try; [|intros ?; apply keeps_ret].
      apply keeps_bind; [|intros ?; apply keeps_ret].
      apply keeps_like. reflexivity.
    + intros [|]; [|apply keeps_ret].
      apply keeps_bind; [|intros ?; apply keeps_ret].
      intros w'. reflexivity.
Qed.

(** One step of the engagement loop: the counter moves with the successful
    follows, and stays below a limit of at least one until the loop is left. *)
Lemma engage_body_counts (ctx : AutomationContext) (account : AccountConfig.t)
    (target : TargetConfig.t) (follower : json) (limit base : Z) (counts : Z * Z) :
  TargetConfig.follow_limit target = Some limit → 1 ≤ limit →
  hoare (fun w => follows_sent (trace w) = base + counts.1 ∧ counts.1 < limit)
        (engage_body ctx account target follower counts)
        (fun r w =>
           match r.1 with
           | Next => follows_sent (trace w) = base + r.2.1 ∧ r.2.1 < limit
           | Break => follows_sent (trace w) = base + r.2.1 ∧ r.2.1 ≤ limit
           end)
        (fun _ => True).
Proof.
  intros Hlimit Hpos. destruct counts as [fc lc]. unfold engage_body. simpl fst.
  set (Inv := fun w => follows_sent (trace w) = base + fc ∧ fc < limit).
  assert (Hstable : ∀ w w', Inv w → same_follows w w' → Inv w').
  { intros w w' [Hc Hlt] Hr. split; [|exact Hlt]. simpl in Hr. congruence. }
  apply hoare_bind_lift. intros d.
  destruct d; try (intros w Hw; exact Hw).
  apply (hoare_bind_keeps same_follows); [apply keeps_client_did | exact Hstable|].
  intros own. destruct (py_eq_str s own); [intros w Hw; exact Hw|].
  apply (hoare_bind_keeps same_follows); [apply keeps_get_world | exact Hstable|].
  intros w0. case_bool_decide; [intros w Hw; exact Hw|].
  apply hoare_bind with
    (Mid := fun ok w => follows_sent (trace w) = base + fc + (if ok : bool then 1 else 0)
                        ∧ fc < limit).
  { intros w [Hc Hlt].
    pose proof (follow_counts s (base + fc) w Hc) as Hf.
    unfold try_except. rewrite run_bind.
    destruct (follow s w) as [[j|e|h] w']; simpl; try exact I.
    - split; [lia | exact Hlt].
    - destruct (is_BlueskyError e); simpl; [split; [lia | exact Hlt] | exact I]. }
  set (Inv1 := fun w => follows_sent (trace w) = base + (fc + 1) ∧ fc < limit).
  assert (Hstable1 : ∀ w w', Inv1 w → same_follows w w' → Inv1 w').
  { intros w w' [Hc Hlt] Hr. split; [|exact Hlt]. simpl in Hr. congruence. }
  intros [|].
  - apply hoare_bind with (Mid := fun _ => Inv1).
    { intros w [Hc Hlt]. cbv iota in Hc. unfold Inv1. simpl. split; [lia | exact Hlt]. }
    intros _.
    apply (hoare_bind_keeps same_follows);
      [apply keeps_pause; reflexivity | exact Hstable1|].
    intros _.
    apply (hoare_bind_keeps same_follows); [|exact Hstable1|].
    { destruct (_ && _); [|apply keeps_ret].
      apply keeps_bind; [apply like_latest_post_same_follows | intros [|]];
        [|apply keeps_ret].
      apply keeps_bind; [apply keeps_pause; reflexivity | intros _; apply keeps_ret]. }
    intros lc'. rewrite Hlimit.
    destruct (Z.leb_spec limit (fc + 1)); intros w [Hc Hlt]; simpl;
      (split; [exact Hc | lia]).
  - apply hoare_bind with (Mid := fun _ => Inv).
    { intros w [Hc Hlt]. cbv iota in Hc. unfold Inv. simpl. split; [lia | exact Hlt]. }
    intros _ w Hw. exact Hw.
Qed.

End FollowCount.

(** With a follow limit of at least one, a run of target engagement that
    returns has followed at most [limit] identifiers, and its counter is the
    number of successful follow requests it sent. *)
Lemma follow_limit_bound `{PyLib} `{Remote} (fuel : nat) (ctx : AutomationContext)
    (account : AccountConfig.t) (target : TargetConfig.t) (limit : Z)
    (w w' : World) (followed_count liked_count : Z) :
  TargetConfig.follow_limit target = Some limit → 1 ≤ limit →
  _engage_target fuel ctx account target w
  = (Ok (Some (followed_count, liked_count)), w') →
  followed_count ≤ limit
  ∧ follows_sent (trace w') = follows_sent (trace w) + followed_count.
Proof.
  intros Hlimit Hpos Hrun.
  assert (Hh : hoare (fun w0 => follows_sent (trace w0) = follows_sent (trace w))
                 (_engage_target fuel ctx account target)
                 (fun r w0 => match r with
                              | Some c => c.1 ≤ limit
                                          ∧ follows_sent (trace w0)
                                            = follows_sent (trace w) + c.1
                              | None => True
                              end)
                 (fun _ => True)).
  { unfold _engage_target.
    assert (Hstable : ∀ w1 w2,
               follows_sent (trace w1) = follows_sent (trace w) →
               same_follows w1 w2 →
               follows_sent (trace w2) = follows_sent (trace w)).
    { intros w1 w2 H1 H2. simpl in H2. congruence. }
    apply (hoare_bind_keeps same_follows); [|exact Hstable|].
    { apply keeps_try; [|intros ?; apply keeps_ret].
      apply keeps_bind; [apply keeps_get_profile; reflexivity | intros ?; apply keeps_ret]. }
    intros [p|]; [|intros w0 _; exact I].
    apply hoare_bind with
      (Mid := fun _ w0 => follows_sent (trace w0) = follows_sent (trace w) + (0, 0).1
                          ∧ (0, 0).1 < limit).
    { intros w0 Hw0. simpl. split; lia. }
    intros _.
    eapply hoare_bind.
    { apply (hoare_iterate_followers fuel _ 50 JNull _ (0, 0) same_follows
               (fun c w0 => follows_sent (trace w0) = follows_sent (trace w) + c.1
                            ∧ c.1 < limit)
               (fun c w0 => follows_sent (trace w0) = follows_sent (trace w) + c.1
                            ∧ c.1 ≤ limit)).
      - reflexivity.
      - intros c w1 w2 [H1 H1'] H2. simpl in H2. split; [congruence | exact H1'].
      - intros x c. now apply engage_body_counts. }
    intros c w0 [[Hc Hlt]|[Hc Hle]]; simpl; (split; [lia | exact Hc]). }
  specialize (Hh w eq_refl). rewrite Hrun in Hh. exact Hh.
Qed.

(* ===================================================================== *)
(** * Failures of a message send *)
(* ===================================================================== *)

Section SendFailure.
Context `{Remote}.

(** [send_direct_message] turns every [BlueskyError] of the request into
    [DirectMessageNotSupported]. *)
Lemma send_direct_message_raises_unsupported (convo text : string)
    (w w' : World) (e : exn) :
  send_direct_message convo text w = (Raise e, w') →
  is_BlueskyError e = true →
  e = DirectMessageNotSupported.
Proof.
  unfold send_direct_message, try_except.
  destruct (_request (SendMessage convo text) true w) as [[j|e0|h] w0];
    try discriminate.
  destruct (is_BlueskyError e0) eqn:He0.
  - unfold raise. now intros [= <- _].
  - intros [= <- _]. congruence.
Qed.

End SendFailure.

(** Whenever the request that sends the message fails with a [BlueskyError]
    (an HTTP status of 400 or more, an undecodable body), the messaging loop
    is left at once: the step ends with [Break], which stands for [return]. *)
Lemma message_body_send_failure `{PyLib} `{Remote} (ctx : AutomationContext)
    (account : AccountConfig.t) (cooldown : option Z)
    (record : list (string * json)) (d message convo : string) (sent : Z)
    (w w2 w3 : World) (e : exn) :
  dict_get record "did" = Some (JStr d) →
  _should_send_dm d (known_followers_add d (state w)) cooldown (clock (trace w)) = true →
  match DMConfig.limit_per_run (AccountConfig.dm account) with
  | Some l => l <=? sent
  | None => false
  end = false →
  _render_message (DMConfig.message (AccountConfig.dm account)) (JDict record)
  = Ok message →
  create_or_get_conversation d (set_state (known_followers_add d (state w)) w)
  = (Ok convo, w2) →
  send_direct_message convo message w2 = (Raise e, w3) →
  is_BlueskyError e = true →
  message_body ctx account cooldown (JDict record) sent w = (Ok (Break, sent), w3).
Proof.
  intros Hd Hdm Hlim Hmsg Hconvo Hsend He.
  pose proof (send_direct_message_raises_unsupported _ _ _ _ _ Hsend He) as ->.
  unfold message_body. cbv zeta. rewrite Hd.
  change (default JNull (Some (JStr d))) with (JStr d). cbv beta iota.
  set (w1 := set_state (known_followers_add d (state w)) w) in *.
  rewrite (run_bind_ok _ _ w w1 tt) by reflexivity.
  rewrite (run_bind_ok _ _ w1 w1 w1) by reflexivity.
  rewrite (run_bind_ok _ _ w1 w1 (clock (trace w1))) by reflexivity.
  change (state w1) with (known_followers_add d (state w)).
  change (trace w1) with (trace w). rewrite Hdm, Hlim. cbn [negb].
  rewrite Hmsg.
  rewrite (run_bind_ok _ _ w1 w1 message) by reflexivity.
  rewrite (run_bind_ok _ _ w1 w3 Unsupported); [reflexivity|].
  unfold try_except at 1.
  rewrite (run_try_raise _ _ _ w1 w3 DirectMessageNotSupported); [reflexivity|].
  rewrite run_bind, Hconvo, run_bind, Hsend. reflexivity.
Qed.

(** C1, on a failing input: the account has the followers [did:f1] and
    [did:f2], the conversation with [did:f1] is resolved, and the service
    answers the sending of the message with status 500.  The procedure then
    returns at once: the trace ends with the failed send, [did:f2] is neither
    contacted nor added to [known_followers]. *)
Theorem send_failure_aborts_messaging (L : PyLib) :
  (@_message_new_followers L Scenario.send_failing 5
     (Scenario.context (Scenario.account [] Scenario.greeting))
     (Scenario.account [] Scenario.greeting) Scenario.logged_in).1 = Ok 0
  ∧ trace (@_message_new_followers L Scenario.send_failing 5
             (Scenario.context (Scenario.account [] Scenario.greeting))
             (Scenario.account [] Scenario.greeting) Scenario.logged_in).2
    = [ Call (SendMessage "convo:did:f1" "Thanks for following!") (Http 500 NoContent);
        Call (Conversation "chat.bsky.convo.createOrGet" "did:f1")
             (Scenario.ok (JDict [ ("convo", JDict [ ("id", JStr "convo:did:f1") ]) ]));
        Call (GetFollowers (JStr "did:me") 50 None)
             (Scenario.ok
                (JDict [ ("followers",
                          JList [ Scenario.follower_record "did:f1" "f1.example";
                                  Scenario.follower_record "did:f2" "f2.example" ]) ])) ]
  ∧ known_followers
      (state (@_message_new_followers L Scenario.send_failing 5
                (Scenario.context (Scenario.account [] Scenario.greeting))
                (Scenario.account [] Scenario.greeting) Scenario.logged_in).2)
    = {[ "did:f1" ]}.
Proof. repeat split; vm_compute; reflexivity. Qed.

(* ===================================================================== *)
(** * The follow limit *)
(* ===================================================================== *)

(** With [follow_limit = 1] the run stops after the first follow: [did:f2] is
    not visited. *)
Example follow_limit_one_stops :
  (@_engage_target Scenario.lib Scenario.welcoming 5
     (Scenario.context (Scenario.account [Scenario.target (Some 1)] Scenario.no_dm))
     (Scenario.account [Scenario.target (Some 1)] Scenario.no_dm)
     (Scenario.target (Some 1)) Scenario.logged_in).1 = Ok (Some (1, 0))
  ∧ trace (@_engage_target Scenario.lib Scenario.welcoming 5
             (Scenario.context (Scenario.account [Scenario.target (Some 1)] Scenario.no_dm))
             (Scenario.account [Scenario.target (Some 1)] Scenario.no_dm)
             (Scenario.target (Some 1)) Scenario.logged_in).2
    = [ Sleep (5 # 2);
        Call (CreateFollow (JStr "did:me") "did:f1" 2) (Scenario.ok (JDict []));
        Call (GetFollowers (JStr "did:star.example") 50 None)
             (Scenario.ok
                (JDict [ ("followers",
                          JList [ Scenario.follower_record "did:f1" "f1.example";
                                  Scenario.follower_record "did:f2" "f2.example" ]) ]));
        Call (GetProfile "star.example")
             (Scenario.ok (JDict [ ("did", JStr "did:star.example");
                                   ("handle", JStr "star.example") ])) ].
Proof. split; vm_compute; reflexivity. Qed.

(** C6, on a failing input: with [follow_limit = 0] and a target that has the
    followers [did:f1] and [did:f2], one run of target engagement follows
    [did:f1] before the limit is looked at: the counter of the run is 1,
    [did:f1] is recorded in [followed], and the trace holds one successful
    follow request. *)
Theorem follow_limit_zero_follows_one (L : PyLib) :
  (@_engage_target L Scenario.welcoming 5
     (Scenario.context (Scenario.account [Scenario.target (Some 0)] Scenario.no_dm))
     (Scenario.account [Scenario.target (Some 0)] Scenario.no_dm)
     (Scenario.target (Some 0)) Scenario.logged_in).1 = Ok (Some (1, 0))
  ∧ followed
      (AccountState.target "star.example"
         (state (@_engage_target L Scenario.welcoming 5
                   (Scenario.context (Scenario.account [Scenario.target (Some 0)] Scenario.no_dm))
                   (Scenario.account [Scenario.target (Some 0)] Scenario.no_dm)
                   (Scenario.target (Some 0)) Scenario.logged_in).2))
    = {[ "did:f1" ]}
  ∧ follows_sent
      (trace (@_engage_target L Scenario.welcoming 5
                (Scenario.context (Scenario.account [Scenario.target (Some 0)] Scenario.no_dm))
                (Scenario.account [Scenario.target (Some 0)] Scenario.no_dm)
                (Scenario.target (Some 0)) Scenario.logged_in).2)
    = 1.
Proof. repeat split; vm_compute; reflexivity. Qed.

(* ===================================================================== *)
(** * The store and other handles *)
(* ===================================================================== *)

(** X1: saving the state of one handle leaves what [load] returns for every
    handle with a different sanitized form as it was. *)
Theorem save_keeps_other_records (root : Path) (h1 h2 : string)
    (st : AccountState) (fs : files) :
  StateStore.sanitize h1 ≠ StateStore.sanitize h2 →
  StateStore.load root h2 (StateStore.save root h1 st fs) = StateStore.load root h2 fs.
Proof.
  intros Hne. unfold StateStore.load, StateStore.save.
  rewrite lookup_insert_ne; [reflexivity|].
  intros Heq. apply Hne. now apply (path_for_eq_iff root).
Qed.

Lemma save_keeps_other_records_witness :
  StateStore.load ["state"] "bob.example"
    (StateStore.save ["state"] "alice.example" AccountState_new ∅)
  = StateStore.load ["state"] "bob.example" ∅.
Proof.
  apply (save_keeps_other_records ["state"] "alice.example" "bob.example"
           AccountState_new ∅).
  discriminate.
Defined.

Lemma sanitize_idempotent (h : string) :
  StateStore.sanitize (StateStore.sanitize h) = StateStore.sanitize h.
Proof.
  induction h as [|c r IH]; [reflexivity|]. cbn [StateStore.sanitize].
  rewrite IH. destruct (StateStore.safe_char c) eqn:Hc; [now rewrite Hc | reflexivity].
Qed.

(** X2: a handle and its sanitized form name the same file of the store:
    [load] returns the same for both, and [save] writes the same file. *)
Theorem sanitized_handle_shares_file (root : Path) (h : string) (st : AccountState)
    (fs : files) :
  StateStore.load root (StateStore.sanitize h) fs = StateStore.load root h fs
  ∧ StateStore.save root (StateStore.sanitize h) st fs = StateStore.save root h st fs.
Proof.
  unfold StateStore.load, StateStore.save, StateStore._path_for.
  now rewrite sanitize_idempotent.
Qed.

(* ===================================================================== *)
(** * What engagement and messaging leave alone *)
(* ===================================================================== *)

(** The files of the store and the client are the same. *)
Definition same_store_and_client : relation_kept.
Proof.
  refine {| related := fun w w' => disk w' = disk w ∧ client w' = client w;
            harmless := fun _ => True |}.
  - intros w. split; reflexivity.
  - intros w1 w2 w3 (D1 & C1) (D2 & C2). split; congruence.
  - intros w ev _. split; reflexivity.
Defined.

(** The procedures of the automator keep every relation that tolerates all
    events and all updates of the account state. *)
Section AnyUpdate.
Context `{PyLib} `{Remote} (P : relation_kept).
Hypothesis all_harmless : ∀ ev, harmless P ev.
Hypothesis any_update : ∀ f, keeps P (update_state f).

Local Ltac step :=
  first
    [ apply keeps_ret | apply keeps_raise | apply keeps_lift | apply keeps_get_world
    | apply keeps_now | apply keeps_client_did | apply any_update
    | apply keeps_pause; apply all_harmless
    | apply keeps_request; intros; apply all_harmless
    | apply keeps_follow; intros; apply all_harmless
    | apply keeps_like; intros; apply all_harmless
    | apply keeps_get_profile; intros; apply all_harmless
    | apply keeps_list_own_followers; intros; apply all_harmless
    | apply keeps_try_endpoints; intros; apply all_harmless
    | apply keeps_send_direct_message; intros; apply all_harmless
    | apply keeps_try; [|intros ?]
    | apply keeps_bind; [|intros ?] ].

Lemma like_first_keeps (posts : list json) (th : string) :
  keeps P (like_first posts th).
Proof.
  induction posts as [|item posts IH]; cbn [like_first]; [apply keeps_ret|].
  destruct (match item with JDict items => _ | _ => _ end); try exact IH.
  destruct (dict_get items "uri") as [[]|]; try exact IH.
  destruct (dict_get items "cid") as [[]|]; try exact IH.
  apply keeps_bind; [apply keeps_get_world | intros w].
  case_bool_decide; [apply keeps_ret|].
  apply keeps_bind; [repeat step | intros [|]]; repeat step.
Qed.

Lemma like_latest_post_keeps (follower : json) (th : string) :
  keeps P (_like_latest_post follower th).
Proof.
  unfold _like_latest_post. apply keeps_bind; [apply keeps_lift | intros d].
  destruct d; try apply keeps_ret.
  apply keeps_bind; [unfold get_author_feed; repeat step|].
  intros [feed|]; [|apply keeps_ret].
  destruct (match feed with JDict items => _ | _ => _ end); try apply keeps_ret.
  apply like_first_keeps.
Qed.

Lemma engage_body_keeps (ctx : AutomationContext) (account : AccountConfig.t)
    (target : TargetConfig.t) (follower : json) (counts : Z * Z) :
  keeps P (engage_body ctx account target follower counts).
Proof.
  unfold engage_body. destruct counts as [fc lc].
  apply keeps_bind; [apply keeps_lift | intros d].
  destruct d; try apply keeps_ret.
  apply keeps_bind; [step | intros own].
  destruct (py_eq_str s own); [apply keeps_ret|].
  apply keeps_bind; [apply keeps_get_world | intros w].
  case_bool_decide; [apply keeps_ret|].
  apply keeps_bind; [repeat step | intros [|]]; [|repeat step].
  apply keeps_bind; [step | intros _].
  apply keeps_bind; [step | intros _].
  apply keeps_bind.
  - destruct (_ && _); [|apply keeps_ret].
    apply keeps_bind; [apply like_latest_post_keeps | intros [|]]; repeat step.
  - intros lc'. destruct (TargetConfig.follow_limit target) as [l|];
      [destruct (l <=? fc + 1)|]; apply keeps_ret.
Qed.

Lemma engage_target_keeps (fuel : nat) (ctx : AutomationContext)
    (account : AccountConfig.t) (target : TargetConfig.t) :
  keeps P (_engage_target fuel ctx account target).
Proof.
  unfold _engage_target. apply keeps_bind; [repeat step | intros [p|]];
    [|apply keeps_ret].
  apply keeps_bind; [step | intros _].
  apply keeps_bind; [|intros ?; apply keeps_ret].
  apply keeps_iterate_followers; [intros; apply all_harmless|].
  intros x s. apply engage_body_keeps.
Qed.

Lemma message_body_keeps (ctx : AutomationContext) (account : AccountConfig.t)
    (cooldown : option Z) (follower : json) (sent : Z) :
  keeps P (message_body ctx account cooldown follower sent).
Proof.
  unfold message_body.
  destruct (match follower with JDict items => _ | _ => _ end); try apply keeps_ret.
  apply keeps_bind; [step | intros _].
  apply keeps_bind; [apply keeps_get_world | intros w].
  apply keeps_bind; [step | intros t].
  destruct (negb _); [apply keeps_ret|].
  destruct (match DMConfig.limit_per_run _ with Some _ => _ | None => _ end);
    [apply keeps_ret|].
  apply keeps_bind; [apply keeps_lift | intros message].
  apply keeps_bind; [repeat step | intros [| |]]; repeat step.
Qed.

Lemma message_pages_keeps (fuel : nat) (ctx : AutomationContext)
    (account : AccountConfig.t) (cooldown : option Z) (cursor : json) (sent : Z) :
  keeps P (message_pages fuel ctx account cooldown cursor sent).
Proof.
  revert cursor sent. induction fuel as [|fuel IH]; intros cursor sent;
    cbn [message_pages]; [apply keeps_lift|].
  apply keeps_bind; [repeat step | intros [response|]]; [|apply keeps_ret].
  apply keeps_bind.
  - apply keeps_for_each. intros x s. apply message_body_keeps.
  - intros [[|] sent']; [|apply keeps_ret].
    destruct (py_truthy _); [apply IH | apply keeps_ret].
Qed.

Lemma message_new_followers_keeps (fuel : nat) (ctx : AutomationContext)
    (account : AccountConfig.t) :
  keeps P (_message_new_followers fuel ctx account).
Proof.
  unfold _message_new_followers. apply keeps_bind.
  - destruct (negb _); [|apply keeps_ret].
    destruct (timedelta_hours _); [apply keeps_ret | apply keeps_raise].
  - intros cooldown. apply message_pages_keeps.
Qed.

Lemma engage_and_message_keeps (fuel : nat) (ctx : AutomationContext)
    (account : AccountConfig.t) :
  keeps P (engage_and_message fuel ctx account).
Proof.
  unfold engage_and_message. apply keeps_bind.
  - apply keeps_for_each. intros target [].
    apply keeps_bind; [apply engage_target_keeps | intros ?; apply keeps_ret].
  - intros _. destruct (_ && _); [|apply keeps_ret].
    apply keeps_bind; [apply message_new_followers_keeps | intros ?; apply keeps_ret].
Qed.

End AnyUpdate.

Lemma engage_and_message_same_store `{PyLib} `{Remote} (fuel : nat)
    (ctx : AutomationContext) (account : AccountConfig.t) :
  keeps same_store_and_client (engage_and_message fuel ctx account).
Proof.
  apply engage_and_message_keeps.
  - intros ev. exact I.
  - intros f w. split; reflexivity.
Qed.

(** X3: target engagement and new-follower messaging work on the account state
    in memory only: whatever the remote service answers and however the run
    ends, the files of the store and the session of the client are what they
    were. *)
Theorem engagement_leaves_store_and_session `{PyLib} `{Remote} (fuel : nat)
    (ctx : AutomationContext) (account : AccountConfig.t) (w : World) :
  disk (engage_and_message fuel ctx account w).2 = disk w
  ∧ client (engage_and_message fuel ctx account w).2 = client w.
Proof. exact (engage_and_message_same_store fuel ctx account w). Qed.

(* ===================================================================== *)
(** * Runs *)
(* ===================================================================== *)

Section Runs.
Context `{PyLib} `{Remote}.

(** One turn of the loop of [run]. *)
Lemma run_turn (fuel : nat) (ctx : AutomationContext) (account : AccountConfig.t)
    (w : World) :
  (try_except (_run_for_account fuel ctx account) (fun _ => true) (fun _ => ret tt)
   ≫= fun _ => ret (Next, tt)) w
  = match _run_for_account fuel ctx account w with
    | (Halt h, w') => (Halt h, w')
    | (_, w') => (Ok (Next, tt), w')
    end.
Proof.
  rewrite run_bind. unfold try_except.
  destruct (_run_for_account fuel ctx account w) as [[[]|e|h] w']; reflexivity.
Qed.

Lemma run_loop (fuel : nat) (ctx : AutomationContext) (accounts : list AccountConfig.t)
    (w : World) :
  for_each (fun account (_ : unit) =>
              try_except (_run_for_account fuel ctx account)
                         (fun _ => true) (fun _ => ret tt)
              ≫= fun _ => ret (Next, tt)) accounts tt w
  = match process_all fuel ctx accounts w with
    | (Ok _, w') => (Ok (Next, tt), w')
    | (Raise e, w') => (Raise e, w')
    | (Halt h, w') => (Halt h, w')
    end.
Proof.
  revert w. induction accounts as [|account rest IH]; intros w; [reflexivity|].
  cbn [for_each process_all]. rewrite run_bind, run_turn.
  destruct (_run_for_account fuel ctx account w) as [[[]|e|h] w'];
    [apply IH | apply IH | reflexivity].
Qed.

Lemma process_all_never_raises (fuel : nat) (ctx : AutomationContext)
    (accounts : list AccountConfig.t) (w : World) :
  (process_all fuel ctx accounts w).1 = Ok tt
  ∨ ∃ h, (process_all fuel ctx accounts w).1 = Halt h.
Proof.
  revert w. induction accounts as [|account rest IH]; intros w; [now left|].
  cbn [process_all].
  destruct (_run_for_account fuel ctx account w) as [[[]|e|h] w'];
    [apply IH | apply IH | right; now exists h].
Qed.

Lemma run_is_process_all (fuel : nat) (ctx : AutomationContext) (w : World) :
  run fuel ctx w = process_all fuel ctx (Config.accounts (config ctx)) w.
Proof.
  unfold run. rewrite run_bind, run_loop.
  destruct (process_all_never_raises fuel ctx (Config.accounts (config ctx)) w)
    as [Hok|[h Hh]];
    destruct (process_all fuel ctx (Config.accounts (config ctx)) w) as [[[]|e|h'] w'];
    simpl in *; try discriminate; reflexivity.
Qed.

End Runs.

(** X4: [run] takes the accounts in order and starts each one in the world the
    previous one left, whether that one returned or raised: an exception
    while one account is processed does not keep the following accounts from
    being processed. *)
Theorem run_isolates_accounts `{PyLib} `{Remote} (fuel : nat)
    (ctx : AutomationContext) (w : World) :
  run fuel ctx w = process_all fuel ctx (Config.accounts (config ctx)) w.
Proof. apply run_is_process_all. Qed.

(** X5: [run] never raises: whatever the remote service answers, whatever the
    files of the store hold, it returns (or the model is cut short). *)
Theorem run_never_raises `{PyLib} `{Remote} (fuel : nat) (ctx : AutomationContext)
    (w : World) :
  (run fuel ctx w).1 = Ok tt ∨ ∃ h, (run fuel ctx w).1 = Halt h.
Proof. rewrite run_is_process_all. apply process_all_never_raises. Qed.

(** In dry-run mode an account's workflow sends nothing and writes nothing. *)
Definition nothing_done : relation_kept.
Proof.
  refine {| related := fun w w' =>
              disk w' = disk w ∧ client w' = client w ∧ trace w' = trace w;
            harmless := fun _ => False |}.
  - intros w. repeat split.
  - intros w1 w2 w3 (D1 & C1 & T1) (D2 & C2 & T2). repeat split; congruence.
  - intros w ev [].
Defined.

Lemma dry_run_for_account `{PyLib} `{Remote} (fuel : nat) (ctx : AutomationContext)
    (account : AccountConfig.t) :
  dry_run ctx = true → keeps nothing_done (_run_for_account fuel ctx account).
Proof.
  intros Hdry. unfold _run_for_account. rewrite Hdry.
  apply keeps_bind; [apply keeps_get_world | intros w0].
  apply keeps_bind; [apply keeps_lift | intros st].
  apply keeps_bind; [|intros _; apply keeps_ret].
  apply keeps_modify. intros w. repeat split.
Qed.

(** X6: in dry-run mode [run] sends no request, does not sleep, writes no file
    and leaves the client as it was, for every list of accounts and whatever
    the store holds. *)
Theorem dry_run_does_nothing `{PyLib} `{Remote} (fuel : nat) (ctx : AutomationContext)
    (w : World) :
  dry_run ctx = true →
  trace (run fuel ctx w).2 = trace w
  ∧ disk (run fuel ctx w).2 = disk w
  ∧ client (run fuel ctx w).2 = client w.
Proof.
  intros Hdry.
  assert (Hk : keeps nothing_done (run fuel ctx)).
  { unfold run. apply keeps_bind; [|intros ?; apply keeps_ret].
    apply keeps_for_each. intros account [].
    apply keeps_bind; [|intros ?; apply keeps_ret].
    apply keeps_try; [now apply dry_run_for_account | intros ?; apply keeps_ret]. }
  destruct (Hk w) as (D & C & T). auto.
Qed.

Lemma dry_run_does_nothing_witness :
  trace (@run Scenario.lib Scenario.welcoming 5
           (dry_context (Scenario.account [Scenario.target (Some 1)] Scenario.greeting))
           Scenario.fresh).2 = trace Scenario.fresh
  ∧ disk (@run Scenario.lib Scenario.welcoming 5
            (dry_context (Scenario.account [Scenario.target (Some 1)] Scenario.greeting))
            Scenario.fresh).2 = disk Scenario.fresh
  ∧ client (@run Scenario.lib Scenario.welcoming 5
              (dry_context (Scenario.account [Scenario.target (Some 1)] Scenario.greeting))
              Scenario.fresh).2 = client Scenario.fresh.
Proof.
  apply (@dry_run_does_nothing Scenario.lib Scenario.welcoming 5
           (dry_context (Scenario.account [Scenario.target (Some 1)] Scenario.greeting))
           Scenario.fresh).
  reflexivity.
Defined.

(* ===================================================================== *)
(** * The client *)
(* ===================================================================== *)

Section ClientFacts.
Context `{PyLib} `{Remote}.

Lemma get_profile_only_trace (actor : string) : keeps only_trace (get_profile actor).
Proof. apply keeps_get_profile. intros rs. exact I. Qed.

(** After the three assignments of [login]. *)
Lemma login_ok_inv (w w' : World) (p : Profile) :
  login w = (Ok p, w') →
  ∃ data w1 a r d,
    _request (CreateSession (identifier (client w)) (app_password (client w))) false w
    = (Ok data, w1)
    ∧ py_get data "accessJwt" JNull = Ok a
    ∧ py_get data "refreshJwt" JNull = Ok r
    ∧ py_get data "did" JNull = Ok d
    ∧ py_truthy a = true ∧ py_truthy d = true
    ∧ client w' = {| identifier := identifier (client w);
                     app_password := app_password (client w);
                     _access_jwt := a; _refresh_jwt := r; _did := d |}.
Proof.
  unfold login. rewrite (run_bind_ok _ _ w w w) by reflexivity.
  rewrite run_bind.
  destruct (_request _ false w) as [[data|e|h] w1] eqn:Hreq; try discriminate.
  pose proof (keeps_request only_trace
                (CreateSession (identifier (client w)) (app_password (client w)))
                false (fun _ => I) w) as Hk.
  rewrite Hreq in Hk. destruct Hk as (_ & Hc & _). simpl in Hc.
  destruct data; try discriminate.
  cbn [py_get].
  set (a := default JNull (dict_get items "accessJwt")).
  set (r := default JNull (dict_get items "refreshJwt")).
  set (d := default JNull (dict_get items "did")).
  intros Hrun. exists (JDict items), w1, a, r, d.
  repeat (split; [reflexivity|]).
  cbv [mbind M_bind bind lift modify] in Hrun.
  destruct (py_truthy a) eqn:Ha; [|discriminate Hrun].
  destruct (py_truthy d) eqn:Hd; [|discriminate Hrun].
  simpl in Hrun.
  match type of Hrun with
  | get_profile ?i ?w0 = _ =>
      pose proof (get_profile_only_trace i w0) as Hp; rewrite Hrun in Hp
  end.
  destruct Hp as (_ & Hc' & _). simpl in Hc'.
  repeat split. rewrite Hc'. now rewrite Hc.
Qed.

End ClientFacts.

(** X7: when [login] returns, the client holds a session: the access token and
    the identifier taken from the session response are both set (truthy), the
    credentials are unchanged, and the [did] property no longer raises. *)
Theorem login_establishes_session `{PyLib} `{Remote} (w w' : World) (p : Profile) :
  login w = (Ok p, w') →
  py_truthy (_access_jwt (client w')) = true
  ∧ py_truthy (_did (client w')) = true
  ∧ identifier (client w') = identifier (client w)
  ∧ app_password (client w') = app_password (client w)
  ∧ client_did w' = (Ok (_did (client w')), w').
Proof.
  intros Hrun.
  destruct (login_ok_inv w w' p Hrun) as (data & w1 & a & r & d & _ & _ & _ & _ & Ha & Hd & Hc).
  rewrite Hc. simpl. repeat split; try assumption.
  unfold client_did. rewrite Hc. simpl. now rewrite Hd.
Qed.

Lemma login_establishes_session_witness :
  py_truthy (_access_jwt (client (@login Scenario.lib Scenario.welcoming
      (set_client (new_client (Scenario.account [] Scenario.no_dm)) Scenario.fresh)).2))
  = true
  ∧ py_truthy (_did (client (@login Scenario.lib Scenario.welcoming
      (set_client (new_client (Scenario.account [] Scenario.no_dm)) Scenario.fresh)).2))
    = true
  ∧ identifier (client (@login Scenario.lib Scenario.welcoming
      (set_client (new_client (Scenario.account [] Scenario.no_dm)) Scenario.fresh)).2)
    = identifier (client (set_client (new_client (Scenario.account [] Scenario.no_dm))
                            Scenario.fresh))
  ∧ app_password (client (@login Scenario.lib Scenario.welcoming
      (set_client (new_client (Scenario.account [] Scenario.no_dm)) Scenario.fresh)).2)
    = app_password (client (set_client (new_client (Scenario.account [] Scenario.no_dm))
                              Scenario.fresh))
  ∧ client_did (@login Scenario.lib Scenario.welcoming
      (set_client (new_client (Scenario.account [] Scenario.no_dm)) Scenario.fresh)).2
    = (Ok (_did (client (@login Scenario.lib Scenario.welcoming
         (set_client (new_client (Scenario.account [] Scenario.no_dm)) Scenario.fresh)).2)),
       (@login Scenario.lib Scenario.welcoming
         (set_client (new_client (Scenario.account [] Scenario.no_dm)) Scenario.fresh)).2).
Proof.
  apply (@login_establishes_session Scenario.lib Scenario.welcoming
           (set_client (new_client (Scenario.account [] Scenario.no_dm)) Scenario.fresh)
           _ {| did := "did:me.example"; handle := "me.example"; display_name := JNull |}).
  vm_compute. reflexivity.
Defined.

(** X8: [login] fails with a [BlueskyError], and does not ask for the profile,
    when the session response lacks the access token or the identifier. *)
Theorem login_without_tokens `{PyLib} `{Remote} (w w1 : World)
    (session : list (string * json)) :
  _request (CreateSession (identifier (client w)) (app_password (client w))) false w
  = (Ok (JDict session), w1) →
  py_truthy (default JNull (dict_get session "accessJwt")) = false
  ∨ py_truthy (default JNull (dict_get session "did")) = false →
  (login w).1 = Raise BlueskyError ∧ trace (login w).2 = trace w1.
Proof.
  intros Hreq Hmiss. unfold login.
  rewrite (run_bind_ok _ _ w w w) by reflexivity.
  rewrite (run_bind_ok _ _ w w1 (JDict session)) by exact Hreq.
  cbv [mbind M_bind bind lift modify py_get raise].
  destruct Hmiss as [Ha|Hd].
  - rewrite Ha. simpl. split; reflexivity.
  - rewrite Hd, orb_true_r. split; reflexivity.
Qed.

Lemma login_without_tokens_witness :
  (@login Scenario.lib (Scenario.scripted (fun _ => Scenario.ok (JDict [])))
     Scenario.fresh).1 = Raise BlueskyError
  ∧ trace (@login Scenario.lib (Scenario.scripted (fun _ => Scenario.ok (JDict [])))
             Scenario.fresh).2
    = trace (set_trace [ Call (CreateSession "" "") (Scenario.ok (JDict [])) ]
               Scenario.fresh).
Proof.
  apply (@login_without_tokens Scenario.lib
           (Scenario.scripted (fun _ => Scenario.ok (JDict []))) Scenario.fresh
           (set_trace [ Call (CreateSession "" "") (Scenario.ok (JDict [])) ] Scenario.fresh)
           []).
  - reflexivity.
  - left. reflexivity.
Defined.

Section Unauthenticated.
Context `{PyLib} `{Remote}.

Lemma request_unauthenticated (rq : request) (w : World) :
  py_truthy (_access_jwt (client w)) = false →
  _request rq true w = (Raise BlueskyError, w).
Proof.
  intros Ha. unfold _request. rewrite run_bind. unfold _auth_headers.
  now rewrite Ha.
Qed.

Lemma try_endpoints_unauthenticated (endpoints : list string) (member : string)
    (w : World) :
  py_truthy (_access_jwt (client w)) = false →
  try_endpoints endpoints member w = (Raise DirectMessageNotSupported, w).
Proof.
  intros Ha. induction endpoints as [|ep rest IH]; [reflexivity|].
  cbn [try_endpoints].
  rewrite (run_bind_ok _ _ w w None); [exact IH|].
  rewrite (run_try_raise _ _ _ w w BlueskyError); [reflexivity|].
  now rewrite run_bind, request_unauthenticated.
Qed.

End Unauthenticated.

(** X9: a client without access token sends nothing on the methods that need
    one: [follow] and [like] raise [BlueskyError], the two direct-message
    methods raise [DirectMessageNotSupported], and no request leaves the
    process. *)
Theorem unauthenticated_client_sends_nothing `{PyLib} `{Remote} (w : World)
    (d uri cid convo text : string) :
  py_truthy (_access_jwt (client w)) = false →
  follow d w = (Raise BlueskyError, w)
  ∧ like uri cid w = (Raise BlueskyError, w)
  ∧ create_or_get_conversation d w = (Raise DirectMessageNotSupported, w)
  ∧ send_direct_message convo text w = (Raise DirectMessageNotSupported, w).
Proof.
  intros Ha. split; [|split; [|split]].
  - unfold follow. rewrite (run_bind_ok _ _ w w (clock (trace w))) by reflexivity.
    rewrite run_bind. unfold client_did.
    destruct (py_truthy (_did (client w))); [|reflexivity].
    now apply request_unauthenticated.
  - unfold like. rewrite (run_bind_ok _ _ w w (clock (trace w))) by reflexivity.
    rewrite run_bind. unfold client_did.
    destruct (py_truthy (_did (client w))); [|reflexivity].
    now apply request_unauthenticated.
  - now apply try_endpoints_unauthenticated.
  - unfold send_direct_message.
    rewrite (run_try_raise _ _ _ w w BlueskyError); [reflexivity|].
    now apply request_unauthenticated.
Qed.

Lemma unauthenticated_client_sends_nothing_witness :
  @follow Scenario.welcoming "did:f1" Scenario.fresh = (Raise BlueskyError, Scenario.fresh)
  ∧ @like Scenario.welcoming "at://post" "cid" Scenario.fresh
    = (Raise BlueskyError, Scenario.fresh)
  ∧ @create_or_get_conversation Scenario.lib Scenario.welcoming "did:f1" Scenario.fresh
    = (Raise DirectMessageNotSupported, Scenario.fresh)
  ∧ @send_direct_message Scenario.welcoming "convo" "hello" Scenario.fresh
    = (Raise DirectMessageNotSupported, Scenario.fresh).
Proof.
  apply (@unauthenticated_client_sends_nothing Scenario.lib Scenario.welcoming
           Scenario.fresh "did:f1" "at://post" "cid" "convo" "hello").
  reflexivity.
Defined.

Section DirectMessages.
Context `{PyLib} `{Remote}.

Lemma convo_id_of_not_bluesky (data : json) (e : exn) :
  convo_id_of data = Raise e → is_BlueskyError e = false.
Proof.
  unfold convo_id_of. destruct data; simpl; try (intros [= <-]; reflexivity).
  destruct (py_truthy _); simpl.
  - destruct (default JNull _); simpl; try discriminate;
      repeat (match goal with
              | |- context [match ?x with _ => _ end] => destruct x; simpl
              end; try discriminate).
  - destruct (py_truthy _); simpl;
      repeat (match goal with
              | |- context [match ?x with _ => _ end] => destruct x; simpl
              end; try discriminate).
Qed.

Lemma try_endpoints_raises_unsupported (endpoints : list string) (member : string)
    (w w' : World) (e : exn) :
  try_endpoints endpoints member w = (Raise e, w') →
  is_BlueskyError e = true →
  e = DirectMessageNotSupported.
Proof.
  revert w. induction endpoints as [|ep rest IH]; intros w; cbn [try_endpoints].
  - unfold raise. now intros [= <- _].
  - rewrite run_bind. unfold try_except at 1. rewrite run_bind.
    destruct (_request (Conversation ep member) true w) as [[data|e0|h] w0];
      simpl; try discriminate.
    + rewrite run_bind. unfold lift.
      destruct (convo_id_of data) as [[i|]|e1|h] eqn:Hc; simpl; try discriminate.
      * apply IH.
      * intros [= <- _] He. apply convo_id_of_not_bluesky in Hc. congruence.
    + destruct (is_BlueskyError e0) eqn:He0; simpl.
      * apply IH.
      * intros [= <- _]. congruence.
Qed.

End DirectMessages.

(** X10: the two direct-message methods of the client never raise a plain
    [BlueskyError]: a failure of the service reaches the caller of
    [create_or_get_conversation] and of [send_direct_message] as
    [DirectMessageNotSupported] only. *)
Theorem dm_methods_never_raise_plain_error `{PyLib} `{Remote} (w : World)
    (member convo text : string) :
  (create_or_get_conversation member w).1 ≠ Raise BlueskyError
  ∧ (send_direct_message convo text w).1 ≠ Raise BlueskyError.
Proof.
  split.
  - destruct (create_or_get_conversation member w) as [r w'] eqn:Hc. simpl.
    intros ->.
    now pose proof (try_endpoints_raises_unsupported _ _ _ _ _ Hc eq_refl).
  - destruct (send_direct_message convo text w) as [r w'] eqn:Hs. simpl.
    intros ->.
    now pose proof (send_direct_message_raises_unsupported _ _ _ _ _ Hs eq_refl).
Qed.

(* ===================================================================== *)
(** * Persistence of a completed run *)
(* ===================================================================== *)

(** X11: when login succeeds and target engagement and messaging return,
    [_run_for_account] writes the account state as it is at the end of the
    run to the file of the account and changes no other file: loading the
    handle afterwards gives that state. *)
Theorem completed_run_is_persisted `{PyLib} `{Remote} (fuel : nat)
    (ctx : AutomationContext) (account : AccountConfig.t) (w w1 w2 : World)
    (st : AccountState) (p : Profile) :
  dry_run ctx = false →
  StateStore.load (Config.storage_dir (config ctx)) (AccountConfig.handle account)
                  (disk w) = Ok st →
  login (set_client (new_client account) (set_state st w)) = (Ok p, w1) →
  engage_and_message fuel ctx account w1 = (Ok tt, w2) →
  ∃ w',
    _run_for_account fuel ctx account w = (Ok tt, w')
    ∧ state w' = state w2
    ∧ disk w' = StateStore.save (Config.storage_dir (config ctx))
                  (AccountConfig.handle account) (state w2) (disk w)
    ∧ StateStore.load (Config.storage_dir (config ctx)) (AccountConfig.handle account)
                      (disk w') = Ok (state w2).
Proof.
  intros Hdry Hload Hlogin Hbody.
  pose proof (login_same_record (set_client (new_client account) (set_state st w)))
    as Hl. rewrite Hlogin in Hl. destruct Hl as [Hd1 _]. simpl in Hd1.
  pose proof (engage_and_message_same_store fuel ctx account w1) as He.
  rewrite Hbody in He. destruct He as [Hd2 _]. simpl in Hd2.
  eexists. split; [|split; [|split]].
  - unfold _run_for_account.
    rewrite (run_bind_ok _ _ w w w) by reflexivity.
    rewrite Hload.
    rewrite (run_bind_ok _ _ w w st) by reflexivity.
    rewrite (run_bind_ok _ _ w (set_state st w) tt) by reflexivity.
    rewrite Hdry.
    rewrite (run_bind_ok _ _ (set_state st w)
               (set_client (new_client account) (set_state st w)) tt)
      by reflexivity.
    rewrite (run_bind_ok _ _ _ w1 (Some p)).
    + rewrite (run_bind_ok _ _ w1 w2 tt) by exact Hbody. reflexivity.
    + unfold try_except. now rewrite run_bind, Hlogin.
  - reflexivity.
  - simpl. now rewrite Hd2, Hd1.
  - simpl. unfold StateStore.load, StateStore.save.
    rewrite lookup_insert_eq. apply AccountState_round_trip.
Qed.

Lemma completed_run_is_persisted_witness :
  ∃ w',
    @_run_for_account Scenario.lib Scenario.welcoming 5
      (Scenario.context (Scenario.account [Scenario.target (Some 1)] Scenario.no_dm))
      (Scenario.account [Scenario.target (Some 1)] Scenario.no_dm) Scenario.fresh
    = (Ok tt, w')
    ∧ state w'
      = state (@engage_and_message Scenario.lib Scenario.welcoming 5
          (Scenario.context (Scenario.account [Scenario.target (Some 1)] Scenario.no_dm))
          (Scenario.account [Scenario.target (Some 1)] Scenario.no_dm)
          (@login Scenario.lib Scenario.welcoming
             (set_client (new_client (Scenario.account [Scenario.target (Some 1)] Scenario.no_dm))
                (set_state AccountState_new Scenario.fresh))).2).2
    ∧ disk w'
      = StateStore.save ["state"] "me.example"
          (state (@engage_and_message Scenario.lib Scenario.welcoming 5
             (Scenario.context (Scenario.account [Scenario.target (Some 1)] Scenario.no_dm))
             (Scenario.account [Scenario.target (Some 1)] Scenario.no_dm)
             (@login Scenario.lib Scenario.welcoming
                (set_client (new_client (Scenario.account [Scenario.target (Some 1)] Scenario.no_dm))
                   (set_state AccountState_new Scenario.fresh))).2).2)
          (disk Scenario.fresh)
    ∧ StateStore.load ["state"] "me.example" (disk w')
      = Ok (state (@engage_and_message Scenario.lib Scenario.welcoming 5
             (Scenario.context (Scenario.account [Scenario.target (Some 1)] Scenario.no_dm))
             (Scenario.account [Scenario.target (Some 1)] Scenario.no_dm)
             (@login Scenario.lib Scenario.welcoming
                (set_client (new_client (Scenario.account [Scenario.target (Some 1)] Scenario.no_dm))
                   (set_state AccountState_new Scenario.fresh))).2).2).
Proof.
  apply (@completed_run_is_persisted Scenario.lib Scenario.welcoming 5
           (Scenario.context (Scenario.account [Scenario.target (Some 1)] Scenario.no_dm))
           (Scenario.account [Scenario.target (Some 1)] Scenario.no_dm)
           Scenario.fresh
           (@login Scenario.lib Scenario.welcoming
              (set_client (new_client (Scenario.account [Scenario.target (Some 1)] Scenario.no_dm))
                 (set_state AccountState_new Scenario.fresh))).2
           (@engage_and_message Scenario.lib Scenario.welcoming 5
              (Scenario.context (Scenario.account [Scenario.target (Some 1)] Scenario.no_dm))
              (Scenario.account [Scenario.target (Some 1)] Scenario.no_dm)
              (@login Scenario.lib Scenario.welcoming
                 (set_client (new_client (Scenario.account [Scenario.target (Some 1)] Scenario.no_dm))
                    (set_state AccountState_new Scenario.fresh))).2).2
           AccountState_new
           {| did := "did:me.example"; handle := "me.example"; display_name := JNull |}).
  - reflexivity.
  - reflexivity.
  - vm_compute. reflexivity.
  - vm_compute. reflexivity.
Defined.

(* ===================================================================== *)
(** * Steps of new-follower messaging *)
(* ===================================================================== *)

Section MessageSteps.
Context `{PyLib} `{Remote}.

Lemma known_followers_add_twice (d : string) (s : AccountState) :
  known_followers_add d (known_followers_add d s) = known_followers_add d s.
Proof.
  unfold known_followers_add. simpl. f_equal.
  now rewrite (assoc_L (∪)), union_idemp_L.
Qed.

(** On a record with a string identifier the step starts by recording it. *)
Lemma message_body_from_recorded (ctx : AutomationContext) (account : AccountConfig.t)
    (cooldown : option Z) (record : list (string * json)) (d : string) (sent : Z)
    (w : World) :
  dict_get record "did" = Some (JStr d) →
  message_body ctx account cooldown (JDict record) sent w
  = message_body ctx account cooldown (JDict record) sent
      (set_state (known_followers_add d (state w)) w).
Proof.
  intros Hd. unfold message_body. cbv zeta. rewrite Hd.
  change (default JNull (Some (JStr d))) with (JStr d). cbv beta iota.
  rewrite !run_bind. unfold update_state, modify. cbv beta iota.
  unfold set_state at 2. simpl.
  now rewrite known_followers_add_twice.
Qed.

End MessageSteps.

(** X12: every follower record with a string identifier that the messaging loop
    looks at is recorded in [known_followers], whatever the step then does
    (skip, limit reached, failure, exception). *)
Theorem message_body_records_follower `{PyLib} `{Remote} (ctx : AutomationContext)
    (account : AccountConfig.t) (cooldown : option Z)
    (record : list (string * json)) (d : string) (sent : Z) (w : World) :
  dict_get record "did" = Some (JStr d) →
  d ∈ known_followers (state (message_body ctx account cooldown (JDict record) sent w).2).
Proof.
  intros Hd. rewrite (message_body_from_recorded _ _ _ _ d) by exact Hd.
  pose proof (message_body_grows ctx account cooldown (JDict record) sent
                (set_state (known_followers_add d (state w)) w)) as [Hk _].
  apply Hk. simpl. set_solver.
Qed.

Lemma message_body_records_follower_witness :
  "did:f1" ∈ known_followers
    (state (@message_body Scenario.lib Scenario.send_failing
              (Scenario.context (Scenario.account [] Scenario.greeting))
              (Scenario.account [] Scenario.greeting) None
              (JDict [ ("did", JStr "did:f1"); ("handle", JStr "f1.example") ]) 0
              Scenario.logged_in).2).
Proof.
  apply (@message_body_records_follower Scenario.lib Scenario.send_failing
           (Scenario.context (Scenario.account [] Scenario.greeting))
           (Scenario.account [] Scenario.greeting) None
           [ ("did", JStr "did:f1"); ("handle", JStr "f1.example") ] "did:f1" 0
           Scenario.logged_in).
  reflexivity.
Defined.

(** X13: without cooldown (unset or zero) a follower that has an entry in
    [dm_history] is never messaged again: the step records the follower in
    [known_followers], sends no request and goes on to the next follower. *)
Theorem no_second_message_without_cooldown `{PyLib} `{Remote}
    (ctx : AutomationContext) (account : AccountConfig.t) (cooldown : option Z)
    (record : list (string * json)) (d : string) (sent : Z) (w : World) :
  dict_get record "did" = Some (JStr d) →
  is_Some (dm_history (state w) !! d) →
  no_cooldown cooldown = true →
  message_body ctx account cooldown (JDict record) sent w
  = (Ok (Next, sent), set_state (known_followers_add d (state w)) w).
Proof.
  intros Hd [stamp Hs] Hcd. unfold message_body. cbv zeta. rewrite Hd.
  change (default JNull (Some (JStr d))) with (JStr d). cbv beta iota.
  set (w1 := set_state (known_followers_add d (state w)) w).
  rewrite (run_bind_ok _ _ w w1 tt) by reflexivity.
  rewrite (run_bind_ok _ _ w1 w1 w1) by reflexivity.
  rewrite (run_bind_ok _ _ w1 w1 (clock (trace w1))) by reflexivity.
  unfold _should_send_dm. change (dm_history (state w1)) with (dm_history (state w)).
  rewrite Hs. destruct cooldown as [cd|]; [|reflexivity].
  simpl in Hcd. now rewrite Hcd.
Qed.

Lemma no_second_message_without_cooldown_witness :
  @message_body Scenario.lib Coverage.chatty
    (Scenario.context (Scenario.account [] Scenario.greeting))
    (Scenario.account [] Scenario.greeting) None
    (JDict [ ("did", JStr "did:f1"); ("handle", JStr "f1.example") ]) 0
    (set_state (dm_history_set "did:f1" "2024-01-01T00:00:00+00:00" AccountState_new)
       Scenario.logged_in)
  = (Ok (Next, 0),
     set_state (known_followers_add "did:f1"
                  (state (set_state (dm_history_set "did:f1" "2024-01-01T00:00:00+00:00"
                                       AccountState_new) Scenario.logged_in)))
       (set_state (dm_history_set "did:f1" "2024-01-01T00:00:00+00:00" AccountState_new)
          Scenario.logged_in)).
Proof.
  apply (@no_second_message_without_cooldown Scenario.lib Coverage.chatty
           (Scenario.context (Scenario.account [] Scenario.greeting))
           (Scenario.account [] Scenario.greeting) None
           [ ("did", JStr "did:f1"); ("handle", JStr "f1.example") ] "did:f1" 0
           (set_state (dm_history_set "did:f1" "2024-01-01T00:00:00+00:00" AccountState_new)
              Scenario.logged_in)).
  - reflexivity.
  - vm_compute. eauto.
  - reflexivity.
Defined.

(** X14: a message that is sent is recorded: when the follower is eligible, the
    limit is not reached, and the conversation and the send succeed, the step
    writes the time of the send into [dm_history] for the follower, counts the
    message, and goes on to the next follower. *)
Theorem delivered_message_is_recorded `{PyLib} `{Remote}
    (ctx : AutomationContext) (account : AccountConfig.t) (cooldown : option Z)
    (record : list (string * json)) (d message convo : string) (sent : Z)
    (w w2 w3 : World) (answer : json) :
  dict_get record "did" = Some (JStr d) →
  _should_send_dm d (known_followers_add d (state w)) cooldown (clock (trace w)) = true →
  match DMConfig.limit_per_run (AccountConfig.dm account) with
  | Some l => l <=? sent
  | None => false
  end = false →
  _render_message (DMConfig.message (AccountConfig.dm account)) (JDict record)
  = Ok message →
  create_or_get_conversation d (set_state (known_followers_add d (state w)) w)
  = (Ok convo, w2) →
  send_direct_message convo message w2 = (Ok answer, w3) →
  ∃ w',
    message_body ctx account cooldown (JDict record) sent w = (Ok (Next, sent + 1), w')
    ∧ dm_history (state w') !! d = Some (isoformat (clock (trace w3)))
    ∧ d ∈ known_followers (state w').
Proof.
  intros Hd Hdm Hlim Hmsg Hconvo Hsend.
  pose proof (keeps_try_endpoints only_trace convo_endpoints d (fun _ _ => I)
                (set_state (known_followers_add d (state w)) w)) as Hk2.
  unfold create_or_get_conversation in Hconvo. rewrite Hconvo in Hk2.
  destruct Hk2 as (_ & _ & Hs2). simpl in Hs2.
  pose proof (keeps_send_direct_message only_trace convo message (fun _ => I) w2)
    as Hk3.
  rewrite Hsend in Hk3. destruct Hk3 as (_ & _ & Hs3). simpl in Hs3.
  unfold message_body. cbv zeta. rewrite Hd.
  change (default JNull (Some (JStr d))) with (JStr d). cbv beta iota.
  set (w1 := set_state (known_followers_add d (state w)) w) in *.
  rewrite (run_bind_ok _ _ w w1 tt) by reflexivity.
  rewrite (run_bind_ok _ _ w1 w1 w1) by reflexivity.
  rewrite (run_bind_ok _ _ w1 w1 (clock (trace w1))) by reflexivity.
  change (state w1) with (known_followers_add d (state w)).
  change (trace w1) with (trace w). rewrite Hdm, Hlim. cbn [negb].
  rewrite Hmsg.
  rewrite (run_bind_ok _ _ w1 w1 message) by reflexivity.
  rewrite (run_bind_ok _ _ w1 w3 Delivered).
  - rewrite (run_bind_ok _ _ w3 w3 (clock (trace w3))) by reflexivity.
    rewrite run_bind.
    set (w4 := set_state (dm_history_set d (isoformat (clock (trace w3))) (state w3)) w3).
    change (update_state (dm_history_set d (isoformat (clock (trace w3)))) w3)
      with (Ok tt, w4).
    cbv beta iota. rewrite run_bind.
    pose proof (keeps_pause only_trace
                  (_effective_delay (AccountConfig.follow_delay_seconds account)
                     (Config.default_follow_delay_seconds (config ctx))) I w4) as Hp.
    destruct (pause _ w4) as [[[]|e|h] w5] eqn:Hpause.
    + destruct Hp as (_ & _ & Hs5). simpl in Hs5.
      eexists. split; [reflexivity|]. rewrite Hs5. simpl. split.
      * apply lookup_insert_eq.
      * rewrite Hs3, Hs2. simpl. set_solver.
    + exfalso. unfold pause in Hpause. destruct (negb _); discriminate Hpause.
    + exfalso. unfold pause in Hpause. destruct (negb _); discriminate Hpause.
  - unfold try_except.
    unfold create_or_get_conversation.
    rewrite run_bind, Hconvo, run_bind, Hsend. reflexivity.
Qed.

Lemma delivered_message_is_recorded_witness :
  ∃ w',
    @message_body Scenario.lib Coverage.chatty
      (Scenario.context (Scenario.account [] Scenario.greeting))
      (Scenario.account [] Scenario.greeting) None
      (JDict [ ("did", JStr "did:f1"); ("handle", JStr "f1.example") ]) 0
      Scenario.logged_in
    = (Ok (Next, 0 + 1), w')
    ∧ dm_history (state w') !! "did:f1"
      = Some (@isoformat Scenario.lib
                (@clock Coverage.chatty
                   (trace (@send_direct_message Coverage.chatty "convo:did:f1"
                             "Thanks for following!"
                             (@create_or_get_conversation Scenario.lib Coverage.chatty
                                "did:f1"
                                (set_state (known_followers_add "did:f1"
                                              (state Scenario.logged_in))
                                   Scenario.logged_in)).2).2)))
    ∧ "did:f1" ∈ known_followers (state w').
Proof.
  apply (@delivered_message_is_recorded Scenario.lib Coverage.chatty
           (Scenario.context (Scenario.account [] Scenario.greeting))
           (Scenario.account [] Scenario.greeting) None
           [ ("did", JStr "did:f1"); ("handle", JStr "f1.example") ] "did:f1"
           "Thanks for following!" "convo:did:f1" 0 Scenario.logged_in
           (@create_or_get_conversation Scenario.lib Coverage.chatty "did:f1"
              (set_state (known_followers_add "did:f1" (state Scenario.logged_in))
                 Scenario.logged_in)).2
           (@send_direct_message Coverage.chatty "convo:did:f1" "Thanks for following!"
              (@create_or_get_conversation Scenario.lib Coverage.chatty "did:f1"
                 (set_state (known_followers_add "did:f1" (state Scenario.logged_in))
                    Scenario.logged_in)).2).2
           (JDict [])).
  - reflexivity.
  - reflexivity.
  - reflexivity.
  - reflexivity.
  - vm_compute. reflexivity.
  - vm_compute. reflexivity.
Defined.

(* ===================================================================== *)
(** * Failures outside the follow and send steps *)
(* ===================================================================== *)

(** X15: when the profile of a target cannot be fetched ([BlueskyError]),
    [_engage_target] returns normally without touching anything: the account
    state (no entry is made for the target), the client and the files are as
    they were, and the profile request is the only one sent. *)
Theorem unresolved_target_is_left_alone `{PyLib} `{Remote} (fuel : nat)
    (ctx : AutomationContext) (account : AccountConfig.t) (target : TargetConfig.t)
    (w w1 : World) (e : exn) :
  get_profile (TargetConfig.handle target) w = (Raise e, w1) →
  is_BlueskyError e = true →
  _engage_target fuel ctx account target w = (Ok None, w1)
  ∧ state w1 = state w ∧ client w1 = client w ∧ disk w1 = disk w.
Proof.
  intros Hp He. split.
  - unfold _engage_target. rewrite run_bind.
    rewrite (run_try_raise _ _ _ w w1 e) by now rewrite run_bind, Hp.
    now rewrite He.
  - pose proof (keeps_get_profile only_trace (TargetConfig.handle target)
                  (fun _ => I) w) as Hk.
    rewrite Hp in Hk. destruct Hk as (D & C & S). auto.
Qed.

Lemma unresolved_target_is_left_alone_witness :
  @_engage_target Scenario.lib Scenario.rejecting 5
    (Scenario.context (Scenario.account [Scenario.target None] Scenario.no_dm))
    (Scenario.account [Scenario.target None] Scenario.no_dm) (Scenario.target None)
    Scenario.logged_in
  = (Ok None, (@get_profile Scenario.lib Scenario.rejecting "star.example" Scenario.logged_in).2)
  ∧ state (@get_profile Scenario.lib Scenario.rejecting "star.example" Scenario.logged_in).2
    = state Scenario.logged_in
  ∧ client (@get_profile Scenario.lib Scenario.rejecting "star.example" Scenario.logged_in).2
    = client Scenario.logged_in
  ∧ disk (@get_profile Scenario.lib Scenario.rejecting "star.example" Scenario.logged_in).2
    = disk Scenario.logged_in.
Proof.
  apply (@unresolved_target_is_left_alone Scenario.lib Scenario.rejecting 5
           (Scenario.context (Scenario.account [Scenario.target None] Scenario.no_dm))
           (Scenario.account [Scenario.target None] Scenario.no_dm)
           (Scenario.target None) Scenario.logged_in
           (@get_profile Scenario.lib Scenario.rejecting "star.example" Scenario.logged_in).2
           BlueskyError).
  - reflexivity.
  - reflexivity.
Defined.

(** X16: when login has succeeded and target engagement or messaging raises,
    [_run_for_account] raises the same exception in the world engagement
    left: the save at the end is not reached, no file is written, and what
    the run recorded in memory is lost.  A failed listing of followers is
    such an exception: [_engage_target] does not catch it. *)
Theorem interrupted_run_persists_nothing `{PyLib} `{Remote} (fuel : nat)
    (ctx : AutomationContext) (account : AccountConfig.t) (w w1 w2 : World)
    (st : AccountState) (p : Profile) (e : exn) :
  dry_run ctx = false →
  StateStore.load (Config.storage_dir (config ctx)) (AccountConfig.handle account)
                  (disk w) = Ok st →
  login (set_client (new_client account) (set_state st w)) = (Ok p, w1) →
  engage_and_message fuel ctx account w1 = (Raise e, w2) →
  _run_for_account fuel ctx account w = (Raise e, w2)
  ∧ disk w2 = disk w.
Proof.
  intros Hdry Hload Hlogin Hbody.
  pose proof (login_same_record (set_client (new_client account) (set_state st w)))
    as Hl. rewrite Hlogin in Hl. destruct Hl as [Hd1 _]. simpl in Hd1.
  pose proof (engage_and_message_same_store fuel ctx account w1) as He.
  rewrite Hbody in He. destruct He as [Hd2 _]. simpl in Hd2.
  split; [|now rewrite Hd2, Hd1].
  unfold _run_for_account.
  rewrite (run_bind_ok _ _ w w w) by reflexivity.
  rewrite Hload.
  rewrite (run_bind_ok _ _ w w st) by reflexivity.
  rewrite (run_bind_ok _ _ w (set_state st w) tt) by reflexivity.
  rewrite Hdry.
  rewrite (run_bind_ok _ _ (set_state st w)
             (set_client (new_client account) (set_state st w)) tt)
    by reflexivity.
  rewrite (run_bind_ok _ _ _ w1 (Some p)).
  - now rewrite run_bind, Hbody.
  - unfold try_except. now rewrite run_bind, Hlogin.
Qed.

Lemma interrupted_run_persists_nothing_witness :
  @_run_for_account Scenario.lib listing_failing 5
    (Scenario.context (Scenario.account [Scenario.target None] Scenario.no_dm))
    (Scenario.account [Scenario.target None] Scenario.no_dm) Scenario.fresh
  = (Raise BlueskyError,
     (@engage_and_message Scenario.lib listing_failing 5
        (Scenario.context (Scenario.account [Scenario.target None] Scenario.no_dm))
        (Scenario.account [Scenario.target None] Scenario.no_dm)
        (@login Scenario.lib listing_failing
           (set_client (new_client (Scenario.account [Scenario.target None] Scenario.no_dm))
              (set_state AccountState_new Scenario.fresh))).2).2)
  ∧ disk (@engage_and_message Scenario.lib listing_failing 5
            (Scenario.context (Scenario.account [Scenario.target None] Scenario.no_dm))
            (Scenario.account [Scenario.target None] Scenario.no_dm)
            (@login Scenario.lib listing_failing
               (set_client (new_client (Scenario.account [Scenario.target None] Scenario.no_dm))
                  (set_state AccountState_new Scenario.fresh))).2).2
    = disk Scenario.fresh.
Proof.
  apply (@interrupted_run_persists_nothing Scenario.lib listing_failing 5
           (Scenario.context (Scenario.account [Scenario.target None] Scenario.no_dm))
           (Scenario.account [Scenario.target None] Scenario.no_dm)
           Scenario.fresh
           (@login Scenario.lib listing_failing
              (set_client (new_client (Scenario.account [Scenario.target None] Scenario.no_dm))
                 (set_state AccountState_new Scenario.fresh))).2
           (@engage_and_message Scenario.lib listing_failing 5
              (Scenario.context (Scenario.account [Scenario.target None] Scenario.no_dm))
              (Scenario.account [Scenario.target None] Scenario.no_dm)
              (@login Scenario.lib listing_failing
                 (set_client (new_client (Scenario.account [Scenario.target None] Scenario.no_dm))
                    (set_state AccountState_new Scenario.fresh))).2).2
           AccountState_new
           {| did := "did:me.example"; handle := "me.example"; display_name := JNull |}
           BlueskyError).
  - reflexivity.
  - reflexivity.
  - vm_compute. reflexivity.
  - vm_compute. reflexivity.
Defined.

(* ===================================================================== *)
(** * Counters and limits *)
(* ===================================================================== *)

Section MoreHoare.

Lemma hoare_try_except {A} (m : M A) (catches : exn → bool) (handler : exn → M A)
    (Pre : World → Prop) (Post : A → World → Prop) (Exc1 Exc : World → Prop) :
  hoare Pre m Post Exc1 → (∀ e, hoare Exc1 (handler e) Post Exc) →
  (∀ w, Exc1 w → Exc w) →
  hoare Pre (try_except m catches handler) Post Exc.
Proof.
  intros Hm Hh Hsub w Hw. unfold try_except. specialize (Hm w Hw).
  destruct (m w) as [[a|e|h] w']; try exact Hm.
  destruct (catches e); [now apply Hh | now apply Hsub].
Qed.

Lemma hoare_of_keeps {A} (P : relation_kept) (m : M A) (Q : World → Prop) :
  keeps P m → (∀ w w', Q w → P w w' → Q w') → hoare Q m (fun _ => Q) Q.
Proof.
  intros Hk Hq w Hw. specialize (Hk w).
  destruct (m w) as [[a|e|h] w']; simpl in Hk; eauto.
Qed.

Lemma hoare_exc_any {A} (m : M A) (Pre : World → Prop) (Post : A → World → Prop)
    (Exc : World → Prop) :
  hoare Pre m Post Exc → hoare Pre m Post (fun _ => True).
Proof.
  intros Hm w Hw. specialize (Hm w Hw). destruct (m w) as [[a|e|h] w']; auto.
Qed.

Lemma hoare_pre {A} (m : M A) (Pre Pre' : World → Prop) (Post : A → World → Prop)
    (Exc : World → Prop) :
  (∀ w, Pre w → Pre' w) → hoare Pre' m Post Exc → hoare Pre m Post Exc.
Proof. intros Hsub Hm w Hw. apply Hm, Hsub, Hw. Qed.

(** A fact that does not mention the world can be assumed once. *)
Lemma hoare_assume {A} (m : M A) (Q : World → Prop) (fact : Prop)
    (Post : A → World → Prop) (Exc : World → Prop) :
  (fact → hoare Q m Post Exc) → hoare (fun w => Q w ∧ fact) m Post Exc.
Proof. intros Hm w [Hq Hf]. now apply Hm. Qed.

End MoreHoare.

(** The numbers of successful follows and likes are the same. *)
Definition same_counts : relation_kept.
Proof.
  refine {| related := fun w w' =>
              follows_sent (trace w') = follows_sent (trace w)
              ∧ likes_sent (trace w') = likes_sent (trace w);
            harmless := fun ev => follow_succeeded ev = false
                                  ∧ like_succeeded ev = false |}.
  - intros w. split; reflexivity.
  - intros w1 w2 w3 [F1 L1] [F2 L2]. split; congruence.
  - intros w ev [Hf Hl]. simpl. now rewrite Hf, Hl.
Defined.

(** The number of successful messages is the same. *)
Definition same_messages : relation_kept.
Proof.
  refine {| related := fun w w' => messages_sent (trace w') = messages_sent (trace w);
            harmless := fun ev => message_succeeded ev = false |}.
  - reflexivity.
  - intros w1 w2 w3 H12 H23. congruence.
  - intros w ev Hev. simpl. now rewrite Hev.
Defined.

Section Tally.
Context `{Remote}.

Lemma counts_are_kept (a b : Z) (w w' : World) :
  counts_are a b w → same_counts w w' → counts_are a b w'.
Proof. intros [Hf Hl] [Hf' Hl']. split; congruence. Qed.

Lemma follow_tally (d : string) (a b : Z) :
  hoare (counts_are a b) (follow d) (fun _ => counts_are (a + 1) b) (counts_are a b).
Proof.
  intros w [Hf Hl]. unfold counts_are.
  cbv [follow now client_did _request _auth_headers mbind M_bind bind ret].
  destruct (py_truthy (_did (client w))); [|now split].
  destruct (py_truthy (_access_jwt (client w))); [|now split].
  destruct (respond (trace w) _) as [|sc body]; simpl.
  - now split.
  - destruct (Z.leb_spec 400 sc) as [Hsc|Hsc]; simpl.
    + assert (Hlt : (sc <? 400) = false) by (apply Z.ltb_ge; lia).
      rewrite Hlt. simpl. now split.
    + assert (Hlt : (sc <? 400) = true) by (apply Z.ltb_lt; lia).
      destruct body; simpl; rewrite Hlt; simpl; split; lia.
Qed.

Lemma like_tally (uri cid : string) (a b : Z) :
  hoare (counts_are a b) (like uri cid) (fun _ => counts_are a (b + 1)) (counts_are a b).
Proof.
  intros w [Hf Hl]. unfold counts_are.
  cbv [like now client_did _request _auth_headers mbind M_bind bind ret].
  destruct (py_truthy (_did (client w))); [|now split].
  destruct (py_truthy (_access_jwt (client w))); [|now split].
  destruct (respond (trace w) _) as [|sc body]; simpl.
  - now split.
  - destruct (Z.leb_spec 400 sc) as [Hsc|Hsc]; simpl.
    + assert (Hlt : (sc <? 400) = false) by (apply Z.ltb_ge; lia).
      rewrite Hlt. simpl. now split.
    + assert (Hlt : (sc <? 400) = true) by (apply Z.ltb_lt; lia).
      destruct body; simpl; rewrite Hlt; simpl; split; lia.
Qed.

(** A call of [_like_latest_post] sends one successful like when it returns
    [True], none when it returns [False], and no follow. *)
Lemma like_first_tally (posts : list json) (th : string) (a b : Z) :
  hoare (counts_are a b) (like_first posts th)
        (fun liked => counts_are a (b + if liked : bool then 1 else 0))
        (fun _ => True).
Proof.
  induction posts as [|item posts IH]; cbn [like_first].
  - intros w [Hf Hl]. split; [exact Hf | simpl; lia].
  - destruct (match item with JDict items => _ | _ => _ end); try exact IH.
    destruct (dict_get items "uri") as [[]|]; try exact IH.
    destruct (dict_get items "cid") as [[]|]; try exact IH.
    apply (hoare_bind_keeps same_counts);
      [apply keeps_get_world | apply counts_are_kept|].
    intros w0. case_bool_decide.
    { intros w [Hf Hl]. split; [exact Hf | simpl; lia]. }
    apply hoare_bind with
      (Mid := fun ok => counts_are a (b + if ok : bool then 1 else 0)).
    + apply hoare_exc_any with (Exc := counts_are a b).
      apply hoare_try_except with (Exc1 := counts_are a b).
      * apply hoare_bind with (Mid := fun _ => counts_are a (b + 1));
          [apply like_tally|].
        intros _ w Hw. exact Hw.
      * intros e w [Hf Hl]. split; [exact Hf | simpl; lia].
      * auto.
    + intros [|].
      * apply hoare_bind with (Mid := fun _ => counts_are a (b + 1)).
        { intros w Hw. exact Hw. }
        intros _ w Hw. exact Hw.
      * intros w Hw. exact Hw.
Qed.

Lemma like_latest_post_tally (follower : json) (th : string) (a b : Z) :
  hoare (counts_are a b) (_like_latest_post follower th)
        (fun liked => counts_are a (b + if liked : bool then 1 else 0))
        (fun _ => True).
Proof.
  assert (Hno : ∀ w, counts_are a b w → counts_are a (b + 0) w).
  { intros w [Hf Hl]. split; [exact Hf | lia]. }
  unfold _like_latest_post. apply hoare_bind_lift. intros d.
  destruct d; try (intros w Hw; now apply Hno).
  apply (hoare_bind_keeps same_counts); [|apply counts_are_kept|].
  { apply keeps_try; [|intros ?; apply keeps_ret].
    apply keeps_bind; [|intros ?; apply keeps_ret].
    apply keeps_request. intros rs. split; reflexivity. }
  intros [feed|]; [|intros w Hw; now apply Hno].
  destruct (match feed with JDict items => _ | _ => _ end);
    try (intros w Hw; now apply Hno).
  apply like_first_tally.
Qed.

Lemma engage_body_tally (ctx : AutomationContext) (account : AccountConfig.t)
    (target : TargetConfig.t) (follower : json) (a b : Z) (counts : Z * Z) :
  hoare (fun w => counters_ok target a b counts w ∧ may_go_on target counts)
        (engage_body ctx account target follower counts)
        (fun r w =>
           match r.1 with
           | Next => counters_ok target a b r.2 w ∧ may_go_on target r.2
           | Break => counters_ok target a b r.2 w ∧ within_limit target r.2
           end)
        (fun _ => True).
Proof.
  destruct counts as [fc lc]. unfold engage_body.
  apply hoare_pre with
    (Pre' := fun w => counts_are (a + fc) (b + lc) w
                      ∧ (0 ≤ fc ∧ 0 ≤ lc
                         ∧ (∀ l, TargetConfig.like_limit target = Some l → lc ≤ Z.max 0 l)
                         ∧ may_go_on target (fc, lc))).
  { intros w [(Hc & H1 & H2 & H3) Hgo]. simpl in *. auto. }
  apply hoare_assume. intros (Hfc & Hlc & Hll & Hgo).
  assert (Hskip : ∀ w, counts_are (a + fc) (b + lc) w →
                       counters_ok target a b (fc, lc) w ∧ may_go_on target (fc, lc)).
  { intros w Hc. split; [|exact Hgo]. split; [exact Hc|]. simpl. auto. }
  apply hoare_bind_lift. intros d.
  destruct d; try (intros w Hw; simpl; now apply Hskip).
  apply (hoare_bind_keeps same_counts); [apply keeps_client_did | apply counts_are_kept|].
  intros own. destruct (py_eq_str s own); [intros w Hw; simpl; now apply Hskip|].
  apply (hoare_bind_keeps same_counts); [apply keeps_get_world | apply counts_are_kept|].
  intros w0. case_bool_decide; [intros w Hw; simpl; now apply Hskip|].
  apply hoare_bind with
    (Mid := fun ok => counts_are (a + fc + if ok : bool then 1 else 0) (b + lc)).
  { apply hoare_exc_any with (Exc := counts_are (a + fc) (b + lc)).
    apply hoare_try_except with (Exc1 := counts_are (a + fc) (b + lc)).
    - apply hoare_bind with (Mid := fun _ => counts_are (a + fc + 1) (b + lc));
        [apply follow_tally | intros _ w Hw; exact Hw].
    - intros e w [Hf Hl]. split; [simpl; lia | exact Hl].
    - auto. }
  intros [|].
  - apply hoare_bind with (Mid := fun _ => counts_are (a + fc + 1) (b + lc)).
    { intros w Hw. exact Hw. }
    intros _.
    apply (hoare_bind_keeps same_counts);
      [apply keeps_pause; split; reflexivity | apply counts_are_kept|].
    intros _.
    apply hoare_bind with
      (Mid := fun lc' w =>
                counts_are (a + fc + 1) (b + lc') w
                ∧ 0 ≤ lc'
                ∧ ∀ l, TargetConfig.like_limit target = Some l → lc' ≤ Z.max 0 l).
    { assert (Hsame : ∀ w, counts_are (a + fc + 1) (b + lc) w →
                           counts_are (a + fc + 1) (b + lc) w
                           ∧ 0 ≤ lc
                           ∧ ∀ l, TargetConfig.like_limit target = Some l →
                                  lc ≤ Z.max 0 l) by auto.
      destruct (TargetConfig.like_latest_post target); simpl;
        [|intros w Hw; now apply Hsame].
      destruct (TargetConfig.like_limit target) as [l|] eqn:Hlim.
      - destruct (Z.ltb_spec lc l) as [Hlt|Hge]; [|intros w Hw; now apply Hsame].
        apply hoare_bind with
          (Mid := fun liked =>
                    counts_are (a + fc + 1) (b + lc + if liked : bool then 1 else 0));
          [apply like_latest_post_tally|].
        intros [|].
        + apply (hoare_bind_keeps same_counts);
            [apply keeps_pause; split; reflexivity | apply counts_are_kept|].
          intros _ w [Hf Hl]. split; [split; [exact Hf | lia]|].
          split; [lia|]. intros l' [= <-]. lia.
        + intros w [Hf Hl]. split; [split; [exact Hf | lia]|].
          split; [lia|]. intros l' [= <-]. lia.
      - apply hoare_bind with
          (Mid := fun liked =>
                    counts_are (a + fc + 1) (b + lc + if liked : bool then 1 else 0));
          [apply like_latest_post_tally|].
        intros [|].
        + apply (hoare_bind_keeps same_counts);
            [apply keeps_pause; split; reflexivity | apply counts_are_kept|].
          intros _ w [Hf Hl]. split; [split; [exact Hf | lia]|].
          split; [lia|]. intros l' [=].
        + intros w [Hf Hl]. split; [split; [exact Hf | lia]|].
          split; [lia|]. intros l' [=]. }
    intros lc' w (Hc & Hlc' & Hll').
    assert (Hok : counters_ok target a b (fc + 1, lc') w).
    { split; [|simpl; split; [lia | split; [exact Hlc' | exact Hll']]].
      destruct Hc as [Hf Hl]. split; simpl; [lia | exact Hl]. }
    destruct (TargetConfig.follow_limit target) as [l|] eqn:Hfl.
    + destruct (Z.leb_spec l (fc + 1)) as [Hle|Hgt]; simpl; (split; [exact Hok|]).
      * intros l' Hl'. specialize (Hgo l' Hl'). simpl in *. lia.
      * intros l' Hl'. simpl. rewrite Hfl in Hl'. injection Hl' as <-. lia.
    + simpl. split; [exact Hok|]. intros l' Hl'. rewrite Hfl in Hl'. discriminate.
  - apply hoare_bind with (Mid := fun _ => counts_are (a + fc) (b + lc)).
    { intros w [Hf Hl]. split; [simpl; lia | exact Hl]. }
    intros _ w Hw. simpl. now apply Hskip.
Qed.

End Tally.

Lemma engage_target_tally `{PyLib} `{Remote} (fuel : nat) (ctx : AutomationContext)
    (account : AccountConfig.t) (target : TargetConfig.t) (a b : Z) :
  hoare (counts_are a b) (_engage_target fuel ctx account target)
        (fun r w => match r with
                    | Some counts => counters_ok target a b counts w
                                     ∧ within_limit target counts
                    | None => True
                    end)
        (fun _ => True).
Proof.
  unfold _engage_target.
  apply (hoare_bind_keeps same_counts); [|apply counts_are_kept|].
  { apply keeps_try; [|intros ?; apply keeps_ret].
    apply keeps_bind; [|intros ?; apply keeps_ret].
    apply keeps_get_profile. intros rs. split; reflexivity. }
  intros [p|]; [|intros w _; exact I].
  apply hoare_bind with
    (Mid := fun _ w => counters_ok target a b (0, 0) w ∧ may_go_on target (0, 0)).
  { intros w [Hf Hl]. simpl. split.
    - split; [split; simpl; lia|]. simpl. split; [lia | split; [lia|]]. intros l _. lia.
    - intros l _. simpl. lia. }
  intros _.
  eapply hoare_bind.
  { apply (hoare_iterate_followers fuel _ 50 JNull _ (0, 0) same_counts
             (fun c w => counters_ok target a b c w ∧ may_go_on target c)
             (fun c w => counters_ok target a b c w ∧ within_limit target c)).
    - intros c rs. split; reflexivity.
    - intros c w1 w2 [(Hc & Hr) Hgo] Hs. split; [split|]; try assumption.
      eapply counts_are_kept; eassumption.
    - intros x c. apply engage_body_tally. }
  intros c w [[Hok Hgo]|[Hok Hin]]; simpl; (split; [exact Hok|]); [|exact Hin].
  intros l Hl. specialize (Hgo l Hl). lia.
Qed.

(** X17: the follow counter of a run of target engagement that returns is the
    number of successful follow requests the run sent; with a follow limit
    [l] it is at most [max 1 l]: the limit itself when it is positive, and
    one for a limit of zero or less, since the limit is looked at after a
    follow. *)
Theorem follow_counter_and_limit `{PyLib} `{Remote} (fuel : nat)
    (ctx : AutomationContext) (account : AccountConfig.t) (target : TargetConfig.t)
    (w w' : World) (followed_count liked_count : Z) :
  _engage_target fuel ctx account target w
  = (Ok (Some (followed_count, liked_count)), w') →
  follows_sent (trace w') = follows_sent (trace w) + followed_count
  ∧ 0 ≤ followed_count
  ∧ ∀ l, TargetConfig.follow_limit target = Some l → followed_count ≤ Z.max 1 l.
Proof.
  intros Hrun.
  pose proof (engage_target_tally fuel ctx account target
                (follows_sent (trace w)) (likes_sent (trace w)) w
                (conj eq_refl eq_refl)) as Ht.
  rewrite Hrun in Ht. destruct Ht as [([Hf _] & Hnn & _ & _) Hin]. simpl in *.
  auto.
Qed.

Lemma follow_counter_and_limit_witness :
  follows_sent (trace (@_engage_target Scenario.lib Scenario.welcoming 5
      (Scenario.context (Scenario.account [Scenario.target (Some 1)] Scenario.no_dm))
      (Scenario.account [Scenario.target (Some 1)] Scenario.no_dm)
      (Scenario.target (Some 1)) Scenario.logged_in).2)
  = follows_sent (trace Scenario.logged_in) + 1
  ∧ 0 ≤ 1
  ∧ ∀ l, TargetConfig.follow_limit (Scenario.target (Some 1)) = Some l → 1 ≤ Z.max 1 l.
Proof.
  apply (@follow_counter_and_limit Scenario.lib Scenario.welcoming 5
           (Scenario.context (Scenario.account [Scenario.target (Some 1)] Scenario.no_dm))
           (Scenario.account [Scenario.target (Some 1)] Scenario.no_dm)
           (Scenario.target (Some 1)) Scenario.logged_in _ 1 0).
  vm_compute. reflexivity.
Defined.

(** X18: the like counter of a run of target engagement that returns is the
    number of successful like requests the run sent, and with a like limit
    [l] it is at most [l] (none for a limit of zero or less): the like limit
    is looked at before a like is attempted. *)
Theorem like_counter_and_limit `{PyLib} `{Remote} (fuel : nat)
    (ctx : AutomationContext) (account : AccountConfig.t) (target : TargetConfig.t)
    (w w' : World) (followed_count liked_count : Z) :
  _engage_target fuel ctx account target w
  = (Ok (Some (followed_count, liked_count)), w') →
  likes_sent (trace w') = likes_sent (trace w) + liked_count
  ∧ 0 ≤ liked_count
  ∧ ∀ l, TargetConfig.like_limit target = Some l → liked_count ≤ Z.max 0 l.
Proof.
  intros Hrun.
  pose proof (engage_target_tally fuel ctx account target
                (follows_sent (trace w)) (likes_sent (trace w)) w
                (conj eq_refl eq_refl)) as Ht.
  rewrite Hrun in Ht. destruct Ht as [([_ Hl] & _ & Hnn & Hll) _]. simpl in *.
  auto.
Qed.

Lemma like_counter_and_limit_witness :
  likes_sent (trace (@_engage_target Scenario.lib Coverage.posting 5
      (Scenario.context (Scenario.account [Coverage.liking_target] Scenario.no_dm))
      (Scenario.account [Coverage.liking_target] Scenario.no_dm)
      Coverage.liking_target Scenario.logged_in).2)
  = likes_sent (trace Scenario.logged_in) + 1
  ∧ 0 ≤ 1
  ∧ ∀ l, TargetConfig.like_limit Coverage.liking_target = Some l → 1 ≤ Z.max 0 l.
Proof.
  apply (@like_counter_and_limit Scenario.lib Coverage.posting 5
           (Scenario.context (Scenario.account [Coverage.liking_target] Scenario.no_dm))
           (Scenario.account [Coverage.liking_target] Scenario.no_dm)
           Coverage.liking_target Scenario.logged_in _ 2 1).
  vm_compute. reflexivity.
Defined.

Section MessageTally.
Context `{PyLib} `{Remote}.

Lemma messages_are_kept (n : Z) (w w' : World) :
  messages_are n w → same_messages w w' → messages_are n w'.
Proof. unfold messages_are. simpl. congruence. Qed.

Lemma send_tally (convo text : string) (n : Z) :
  hoare (messages_are n) (send_direct_message convo text)
        (fun _ => messages_are (n + 1)) (messages_are n).
Proof.
  intros w Hw. unfold messages_are in *.
  cbv [send_direct_message try_except _request _auth_headers mbind M_bind bind ret raise].
  destruct (py_truthy (_access_jwt (client w))); [|exact Hw].
  destruct (respond (trace w) _) as [|sc body]; simpl.
  - exact Hw.
  - destruct (Z.leb_spec 400 sc) as [Hsc|Hsc]; simpl.
    + assert (Hlt : (sc <? 400) = false) by (apply Z.ltb_ge; lia).
      rewrite Hlt. simpl. exact Hw.
    + assert (Hlt : (sc <? 400) = true) by (apply Z.ltb_lt; lia).
      destruct body; simpl; rewrite Hlt; simpl; lia.
Qed.

Lemma message_body_tally (ctx : AutomationContext) (account : AccountConfig.t)
    (cooldown : option Z) (follower : json) (n sent : Z) :
  hoare (sent_ok account n sent)
        (message_body ctx account cooldown follower sent)
        (fun r w => match r.1 with
                    | Next => sent_ok account n r.2 w
                    | Break => sent_ok account n r.2 w
                    end)
        (fun _ => True).
Proof.
  unfold message_body. cbv zeta.
  apply hoare_pre with
    (Pre' := fun w => messages_are (n + sent) w
                      ∧ (0 ≤ sent
                         ∧ ∀ l, DMConfig.limit_per_run (AccountConfig.dm account) = Some l →
                                sent ≤ Z.max 0 l)).
  { intros w (Hm & Hnn & Hl). auto. }
  apply hoare_assume. intros (Hsent & Hlim).
  assert (Hskip : ∀ w, messages_are (n + sent) w → sent_ok account n sent w).
  { intros w Hm. split; [exact Hm|]. auto. }
  destruct (match follower with JDict items => _ | _ => _ end);
    try (intros w Hw; simpl; now apply Hskip).
  apply (hoare_bind_keeps same_messages); [|apply messages_are_kept|].
  { intros w. reflexivity. }
  intros _.
  apply (hoare_bind_keeps same_messages); [apply keeps_get_world | apply messages_are_kept|].
  intros w0.
  apply (hoare_bind_keeps same_messages); [apply keeps_now | apply messages_are_kept|].
  intros t. destruct (negb _); [intros w Hw; simpl; now apply Hskip|].
  destruct (match DMConfig.limit_per_run _ with Some _ => _ | None => _ end) eqn:Hreached;
    [intros w Hw; simpl; now apply Hskip|].
  apply hoare_bind_lift. intros message.
  apply hoare_bind with
    (Mid := fun r => messages_are (n + sent + match r with Delivered => 1 | _ => 0 end)).
  { apply hoare_exc_any with (Exc := messages_are (n + sent)).
    apply hoare_try_except with (Exc1 := messages_are (n + sent)).
    - apply hoare_try_except with (Exc1 := messages_are (n + sent)).
      + apply hoare_bind with (Mid := fun _ => messages_are (n + sent)).
        * apply hoare_of_keeps with (P := same_messages);
            [|apply messages_are_kept].
          apply keeps_try_endpoints. intros ep rs. reflexivity.
        * intros convo.
          apply hoare_bind with (Mid := fun _ => messages_are (n + sent + 1));
            [apply send_tally | intros _ w Hw; exact Hw].
      + intros e w Hw. unfold messages_are in *. simpl. lia.
      + auto.
    - intros e w Hw. unfold messages_are in *. simpl. lia.
    - auto. }
  intros [| |].
  - apply (hoare_bind_keeps same_messages); [apply keeps_now | apply messages_are_kept|].
    intros t'.
    apply (hoare_bind_keeps same_messages); [|apply messages_are_kept|].
    { intros w. reflexivity. }
    intros _.
    apply (hoare_bind_keeps same_messages);
      [apply keeps_pause; reflexivity | apply messages_are_kept|].
    intros _ w Hw. simpl. split; [|split; [lia|]].
    + unfold messages_are in *. lia.
    + intros l Hl. rewrite Hl in Hreached.
      apply Z.leb_gt in Hreached. lia.
  - intros w Hw. simpl. apply Hskip. unfold messages_are in *. lia.
  - intros w Hw. simpl. apply Hskip. unfold messages_are in *. lia.
Qed.

Lemma message_pages_tally (fuel : nat) (ctx : AutomationContext)
    (account : AccountConfig.t) (cooldown : option Z) (cursor : json) (n sent : Z) :
  hoare (sent_ok account n sent)
        (message_pages fuel ctx account cooldown cursor sent)
        (fun sent' => sent_ok account n sent')
        (fun _ => True).
Proof.
  assert (Hstable : ∀ s w w', sent_ok account n s w → same_messages w w' →
                               sent_ok account n s w').
  { intros s w w' (Hm & Hr) Hs. split; [|exact Hr].
    eapply messages_are_kept; eassumption. }
  revert cursor sent. induction fuel as [|fuel IH]; intros cursor sent;
    cbn [message_pages]; [intros w _; exact I|].
  apply (hoare_bind_keeps same_messages); [|apply Hstable|].
  { apply keeps_try; [|intros ?; apply keeps_ret].
    apply keeps_bind; [|intros ?; apply keeps_ret].
    apply keeps_list_own_followers. intros actor c rs. reflexivity. }
  intros [response|]; [|intros w Hw; exact Hw].
  eapply hoare_bind.
  { apply (hoare_for_each _ _ sent (sent_ok account n) (sent_ok account n)).
    intros x s. apply message_body_tally. }
  intros [[|] sent']; simpl.
  - destruct (py_truthy _); [apply IH | intros w Hw; exact Hw].
  - intros w Hw. exact Hw.
Qed.

End MessageTally.

(** X19: the counter of a run of new-follower messaging that returns is the
    number of messages the service accepted during the run, and with a
    per-run limit [l] it is at most [l] (none for a limit of zero or less). *)
Theorem dm_counter_and_limit `{PyLib} `{Remote} (fuel : nat) (ctx : AutomationContext)
    (account : AccountConfig.t) (w w' : World) (sent : Z) :
  _message_new_followers fuel ctx account w = (Ok sent, w') →
  messages_sent (trace w') = messages_sent (trace w) + sent
  ∧ 0 ≤ sent
  ∧ ∀ l, DMConfig.limit_per_run (AccountConfig.dm account) = Some l →
         sent ≤ Z.max 0 l.
Proof.
  intros Hrun.
  assert (Hh : hoare (sent_ok account (messages_sent (trace w)) 0)
                 (_message_new_followers fuel ctx account)
                 (fun s => sent_ok account (messages_sent (trace w)) s)
                 (fun _ => True)).
  { unfold _message_new_followers.
    apply hoare_bind with
      (Mid := fun _ => sent_ok account (messages_sent (trace w)) 0).
    - destruct (negb _); [|intros w0 Hw0; exact Hw0].
      destruct (timedelta_hours _); intros w0 Hw0; [exact Hw0 | exact I].
    - intros cooldown. apply message_pages_tally. }
  assert (Hpre : sent_ok account (messages_sent (trace w)) 0 w).
  { split; [unfold messages_are; lia|]. split; [lia|]. intros l _. lia. }
  specialize (Hh w Hpre). rewrite Hrun in Hh. exact Hh.
Qed.

Lemma dm_counter_and_limit_witness :
  messages_sent (trace (@_message_new_followers Scenario.lib Coverage.chatty 5
      (Scenario.context (Scenario.account [] Coverage.one_greeting))
      (Scenario.account [] Coverage.one_greeting) Scenario.logged_in).2)
  = messages_sent (trace Scenario.logged_in) + 1
  ∧ 0 ≤ 1
  ∧ ∀ l, DMConfig.limit_per_run
           (AccountConfig.dm (Scenario.account [] Coverage.one_greeting)) = Some l →
         1 ≤ Z.max 0 l.
Proof.
  apply (@dm_counter_and_limit Scenario.lib Coverage.chatty 5
           (Scenario.context (Scenario.account [] Coverage.one_greeting))
           (Scenario.account [] Coverage.one_greeting) Scenario.logged_in _ 1).
  vm_compute. reflexivity.
Defined.

(* ===================================================================== *)
(** * Acting on new identifiers and posts only *)
(* ===================================================================== *)

Section OnlyNew.

Lemma acts_on_new_only_refl (th : string) (w : World) : acts_on_new_only th w w.
Proof.
  repeat split; try reflexivity. exists []. split; [reflexivity|].
  intros ev Hev. now apply elem_of_nil in Hev.
Qed.

Lemma acts_on_new_only_trans (th : string) (w1 w2 w3 : World) :
  acts_on_new_only th w1 w2 → acts_on_new_only th w2 w3 → acts_on_new_only th w1 w3.
Proof.
  intros (C1 & F1 & L1 & evs1 & T1 & E1) (C2 & F2 & L2 & evs2 & T2 & E2).
  split; [congruence|]. split; [now transitivity (followed (AccountState.target th (state w2)))|].
  split; [now transitivity (liked_posts (AccountState.target th (state w2)))|].
  exists (evs2 ++ evs1)%list. split.
  - rewrite T2, T1. now rewrite app_assoc.
  - intros ev [Hev|Hev]%elem_of_app.
    + destruct (E2 ev Hev) as [Hf Hl]. split.
      * intros d Hd. destruct (Hf d Hd) as [Hn Ho]. split.
        -- intros Hin. apply Hn, F1, Hin.
        -- now rewrite <- C1.
      * intros uri Hu Hin. apply (Hl uri Hu), L1, Hin.
    + now apply E1.
Qed.

Lemma acts_on_new_only_event (th : string) (w : World) (ev : event) :
  follow_of ev = None ∧ like_of ev = None →
  acts_on_new_only th w (set_trace (ev :: trace w) w).
Proof.
  intros [Hf Hl]. repeat split; try reflexivity.
  exists [ev]. split; [reflexivity|].
  intros ev' ->%list_elem_of_singleton. split; intros x Hx; congruence.
Qed.

End OnlyNew.

Definition new_only (th : string) : relation_kept :=
  {| related := acts_on_new_only th;
     harmless := fun ev => follow_of ev = None ∧ like_of ev = None;
     related_refl := acts_on_new_only_refl th;
     related_trans := acts_on_new_only_trans th;
     related_event := acts_on_new_only_event th |}.

Section OnlyNewSteps.
Context `{Remote}.

Lemma keeps_bind_at (P : relation_kept) {A B} (m : M A) (k : A → M B) (w : World) :
  P w (m w).2 → (∀ a, keeps P (k a)) → P w ((m ≫= k) w).2.
Proof.
  intros Hm Hk. rewrite run_bind.
  destruct (m w) as [[a|e|h] w']; simpl in *; try exact Hm.
  eapply related_trans; [exact Hm | apply Hk].
Qed.

(** An update of the account state that keeps the members of the two sets. *)
Lemma new_only_update (th : string) (f : AccountState → AccountState) :
  (∀ s, followed (AccountState.target th s) ⊆ followed (AccountState.target th (f s))
        ∧ liked_posts (AccountState.target th s)
          ⊆ liked_posts (AccountState.target th (f s))) →
  keeps (new_only th) (update_state f).
Proof.
  intros Hf w. destruct (Hf (state w)) as [HF HL].
  split; [reflexivity|]. split; [exact HF|]. split; [exact HL|].
  exists []. split; [reflexivity|]. intros ev Hev. now apply elem_of_nil in Hev.
Qed.

Lemma target_followed_add (th th' d : string) (s : AccountState) :
  followed (AccountState.target th s)
  ⊆ followed (AccountState.target th (followed_add th' d s))
  ∧ liked_posts (AccountState.target th s)
    ⊆ liked_posts (AccountState.target th (followed_add th' d s)).
Proof.
  unfold Storage.AccountState.target, followed_add. simpl.
  destruct (decide (th' = th)) as [->|Hne].
  - rewrite lookup_alter_eq. destruct (targets s !! th); simpl; set_solver.
  - rewrite lookup_alter_ne by exact Hne. split; reflexivity.
Qed.

Lemma target_liked_posts_add (th th' uri : string) (s : AccountState) :
  followed (AccountState.target th s)
  ⊆ followed (AccountState.target th (liked_posts_add th' uri s))
  ∧ liked_posts (AccountState.target th s)
    ⊆ liked_posts (AccountState.target th (liked_posts_add th' uri s)).
Proof.
  unfold Storage.AccountState.target, liked_posts_add. simpl.
  destruct (decide (th' = th)) as [->|Hne].
  - rewrite lookup_alter_eq. destruct (targets s !! th); simpl; set_solver.
  - rewrite lookup_alter_ne by exact Hne. split; reflexivity.
Qed.

Lemma target_ensure_target (th th' : string) (s : AccountState) :
  AccountState.target th (Storage.AccountState.ensure_target th' s)
  = AccountState.target th s.
Proof.
  unfold Storage.AccountState.target, Storage.AccountState.ensure_target.
  destruct (targets s !! th') eqn:Hth'; [reflexivity|]. simpl.
  destruct (decide (th' = th)) as [->|Hne].
  - now rewrite lookup_insert_eq, Hth'.
  - now rewrite lookup_insert_ne.
Qed.

(** A request for a new identifier, not the account's own. *)
Lemma follow_new_only (th d : string) (w : World) :
  d ∉ followed (AccountState.target th (state w)) →
  py_eq_str d (_did (client w)) = false →
  new_only th w (follow d w).2.
Proof.
  intros Hnew Hown.
  assert (Hev : ∀ rs,
             acts_on_new_only th w
               (set_trace (Call (CreateFollow (_did (client w)) d (clock (trace w))) rs
                           :: trace w) w)).
  { intros rs. repeat split; try reflexivity.
    eexists [_]. split; [reflexivity|].
    intros ev ->%list_elem_of_singleton. split; intros x [= <-]. now split. }
  cbv [follow now client_did _request _auth_headers mbind M_bind bind ret].
  destruct (py_truthy (_did (client w))); [|apply acts_on_new_only_refl].
  destruct (py_truthy (_access_jwt (client w))); [|apply acts_on_new_only_refl].
  destruct (respond (trace w) _) as [|sc body]; simpl; [apply Hev|].
  destruct (400 <=? sc); simpl; [apply Hev|]. destruct body; apply Hev.
Qed.

Lemma like_new_only (th uri cid : string) (w : World) :
  uri ∉ liked_posts (AccountState.target th (state w)) →
  new_only th w (like uri cid w).2.
Proof.
  intros Hnew.
  assert (Hev : ∀ rs,
             acts_on_new_only th w
               (set_trace (Call (CreateLike (_did (client w)) uri cid (clock (trace w))) rs
                           :: trace w) w)).
  { intros rs. repeat split; try reflexivity.
    eexists [_]. split; [reflexivity|].
    intros ev ->%list_elem_of_singleton. split; intros x [= <-]. exact Hnew. }
  cbv [like now client_did _request _auth_headers mbind M_bind bind ret].
  destruct (py_truthy (_did (client w))); [|apply acts_on_new_only_refl].
  destruct (py_truthy (_access_jwt (client w))); [|apply acts_on_new_only_refl].
  destruct (respond (trace w) _) as [|sc body]; simpl; [apply Hev|].
  destruct (400 <=? sc); simpl; [apply Hev|]. destruct body; apply Hev.
Qed.

Lemma like_first_new_only (posts : list json) (th : string) :
  keeps (new_only th) (like_first posts th).
Proof.
  induction posts as [|item posts IH]; cbn [like_first]; [apply keeps_ret|].
  destruct (match item with JDict items => _ | _ => _ end); try exact IH.
  destruct (dict_get items "uri") as [[]|]; try exact IH.
  destruct (dict_get items "cid") as [[]|]; try exact IH.
  intros w. rewrite (run_bind_ok _ _ w w w) by reflexivity.
  case_bool_decide; [apply related_refl|].
  apply keeps_bind_at.
  - unfold try_except. rewrite run_bind.
    pose proof (like_new_only th s s0 w ltac:(assumption)) as Hl.
    destruct (like s s0 w) as [[j|e|h] w']; simpl in *; try exact Hl.
    destruct (is_BlueskyError e); exact Hl.
  - intros [|]; [|apply keeps_ret].
    apply keeps_bind; [|intros ?; apply keeps_ret].
    apply new_only_update. intros st. apply target_liked_posts_add.
Qed.

Lemma like_latest_post_new_only (follower : json) (th : string) :
  keeps (new_only th) (_like_latest_post follower th).
Proof.
  unfold _like_latest_post. apply keeps_bind; [apply keeps_lift | intros d].
  destruct d; try apply keeps_ret.
  apply keeps_bind.
  - apply keeps_try; [|intros ?; apply keeps_ret].
    apply keeps_bind; [|intros ?; apply keeps_ret].
    apply keeps_request. intros rs. split; reflexivity.
  - intros [feed|]; [|apply keeps_ret].
    destruct (match feed with JDict items => _ | _ => _ end); try apply keeps_ret.
    apply like_first_new_only.
Qed.

Lemma engage_body_new_only (ctx : AutomationContext) (account : AccountConfig.t)
    (target : TargetConfig.t) (follower : json) (counts : Z * Z) :
  keeps (new_only (TargetConfig.handle target))
        (engage_body ctx account target follower counts).
Proof.
  intros w. unfold engage_body. destruct counts as [fc lc]. rewrite run_bind.
  unfold lift at 1. destruct (py_get follower "did" JNull) as [d|e|h];
    try apply related_refl.
  destruct d; try apply related_refl.
  rewrite run_bind. unfold client_did at 1.
  destruct (py_truthy (_did (client w))) eqn:Hd; [|apply related_refl].
  destruct (py_eq_str s (_did (client w))) eqn:Hown; [apply related_refl|].
  rewrite (run_bind_ok _ _ w w w) by reflexivity.
  case_bool_decide; [apply related_refl|].
  apply keeps_bind_at.
  - unfold try_except. rewrite run_bind.
    pose proof (follow_new_only (TargetConfig.handle target) s w
                  ltac:(assumption) Hown) as Hf.
    destruct (follow s w) as [[j|e|h] w']; simpl in *; try exact Hf.
    destruct (is_BlueskyError e); exact Hf.
  - intros [|].
    + apply keeps_bind;
        [apply new_only_update; intros st; apply target_followed_add | intros _].
      apply keeps_bind; [apply keeps_pause; split; reflexivity | intros _].
      apply keeps_bind.
      * destruct (_ && _); [|apply keeps_ret].
        apply keeps_bind; [apply like_latest_post_new_only | intros [|]];
          [|apply keeps_ret].
        apply keeps_bind; [apply keeps_pause; split; reflexivity|].
        intros _. apply keeps_ret.
      * intros lc'. destruct (TargetConfig.follow_limit target) as [l|];
          [destruct (l <=? fc + 1)|]; apply keeps_ret.
    + apply keeps_bind;
        [apply new_only_update; intros st; apply target_followed_add | intros _].
      apply keeps_ret.
Qed.

End OnlyNewSteps.

Lemma engage_target_new_only `{PyLib} `{Remote} (fuel : nat) (ctx : AutomationContext)
    (account : AccountConfig.t) (target : TargetConfig.t) :
  keeps (new_only (TargetConfig.handle target))
        (_engage_target fuel ctx account target).
Proof.
  unfold _engage_target. apply keeps_bind.
  - apply keeps_try; [|intros ?; apply keeps_ret].
    apply keeps_bind; [|intros ?; apply keeps_ret].
    apply keeps_get_profile. intros rs. split; reflexivity.
  - intros [p|]; [|apply keeps_ret].
    apply keeps_bind.
    + apply new_only_update. intros st. rewrite target_ensure_target.
      split; reflexivity.
    + intros _. apply keeps_bind; [|intros ?; apply keeps_ret].
      apply keeps_iterate_followers.
      * intros c rs. split; reflexivity.
      * intros x s. apply engage_body_new_only.
Qed.

(** X20: a run of target engagement sends a follow request only for an
    identifier that was not in the target's [followed] set when the run
    began, and never for the account's own identifier; it sends a like
    request only for a post that was not in [liked_posts].  This holds for
    every remote service and however the run ends. *)
Theorem engagement_acts_on_new_only `{PyLib} `{Remote} (fuel : nat)
    (ctx : AutomationContext) (account : AccountConfig.t) (target : TargetConfig.t)
    (w : World) :
  ∃ evs : list event,
    trace (_engage_target fuel ctx account target w).2 = (evs ++ trace w)%list
    ∧ (∀ repo d t rs,
         Call (CreateFollow repo d t) rs ∈ evs →
         (d ∉ followed (AccountState.target (TargetConfig.handle target) (state w)))
         ∧ py_eq_str d (_did (client w)) = false)
    ∧ (∀ repo uri cid t rs,
         Call (CreateLike repo uri cid t) rs ∈ evs →
         uri ∉ liked_posts (AccountState.target (TargetConfig.handle target) (state w))).
Proof.
  destruct (engage_target_new_only fuel ctx account target w)
    as (_ & _ & _ & evs & Ht & Hev).
  exists evs. split; [exact Ht|]. split.
  - intros repo d t rs Hin. destruct (Hev _ Hin) as [Hf _]. now apply Hf.
  - intros repo uri cid t rs Hin. destruct (Hev _ Hin) as [_ Hl]. now apply Hl.
Qed.

(* ===================================================================== *)
(** * A failed follow and later runs *)
(* ===================================================================== *)

(** An identifier in [followed] of a target stays there in every state that
    has grown from it. *)
Lemma grows_keeps_followed (th d : string) (s s' : AccountState) :
  is_Some (targets s !! th) →
  d ∈ followed (AccountState.target th s) →
  grows s s' →
  is_Some (targets s' !! th) ∧ d ∈ followed (AccountState.target th s').
Proof.
  intros [ts Hts] Hin [_ Hg]. destruct (Hg th ts Hts) as (ts' & Hts' & Hf & _).
  unfold Storage.AccountState.target in *. rewrite Hts in Hin. rewrite Hts'.
  split; [eauto | apply Hf, Hin].
Qed.

(** Engagement of a target sends no follow request for an identifier that
    its [followed] set holds. *)
Lemma engage_target_passes_over `{PyLib} `{Remote} (fuel : nat)
    (ctx : AutomationContext) (account : AccountConfig.t) (target : TargetConfig.t)
    (d : string) (w : World) :
  d ∈ followed (AccountState.target (TargetConfig.handle target) (state w)) →
  ∃ evs : list event,
    trace (_engage_target fuel ctx account target w).2 = (evs ++ trace w)%list
    ∧ ∀ ev, ev ∈ evs → follow_of ev ≠ Some d.
Proof.
  intros Hin.
  destruct (engage_target_new_only fuel ctx account target w)
    as (_ & _ & _ & evs & Ht & Hev).
  exists evs. split; [exact Ht|].
  intros ev Hel Hf. destruct (Hev ev Hel) as [Hfo _].
  destruct (Hfo d Hf) as [Hnot _]. exact (Hnot Hin).
Qed.

(** C5 (amended): when the follow request for an identifier fails with a
    [BlueskyError] during target engagement, the identifier is added to the
    target's [followed] set in memory all the same, the counters of the run
    are unchanged, nothing happens after the failed request (no pause), and
    the loop goes on to the next follower.  As long as the set holds the
    identifier the follower is passed over without a request.  When the
    state the run ends with is saved and a later run loads that file, no
    engagement of this target in the later run sends a follow request for
    the identifier. *)
Theorem failed_follow_is_recorded `{PyLib} `{Remote}
    (ctx : AutomationContext) (account : AccountConfig.t) (target : TargetConfig.t)
    (record : list (string * json)) (d : string) (counts : Z * Z)
    (w w1 : World) (e : exn) :
  dict_get record "did" = Some (JStr d) →
  py_truthy (_did (client w)) = true →
  py_eq_str d (_did (client w)) = false →
  is_Some (targets (state w) !! TargetConfig.handle target) →
  d ∉ followed (AccountState.target (TargetConfig.handle target) (state w)) →
  follow d w = (Raise e, w1) →
  is_BlueskyError e = true →
  ∃ w',
    engage_body ctx account target (JDict record) counts w = (Ok (Next, counts), w')
    ∧ state w' = followed_add (TargetConfig.handle target) d (state w)
    ∧ followed (AccountState.target (TargetConfig.handle target) (state w'))
      = {[ d ]} ∪ followed (AccountState.target (TargetConfig.handle target) (state w))
    ∧ trace w' = trace w1
    ∧ (∀ w2 counts2,
         py_truthy (_did (client w2)) = true →
         d ∈ followed (AccountState.target (TargetConfig.handle target) (state w2)) →
         engage_body ctx account target (JDict record) counts2 w2
         = (Ok (Next, counts2), w2))
    ∧ (∀ (st loaded : AccountState) (root : Path) (h : string) (fs : files)
         (fuel2 : nat) (ctx2 : AutomationContext) (account2 : AccountConfig.t)
         (w2 : World),
         grows (state w') st →
         StateStore.load root h (StateStore.save root h st fs) = Ok loaded →
         grows loaded (state w2) →
         ∃ evs : list event,
           trace (_engage_target fuel2 ctx2 account2 target w2).2
           = (evs ++ trace w2)%list
           ∧ ∀ ev, ev ∈ evs → follow_of ev ≠ Some d).
Proof.
  intros Hd Hown Hne [ts Hts] Hnot Hf He.
  pose proof (keeps_follow only_trace d (fun _ _ _ => I) w) as Hk.
  rewrite Hf in Hk. destruct Hk as (_ & _ & Hs). simpl in Hs.
  assert (Hset :
    followed (AccountState.target (TargetConfig.handle target)
                (followed_add (TargetConfig.handle target) d (state w)))
    = {[ d ]} ∪ followed (AccountState.target (TargetConfig.handle target) (state w))).
  { unfold Storage.AccountState.target. simpl.
    rewrite lookup_alter_eq, Hts. reflexivity. }
  eexists. split; [|split; [|split; [|split; [|split]]]].
  - eapply engage_body_failed_follow; eassumption.
  - simpl. now rewrite Hs.
  - simpl. rewrite Hs. exact Hset.
  - reflexivity.
  - intros w2 counts2 Hown2 Hin. eapply engage_body_skips_followed; eassumption.
  - intros st loaded root h fs fuel2 ctx2 account2 w2 Hgrow Hload Hlater.
    simpl in Hgrow. rewrite Hs in Hgrow.
    assert (Hst : loaded = st).
    { unfold StateStore.load, StateStore.save in Hload.
      rewrite lookup_insert_eq, AccountState_round_trip in Hload. congruence. }
    subst loaded.
    assert (H1 : is_Some (targets (followed_add (TargetConfig.handle target) d (state w))
                          !! TargetConfig.handle target)).
    { unfold followed_add. simpl. rewrite lookup_alter_eq, Hts. simpl. eauto. }
    assert (H2 : d ∈ followed (AccountState.target (TargetConfig.handle target)
                                 (followed_add (TargetConfig.handle target) d (state w)))).
    { rewrite Hset. apply elem_of_union_l, elem_of_singleton. reflexivity. }
    destruct (grows_keeps_followed _ _ _ _ H1 H2 Hgrow) as [H3 H4].
    destruct (grows_keeps_followed _ _ _ _ H3 H4 Hlater) as [_ H5].
    now apply engage_target_passes_over.
Qed.

Lemma failed_follow_is_recorded_witness :
  ∃ w',
    @engage_body Scenario.follow_failing
      (Scenario.context (Scenario.account [Scenario.target None] Scenario.no_dm))
      (Scenario.account [Scenario.target None] Scenario.no_dm)
      (Scenario.target None)
      (JDict [("did", JStr "did:f1"); ("handle", JStr "f1.example")]) (0, 0)
      (set_state (Storage.AccountState.ensure_target "star.example" AccountState_new)
                 Scenario.logged_in)
    = (Ok (Next, (0, 0)), w')
    ∧ state w'
      = followed_add "star.example" "did:f1"
          (Storage.AccountState.ensure_target "star.example" AccountState_new)
    ∧ followed (AccountState.target "star.example" (state w'))
      = {[ "did:f1" ]} ∪ followed (AccountState.target "star.example"
            (Storage.AccountState.ensure_target "star.example" AccountState_new))
    ∧ trace w'
      = [ Call (CreateFollow (JStr "did:me") "did:f1" 0) (Http 500 NoContent) ]
    ∧ (∀ w2 counts2,
         py_truthy (_did (client w2)) = true →
         "did:f1" ∈ followed (AccountState.target "star.example" (state w2)) →
         @engage_body Scenario.follow_failing
           (Scenario.context (Scenario.account [Scenario.target None] Scenario.no_dm))
           (Scenario.account [Scenario.target None] Scenario.no_dm)
           (Scenario.target None)
           (JDict [("did", JStr "did:f1"); ("handle", JStr "f1.example")]) counts2 w2
         = (Ok (Next, counts2), w2))
    ∧ (∀ (st loaded : AccountState) (root : Path) (h : string) (fs : files)
         (fuel2 : nat) (ctx2 : AutomationContext) (account2 : AccountConfig.t)
         (w2 : World),
         grows (state w') st →
         StateStore.load root h (StateStore.save root h st fs) = Ok loaded →
         grows loaded (state w2) →
         ∃ evs : list event,
           trace (@_engage_target Scenario.lib Scenario.follow_failing
                    fuel2 ctx2 account2 (Scenario.target None) w2).2
           = (evs ++ trace w2)%list
           ∧ ∀ ev, ev ∈ evs → follow_of ev ≠ Some "did:f1").
Proof.
  apply (@failed_follow_is_recorded Scenario.lib Scenario.follow_failing
           (Scenario.context (Scenario.account [Scenario.target None] Scenario.no_dm))
           (Scenario.account [Scenario.target None] Scenario.no_dm)
           (Scenario.target None)
           [("did", JStr "did:f1"); ("handle", JStr "f1.example")] "did:f1" (0, 0)
           (set_state (Storage.AccountState.ensure_target "star.example" AccountState_new)
                      Scenario.logged_in)
           (set_trace
              [ Call (CreateFollow (JStr "did:me") "did:f1" 0) (Http 500 NoContent) ]
              (set_state (Storage.AccountState.ensure_target "star.example" AccountState_new)
                         Scenario.logged_in))
           BlueskyError).
  - reflexivity.
  - reflexivity.
  - reflexivity.
  - vm_compute. eauto.
  - vm_compute. set_solver.
  - reflexivity.
  - reflexivity.
Defined.

(** Two runs against [Scenario.follow_rejecting]: the first gets to its end
    and saves, the second loads the file and sends no follow request. *)
Example failed_follow_not_retried_once_saved :
  omap follow_of (trace Scenario.saved_run) = [ "did:f1" ]
  ∧ StateStore.load [ "state" ] "me.example" (disk Scenario.saved_run)
    = Ok (state Scenario.saved_run)
  ∧ omap follow_of (trace Scenario.run_after_saved) = [ "did:f1" ].
Proof.
  split; [|split].
  - vm_compute. reflexivity.
  - unfold StateStore.load.
    replace (disk Scenario.saved_run)
      with (StateStore.save [ "state" ] "me.example" (state Scenario.saved_run) ∅)
      by (vm_compute; reflexivity).
    unfold StateStore.save. rewrite lookup_insert_eq. apply AccountState_round_trip.
  - vm_compute. reflexivity.
Qed.

(** C5, as stated, fails in two ways.

    The record of a failed follow reaches a later run only through the save
    at the end of the run.  In [Scenario.first_run] the follow request for
    [did:f1] fails and the identifier is put into [followed]; the request for
    the next page of followers then fails, the exception leaves
    [_engage_target] and [_run_for_account], and nothing is saved.
    [Scenario.second_run] starts from an empty store and sends the follow
    request for [did:f1] again.

    A follow request that fails with something else than a [BlueskyError] (a
    broken connection) is not caught: the identifier is not recorded and the
    loop does not go on. *)
Lemma failed_follow_retried_after_lost_save :
  ("did:f1" ∈ followed (AccountState.target "star.example" (state Scenario.first_run))
   ∧ disk Scenario.first_run = ∅
   ∧ omap follow_of (trace Scenario.first_run) = [ "did:f1" ]
   ∧ omap follow_of (trace Scenario.second_run) = [ "did:f1"; "did:f1" ])
  ∧ (@engage_body Scenario.unreachable_follow
       (Scenario.context (Scenario.account [Scenario.target None] Scenario.no_dm))
       (Scenario.account [Scenario.target None] Scenario.no_dm)
       (Scenario.target None)
       (Scenario.follower_record "did:f1" "f1.example") (0, 0)
       (set_state (Storage.AccountState.ensure_target "star.example" AccountState_new)
                  Scenario.logged_in)).1
    = Raise TransportError
  ∧ followed (AccountState.target "star.example"
       (state (@engage_body Scenario.unreachable_follow
          (Scenario.context (Scenario.account [Scenario.target None] Scenario.no_dm))
          (Scenario.account [Scenario.target None] Scenario.no_dm)
          (Scenario.target None)
          (Scenario.follower_record "did:f1" "f1.example") (0, 0)
          (set_state (Storage.AccountState.ensure_target "star.example" AccountState_new)
                     Scenario.logged_in)).2))
    = ∅.
Proof.
  split; [split; [|split; [|split]] | split].
  - apply (bool_decide_unpack _). vm_compute. exact I.
  - vm_compute. reflexivity.
  - vm_compute. reflexivity.
  - vm_compute. reflexivity.
  - vm_compute. reflexivity.
  - vm_compute. reflexivity.
Qed.
